(** * CostcoPriceApp: the extraction-and-diff pipeline

    A shallow embedding of [costcowest_scraper.py] and
    [price_diff_notifier.py].

    - Text is a Rocq [string]: a sequence of 8-bit characters read as the
      code points U+0000..U+00FF, with Python's character classes on
      that range.
    - A Python [float] is a binary64 number, modelled by [spec_float]
      with the operations of [SpecFloat] at precision 53.
    - Exceptions are explicit: a computation that may raise returns a
      [result].
    - A Python [dict] is an association list in insertion order, a
      [set] is a [gset]. *)

From Stdlib Require Import ZArith Lia Ascii String.
From Stdlib Require Import Sorting.Sorted.
From Stdlib Require Import Floats.SpecFloat.
From stdpp Require Import base decidable option list strings gmap.

Local Open Scope Z_scope.

(** ** Characters *)

Module PyChar.

Definition code (c : ascii) : Z := Z.of_N (N_of_ascii c).

(** [\d] of [re] on text, and the digits [float()] reads: the decimal
    digits, which below U+0100 are '0'..'9'. *)
Definition is_decimal (c : ascii) : bool :=
  (48 <=? code c) && (code c <=? 57).

(** [str.isdigit]: the decimal digits and the superscripts
    U+00B2, U+00B3 and U+00B9. *)
Definition isdigit (c : ascii) : bool :=
  is_decimal c || (code c =? 178) || (code c =? 179) || (code c =? 185).

(** [str.isspace], also the class [\s] of [re] on text. *)
Definition isspace (c : ascii) : bool :=
  ((9 <=? code c) && (code c <=? 13))
  || ((28 <=? code c) && (code c <=? 32))
  || (code c =? 133) || (code c =? 160).

(** [str.lower] on one character: 'A'..'Z' and U+00C0..U+00DE but
    U+00D7. *)
Definition lower (c : ascii) : ascii :=
  if ((65 <=? code c) && (code c <=? 90))
     || ((192 <=? code c) && (code c <=? 222) && negb (code c =? 215))
  then ascii_of_N (N_of_ascii c + 32)
  else c.

Definition digit_value (c : ascii) : Z := code c - 48.

End PyChar.

(** ** Text *)

Module PyStr.

Definition chars (s : string) : list ascii := list_ascii_of_string s.
Definition text (l : list ascii) : string := string_of_list_ascii l.

(** [s.lower()] *)
Definition lower (s : string) : string :=
  text (List.map PyChar.lower (chars s)).

Fixpoint lstrip (l : list ascii) : list ascii :=
  match l with
  | c :: l' => if PyChar.isspace c then lstrip l' else l
  | [] => []
  end.

(** [s.strip()] *)
Definition strip (s : string) : string :=
  text (rev (lstrip (rev (lstrip (chars s))))).

(** [''.join(ch for ch in s if (ch.isdigit() or ch == '.'))] *)
Definition digits_and_dots (s : string) : string :=
  text (List.filter (fun ch => PyChar.isdigit ch || Ascii.eqb ch ".") (chars s)).

(** The longest prefix whose characters satisfy [p], and the rest. *)
Fixpoint span (p : ascii -> bool) (l : list ascii) : list ascii * list ascii :=
  match l with
  | c :: l' =>
      if p c then let '(a, b) := span p l' in (c :: a, b) else ([], l)
  | [] => ([], [])
  end.

(** [re.sub(r"\s+", " ", ...)]: every run of white space becomes one
    space. [in_run] tells that the previous character was white space. *)
Fixpoint collapse (in_run : bool) (l : list ascii) : list ascii :=
  match l with
  | c :: l' =>
      if PyChar.isspace c
      then if in_run then collapse true l' else " "%char :: collapse true l'
      else c :: collapse false l'
  | [] => []
  end.

End PyStr.

(** [clean_text(t)]: [re.sub(r"\s+", " ", t or "").strip()] *)
Definition clean_text (t : string) : string :=
  PyStr.strip (PyStr.text (PyStr.collapse false (PyStr.chars t))).

(** ** Floats *)

Module PyFloat.

Definition prec : Z := 53.
Definition emax : Z := 1024.

Definition float : Type := spec_float.

Definition zero : float := S754_zero false.

Definition add : float -> float -> float := SFadd prec emax.
Definition sub : float -> float -> float := SFsub prec emax.
Definition mul : float -> float -> float := SFmul prec emax.
Definition ltb : float -> float -> bool := SFltb.

(** [bool(x)]: every float but the two zeros is true. *)
Definition truthy (x : float) : bool :=
  match x with
  | S754_zero _ => false
  | _ => true
  end.

(** The float nearest to [n / 10^k], ties to even: what [float()]
    returns on a decimal numeral with digits [n] and [k] digits after
    the point. The division of [SpecFloat] rounds the exact quotient of
    the two integers once. *)
Definition of_decimal (n : Z) (k : nat) : float :=
  match n with
  | Zpos p =>
      SFdiv prec emax (S754_finite false p 0)
                      (S754_finite false (Z.to_pos (10 ^ Z.of_nat k)) 0)
  | _ => zero
  end.

(** The integer nearest to [n / d], ties to even, for [0 <= n], [0 < d]. *)
Definition nearest_even (n d : Z) : Z :=
  let q := n / d in
  match 2 * (n mod d) ?= d with
  | Lt => q
  | Eq => if Z.even q then q else q + 1
  | Gt => q + 1
  end.

(** [round(x, ndigits)] for [0 <= ndigits]: the exact value of [x] is
    rounded to [ndigits] decimals, ties to even, and the decimal
    numeral obtained is read back as a float. Infinities and NaN round
    to themselves. *)
Definition round (x : float) (ndigits : nat) : float :=
  match x with
  | S754_finite s m e =>
      if 0 <=? e then x
      else
        match nearest_even (Zpos m * 10 ^ Z.of_nat ndigits) (2 ^ (- e)) with
        | Zpos q =>
            match of_decimal (Zpos q) ndigits with
            | S754_finite _ m' e' => S754_finite s m' e'
            | S754_zero _ => S754_zero s
            | S754_infinity _ => S754_infinity s
            | S754_nan => S754_nan
            end
        | _ => S754_zero s
        end
  | _ => x
  end.

(** The integer [n] as a float, as in [x * 100]. *)
Definition of_int (n : Z) : float := of_decimal n 0.

Definition emin : Z := SpecFloat.emin prec emax.

(** A float that is not negative and not NaN, and whose exponent, when
    finite, is in the range of binary64. *)
Definition nonneg (x : float) : bool :=
  match x with
  | S754_zero s | S754_infinity s => negb s
  | S754_finite s _ e => negb s && (emin <=? e)
  | S754_nan => false
  end.

(** [0 < x] *)
Definition is_positive (x : float) : bool := nonneg x && truthy x.

End PyFloat.

(** ** Exceptions *)

Inductive exn : Type := ValueError | ZeroDivisionError | IndexError.

Inductive result (A : Type) : Type :=
| Ok (a : A)
| Raise (e : exn).

Arguments Ok {A} a.
Arguments Raise {A} e.

Definition bind {A B : Type} (r : result A) (k : A -> result B) : result B :=
  match r with
  | Ok a => k a
  | Raise e => Raise e
  end.

Notation "'let*' x ':=' r 'in' k" := (bind r (fun x => k))
  (at level 10, x name, r at level 200, k at level 200).

(** [try: return <r> except ValueError: return None] *)
Definition except_ValueError {A : Type} (r : result A) : result (option A) :=
  match r with
  | Ok a => Ok (Some a)
  | Raise ValueError => Ok None
  | Raise e => Raise e
  end.

(** [x / y] on floats. *)
Definition py_div (x y : PyFloat.float) : result PyFloat.float :=
  if PyFloat.truthy y then Ok (SFdiv PyFloat.prec PyFloat.emax x y)
  else Raise ZeroDivisionError.

(** ** Numeric parsing *)

(** The number written by a list of decimal digits. *)
Definition digits_value (l : list ascii) : Z :=
  fold_left (fun n c => 10 * n + PyChar.digit_value c) l 0.

(** [float(s)] for the arguments the program passes: text made of
    [isdigit] characters and points. Such a text is a numeral when it
    has at most one point, at least one digit, and all its digits are
    decimal ones; anything else is a [ValueError]. *)
Definition py_float (s : string) : result PyFloat.float :=
  let '(int_part, rest) := PyStr.span PyChar.is_decimal (PyStr.chars s) in
  match rest with
  | [] =>
      match int_part with
      | [] => Raise ValueError
      | _ => Ok (PyFloat.of_decimal (digits_value int_part) 0)
      end
  | c :: frac =>
      if Ascii.eqb c "." && forallb PyChar.is_decimal frac
         && negb (Nat.eqb (length int_part + length frac) 0)
      then Ok (PyFloat.of_decimal (digits_value (int_part ++ frac)) (length frac))
      else Raise ValueError
  end.

(** [parse_price] of [price_diff_notifier.py]. *)
Definition parse_price (price_str : string) : result (option PyFloat.float) :=
  if String.eqb price_str "" then Ok None
  else except_ValueError (py_float (PyStr.digits_and_dots price_str)).

(** The pattern [\d+\.\d{2}] tried at the head of [l]: the whole run of
    digits, a point, two digits. A shorter run of digits is followed by a
    digit, so no other way to match exists. *)
Definition match_decimal2 (l : list ascii) : option (list ascii) :=
  let '(ds, rest) := PyStr.span PyChar.is_decimal l in
  match ds, rest with
  | _ :: _, dot :: d1 :: d2 :: _ =>
      if Ascii.eqb dot "." && PyChar.is_decimal d1 && PyChar.is_decimal d2
      then Some (ds ++ [dot; d1; d2])
      else None
  | _, _ => None
  end.

(** [re.search(r"\d+\.\d{2}", s)]: the match at the leftmost position
    that has one. *)
Fixpoint search_decimal2 (l : list ascii) : option (list ascii) :=
  match l with
  | [] => None
  | _ :: l' =>
      match match_decimal2 l with
      | Some m => Some m
      | None => search_decimal2 l'
      end
  end.

(** [to_float] of [save_csv]. *)
Definition save_to_float (val : string) : result (option PyFloat.float) :=
  if String.eqb val "" then Ok None
  else
    match search_decimal2 (PyStr.chars val) with
    | Some m => except_ValueError (py_float (PyStr.text m))
    | None => Ok None
    end.

(** [to_float] of [recompute_csv]. *)
Definition recompute_to_float (v : string) : result (option PyFloat.float) :=
  except_ValueError (py_float (PyStr.digits_and_dots v)).

(** What a parsing routine returns: no value, or a float that is not
    negative. *)
Definition parsed (r : result (option PyFloat.float)) : Prop :=
  r = Ok None \/ exists x, r = Ok (Some x) /\ PyFloat.nonneg x = true.

(** ** Records *)

(** A CSV cell holds text, or a float not yet written out. *)
Inductive cell : Type :=
| CStr (s : string)
| CNum (x : PyFloat.float).

Definition cell_empty (c : cell) : bool :=
  match c with
  | CStr s => String.eqb s ""
  | CNum _ => false
  end.

(** The dict [extract_items_from_post] appends to [items]. *)
Module Item.
Record t : Type := mk {
  post_title : string;
  post_date : string;
  product_name : string;
  sale_price : string;
  regular_price : string;
  instant_savings : string;
  source_url : string
}.
End Item.

(** A row of a snapshot file, with the columns of [fieldnames]. *)
Module Sale.
Record t : Type := mk {
  post_title : string;
  post_date : string;
  product_name : string;
  sale_price : string;
  regular_price : string;
  instant_savings : string;
  approx_regular_price : cell;
  discount_percent : cell;
  source_url : string;
  scraped_at : string
}.
End Sale.

(** A dict [compare] appends to [drops]. *)
Module Drop.
Record t : Type := mk {
  product_name : string;
  old_price : PyFloat.float;
  new_price : PyFloat.float;
  drop_amount : PyFloat.float;
  post_title : string;
  post_date : string;
  source_url : string
}.
End Drop.

(** ** Derived metrics *)

(** [bool(x)] for the result of a parsing routine: [None] and zero are
    false. *)
Definition py_bool (x : option PyFloat.float) : bool :=
  match x with
  | Some f => PyFloat.truthy f
  | None => false
  end.

(** The [if sale and instant: ... else: ...] of [save_csv] and of
    [recompute_csv]: the cells [approx_regular_price] and
    [discount_percent]. *)
Definition derived_fields (sale instant : option PyFloat.float)
  : result (cell * cell) :=
  match sale, instant with
  | Some s, Some i =>
      if PyFloat.truthy s && PyFloat.truthy i then
        let regular := PyFloat.add s i in
        let approx := PyFloat.round regular 2 in
        let* q := py_div i regular in
        Ok (CNum approx, CNum (PyFloat.round (PyFloat.mul q (PyFloat.of_int 100)) 1))
      else Ok (CStr "", CStr "")
  | _, _ => Ok (CStr "", CStr "")
  end.

(** The body of the loop of [save_csv] over [rows]. *)
Definition save_row (now : string) (r : Item.t) : result Sale.t :=
  let* sale := save_to_float (Item.sale_price r) in
  let* instant := save_to_float (Item.instant_savings r) in
  let* d := derived_fields sale instant in
  Ok {| Sale.post_title := Item.post_title r;
        Sale.post_date := Item.post_date r;
        Sale.product_name := Item.product_name r;
        Sale.sale_price := Item.sale_price r;
        Sale.regular_price := Item.regular_price r;
        Sale.instant_savings := Item.instant_savings r;
        Sale.approx_regular_price := fst d;
        Sale.discount_percent := snd d;
        Sale.source_url := Item.source_url r;
        Sale.scraped_at := now |}.

(** The body of the loop of [recompute_csv] over the rows read. *)
Definition recompute_row (r : Sale.t) : result Sale.t :=
  let* sale := recompute_to_float (Sale.sale_price r) in
  let* instant := recompute_to_float (Sale.instant_savings r) in
  let* d := derived_fields sale instant in
  Ok {| Sale.post_title := Sale.post_title r;
        Sale.post_date := Sale.post_date r;
        Sale.product_name := Sale.product_name r;
        Sale.sale_price := Sale.sale_price r;
        Sale.regular_price := Sale.regular_price r;
        Sale.instant_savings := Sale.instant_savings r;
        Sale.approx_regular_price := fst d;
        Sale.discount_percent := snd d;
        Sale.source_url := Sale.source_url r;
        Sale.scraped_at := Sale.scraped_at r |}.

(** A loop that stops at the first exception. *)
Fixpoint for_each {A B : Type} (f : A -> result B) (l : list A) : result (list B) :=
  match l with
  | [] => Ok []
  | a :: l' =>
      let* b := f a in
      let* bs := for_each f l' in
      Ok (b :: bs)
  end.

(** The rows [save_csv] writes. *)
Definition save_csv (now : string) (rows : list Item.t) : result (list Sale.t) :=
  for_each (save_row now) rows.

(** [rows[0]] *)
Definition first_row {A : Type} (rows : list A) : result A :=
  match rows with
  | r :: _ => Ok r
  | [] => Raise IndexError
  end.

(** The rows [recompute_csv] writes, for a file that exists. The loop
    over the rows read comes first; the writer then takes its columns
    from [rows[0].keys()], which raises [IndexError] when the file has
    no data row. The output file is open for writing by then, so it is
    left empty. *)
Definition recompute_csv (rows : list Sale.t) : result (list Sale.t) :=
  let* out := for_each recompute_row rows in
  let* _ := first_row out in
  Ok out.

(** A row as it is read back after [csv.DictWriter] wrote it: a float
    cell comes back as the text [str] gave for it. [float_repr] is that
    [str] on floats. *)
Definition written (float_repr : PyFloat.float -> string) (c : cell) : string :=
  match c with
  | CStr s => s
  | CNum x => float_repr x
  end.

Definition reread (float_repr : PyFloat.float -> string) (r : Sale.t) : Sale.t :=
  {| Sale.post_title := Sale.post_title r;
     Sale.post_date := Sale.post_date r;
     Sale.product_name := Sale.product_name r;
     Sale.sale_price := Sale.sale_price r;
     Sale.regular_price := Sale.regular_price r;
     Sale.instant_savings := Sale.instant_savings r;
     Sale.approx_regular_price := CStr (written float_repr (Sale.approx_regular_price r));
     Sale.discount_percent := CStr (written float_repr (Sale.discount_percent r));
     Sale.source_url := Sale.source_url r;
     Sale.scraped_at := Sale.scraped_at r |}.

(** Two rows with the same text in the columns that are not derived. *)
Definition same_source_columns (r r' : Sale.t) : Prop :=
  Sale.post_title r = Sale.post_title r'
  /\ Sale.post_date r = Sale.post_date r'
  /\ Sale.product_name r = Sale.product_name r'
  /\ Sale.sale_price r = Sale.sale_price r'
  /\ Sale.regular_price r = Sale.regular_price r'
  /\ Sale.instant_savings r = Sale.instant_savings r'
  /\ Sale.source_url r = Sale.source_url r'
  /\ Sale.scraped_at r = Sale.scraped_at r'.

(** ** Dictionaries

    A [dict] keeps its keys in the order of their first insertion;
    assigning to a key already present replaces the value in place. *)

Section Dict.
Context {K V : Type} `{EqDecision K}.

Fixpoint dict_get (k : K) (d : list (K * V)) : option V :=
  match d with
  | [] => None
  | (k', v) :: d' => if decide (k = k') then Some v else dict_get k d'
  end.

(** [d[k] = v] *)
Fixpoint dict_set (k : K) (v : V) (d : list (K * V)) : list (K * V) :=
  match d with
  | [] => [(k, v)]
  | (k', v') :: d' =>
      if decide (k = k') then (k, v) :: d' else (k', v') :: dict_set k v d'
  end.

Definition dict_keys (d : list (K * V)) : list K := fst <$> d.
End Dict.

(** ** Snapshot differ *)

Definition key : Type := string * string.

(** [(row["product_name"].strip().lower(), row["source_url"].strip())] *)
Definition row_key (row : Sale.t) : key :=
  (PyStr.lower (PyStr.strip (Sale.product_name row)),
   PyStr.strip (Sale.source_url row)).

(** [load_csv], on the rows of the file in file order. *)
Definition load_csv (rows : list Sale.t) : list (key * Sale.t) :=
  fold_left (fun data row => dict_set (row_key row) row data) rows [].

Definition make_drop (new_item : Sale.t) (old_price new_price : PyFloat.float)
  : Drop.t :=
  {| Drop.product_name := Sale.product_name new_item;
     Drop.old_price := old_price;
     Drop.new_price := new_price;
     Drop.drop_amount := PyFloat.round (PyFloat.sub old_price new_price) 2;
     Drop.post_title := Sale.post_title new_item;
     Drop.post_date := Sale.post_date new_item;
     Drop.source_url := Sale.source_url new_item |}.

(** [old_price and new_price and new_price < old_price] *)
Definition is_drop (old_price new_price : option PyFloat.float) : bool :=
  match old_price, new_price with
  | Some o, Some n => PyFloat.truthy o && PyFloat.truthy n && PyFloat.ltb n o
  | _, _ => false
  end.

(** The body of the loop of [compare]: the drops one entry of [new_data]
    appends. *)
Definition compare_item (old_data : list (key * Sale.t)) (entry : key * Sale.t)
  : result (list Drop.t) :=
  match dict_get (fst entry) old_data with
  | None => Ok []
  | Some old_item =>
      let* old_price := parse_price (Sale.sale_price old_item) in
      let* new_price := parse_price (Sale.sale_price (snd entry)) in
      match old_price, new_price with
      | Some o, Some n =>
          if is_drop old_price new_price then Ok [make_drop (snd entry) o n]
          else Ok []
      | _, _ => Ok []
      end
  end.

(** The drops of one entry as a plain list: [compare_item] where no
    parsing routine raises. *)
Definition drops_of (old_data : list (key * Sale.t)) (entry : key * Sale.t)
  : list Drop.t :=
  match dict_get (fst entry) old_data with
  | None => []
  | Some old_item =>
      match parse_price (Sale.sale_price old_item),
            parse_price (Sale.sale_price (snd entry)) with
      | Ok (Some o), Ok (Some n) =>
          if is_drop (Some o) (Some n) then [make_drop (snd entry) o n] else []
      | _, _ => []
      end
  end.

(** The identity key of a drop, computed as [load_csv] computes the key
    of a row. *)
Definition drop_key (d : Drop.t) : key :=
  (PyStr.lower (PyStr.strip (Drop.product_name d)),
   PyStr.strip (Drop.source_url d)).

(** [compare(old_data, new_data)] *)
Definition compare (old_data new_data : list (key * Sale.t))
  : result (list Drop.t) :=
  let* per_item := for_each (compare_item old_data) new_data in
  Ok (concat per_item).

(** What [main] prints and [save_drops] writes, in this order: the list
    [compare] returned, as it is. *)
Definition reported_drops (old_rows new_rows : list Sale.t)
  : result (list Drop.t) :=
  compare (load_csv old_rows) (load_csv new_rows).

(** ** Price token scanner *)

(** At most [n] leading characters that satisfy [p], and the rest. *)
Fixpoint span_upto (n : nat) (p : ascii -> bool) (l : list ascii)
  : list ascii * list ascii :=
  match n, l with
  | S n', c :: l' =>
      if p c then let '(a, b) := span_upto n' p l' in (c :: a, b) else ([], l)
  | _, _ => ([], l)
  end.

(** [(?:\$|CAD\s*\$?)] at the head of [l]: what it consumes, and the rest. *)
Definition match_currency (l : list ascii) : option (list ascii * list ascii) :=
  match l with
  | "$"%char :: r => Some (["$"%char], r)
  | "C"%char :: "A"%char :: "D"%char :: r =>
      let '(ws, r1) := PyStr.span PyChar.isspace r in
      match r1 with
      | "$"%char :: r2 => Some ("C"%char :: "A"%char :: "D"%char :: ws ++ ["$"%char], r2)
      | _ => Some ("C"%char :: "A"%char :: "D"%char :: ws, r1)
      end
  | _ => None
  end.

(** [PRICE_RE] tried at the head of [l]; the text matched. Greedy choices
    are final here: once a digit is read all that follows is optional,
    and before it giving back white space or the dollar sign never
    uncovers a digit. *)
Definition match_PRICE_RE (l : list ascii) : option (list ascii) :=
  match match_currency l with
  | None => None
  | Some (cur, r) =>
      let '(ws, r1) := PyStr.span PyChar.isspace r in
      let '(d, r2) := span_upto 3 PyChar.is_decimal r1 in
      match d with
      | [] => None
      | _ :: _ =>
          let '(g, r3) :=
            span_upto 3 (fun c => Ascii.eqb c "," || PyChar.is_decimal c) r2 in
          let frac :=
            match r3 with
            | dot :: d1 :: d2 :: _ =>
                if Ascii.eqb dot "." && PyChar.is_decimal d1 && PyChar.is_decimal d2
                then [dot; d1; d2] else []
            | _ => []
            end in
          Some (cur ++ ws ++ d ++ g ++ frac)
      end
  end.

(** [PRICE_RE.findall] from left to right; [skip] counts the characters
    of the last match still to pass over. *)
Fixpoint findall_from (skip : nat) (l : list ascii) : list string :=
  match l with
  | [] => []
  | _ :: l' =>
      match skip with
      | S k => findall_from k l'
      | O =>
          match match_PRICE_RE l with
          | Some m => PyStr.text m :: findall_from (length m - 1) l'
          | None => findall_from 0 l'
          end
      end
  end.

Definition PRICE_RE_findall (s : string) : list string :=
  findall_from 0 (PyStr.chars s).

(** [PRICE_RE.search(s)] finds a match. *)
Fixpoint search_from (l : list ascii) : bool :=
  match l with
  | [] => false
  | _ :: l' =>
      match match_PRICE_RE l with
      | Some _ => true
      | None => search_from l'
      end
  end.

Definition PRICE_RE_search (s : string) : bool := search_from (PyStr.chars s).

(** A word of the pattern read without regard to case. *)
Fixpoint match_word_ci (w l : list ascii) : option (list ascii) :=
  match w, l with
  | [], _ => Some l
  | a :: w', c :: l' =>
      if Ascii.eqb (PyChar.lower a) (PyChar.lower c) then match_word_ci w' l'
      else None
  | _ :: _, [] => None
  end.

(** [\(\$(\d+(?:\.\d{2})?)\s+INSTANT\s+SAVINGS], ignoring case, at the
    head of [l]; group 1. *)
Definition match_instant (l : list ascii) : option (list ascii) :=
  match l with
  | "("%char :: "$"%char :: r =>
      let '(ds, r1) := PyStr.span PyChar.is_decimal r in
      match ds with
      | [] => None
      | _ :: _ =>
          let '(amount, r2) :=
            match r1 with
            | dot :: d1 :: d2 :: r' =>
                if Ascii.eqb dot "." && PyChar.is_decimal d1 && PyChar.is_decimal d2
                then (ds ++ [dot; d1; d2], r') else (ds, r1)
            | _ => (ds, r1)
            end in
          let '(ws1, r3) := PyStr.span PyChar.isspace r2 in
          match ws1, match_word_ci (PyStr.chars "INSTANT") r3 with
          | _ :: _, Some r4 =>
              let '(ws2, r5) := PyStr.span PyChar.isspace r4 in
              match ws2, match_word_ci (PyStr.chars "SAVINGS") r5 with
              | _ :: _, Some _ => Some amount
              | _, _ => None
              end
          | _, _ => None
          end
      end
  | _ => None
  end.

Fixpoint search_instant (l : list ascii) : option (list ascii) :=
  match l with
  | [] => None
  | _ :: l' =>
      match match_instant l with
      | Some g => Some g
      | None => search_instant l'
      end
  end.

(** ** Extraction *)

(** A text node of the document with what the tree gives for it: its
    text, the [alt] of the image found by [parent.find_previous("img")]
    when there is one, and the result of [nearest_text_before]. *)
Module TextNode.
Record t : Type := mk {
  text : string;
  img_alt : option string;
  nearest_text_before : string
}.
End TextNode.

(** The name resolved for a node: the image's [alt], else the text
    before the price. *)
Definition resolve_name (t : TextNode.t) : string :=
  let name :=
    match TextNode.img_alt t with
    | Some alt => if String.eqb alt "" then "" else clean_text alt
    | None => ""
    end in
  if String.eqb name "" then TextNode.nearest_text_before t else name.

(** [all_prices[-1] if all_prices else ""] *)
Definition last_price (txt : string) : string :=
  match last (PRICE_RE_findall txt) with
  | Some p => p
  | None => ""
  end.

(** The instant savings read from the cleaned text, [""] without one. *)
Definition instant_of (txt : string) : string :=
  match search_instant (PyStr.chars txt) with
  | Some g => PyStr.text g
  | None => ""
  end.

Section Scan.
Variables (source_url post_title : string) (post_date : option string).

(** The state of the scan: [items] and [seen_pairs]. *)
Definition scan_state : Type := list Item.t * gset (string * string).

(** The key of an occurrence in [seen_pairs]:
    [(name.lower(), sale_price)]. *)
Definition occurrence_key (t : TextNode.t) : string * string :=
  (PyStr.lower (resolve_name t), last_price (clean_text (TextNode.text t))).

(** The dict appended to [items] for the node [t]. *)
Definition new_item (t : TextNode.t) : Item.t :=
  {| Item.post_title := post_title;
     Item.post_date := default "" post_date;
     Item.product_name := resolve_name t;
     Item.sale_price := last_price (clean_text (TextNode.text t));
     Item.regular_price := "";
     Item.instant_savings := instant_of (clean_text (TextNode.text t));
     Item.source_url := source_url |}.

(** The body of the loop over [texts]. *)
Definition visit (st : scan_state) (t : TextNode.t) : scan_state :=
  let txt := clean_text (TextNode.text t) in
  let sale_price := last_price txt in
  if String.eqb sale_price "" then st
  else
    let name := resolve_name t in
    let key := (PyStr.lower name, sale_price) in
    if String.eqb name "" || bool_decide (key ∈ snd st) then st
    else (fst st ++ [new_item t], {[ key ]} ∪ snd st).

(** [scope.find_all(string=PRICE_RE)]: the text nodes of the scope, in
    document order, whose text has a match. *)
Definition find_all (scope : list TextNode.t) : list TextNode.t :=
  List.filter (fun t => PRICE_RE_search (TextNode.text t)) scope.

Definition scan_scope (st : scan_state) (scope : list TextNode.t) : scan_state :=
  fold_left visit (find_all scope) st.

(** [extract_items_from_post], on the scopes selected, each with its
    text nodes. *)
Definition extract_items_from_post (content_scopes : list (list TextNode.t))
  : list Item.t :=
  fst (fold_left scan_scope content_scopes ([], ∅)).
End Scan.

(** The key of a record, as [seen_pairs] holds it. *)
Definition item_key (it : Item.t) : string * string :=
  (PyStr.lower (Item.product_name it), Item.sale_price it).

(** The text nodes the scan visits, in the order it visits them. *)
Definition texts (content_scopes : list (list TextNode.t)) : list TextNode.t :=
  concat (find_all <$> content_scopes).

(** ** Normal form of cleaned text *)

(** White space occurs in [l] only as single spaces, none right after a
    position where [after_space] holds. *)
Fixpoint single_spaced (after_space : bool) (l : list ascii) : bool :=
  match l with
  | [] => true
  | c :: l' =>
      if PyChar.isspace c
      then Ascii.eqb c " " && negb after_space && single_spaced true l'
      else single_spaced false l'
  end.

(** The last character of [l], if any, is not white space. *)
Definition ends_clean (l : list ascii) : bool :=
  match rev l with
  | c :: _ => negb (PyChar.isspace c)
  | [] => true
  end.

(** The characters [digits_and_dots] keeps. *)
Definition kept (c : ascii) : bool := PyChar.isdigit c || Ascii.eqb c ".".

(** ** Watchlist *)

(** The characters [str.splitlines] breaks lines at: line feed, vertical
    tab, form feed, carriage return, the separators U+001C to U+001E and
    U+0085. *)
Definition is_linebreak (c : ascii) : bool :=
  ((10 <=? PyChar.code c) && (PyChar.code c <=? 13))
  || ((28 <=? PyChar.code c) && (PyChar.code c <=? 30))
  || (PyChar.code c =? 133).

(** [s.splitlines()] on the characters of [s]; [cur] holds the line being
    read, last character first. A carriage return followed by a line
    feed is one break, and a break at the end of the text opens no
    line. *)
Fixpoint splitlines_from (cur : list ascii) (l : list ascii) : list (list ascii) :=
  match l with
  | [] => match cur with [] => [] | _ :: _ => [rev cur] end
  | c :: l' =>
      if is_linebreak c then
        rev cur ::
          match l' with
          | c' :: l'' =>
              if Ascii.eqb c "013" && Ascii.eqb c' "010"
              then splitlines_from [] l''
              else splitlines_from [] l'
          | [] => splitlines_from [] l'
          end
      else splitlines_from (c :: cur) l'
  end.

Definition splitlines (s : string) : list string :=
  List.map PyStr.text (splitlines_from [] (PyStr.chars s)).

(** [load_watchlist]; [content] is the text of the file, [None] when no
    path is given or the file does not exist. *)
Definition load_watchlist (content : option string) : list string :=
  match content with
  | None => []
  | Some s =>
      List.map PyStr.strip
        (List.filter (fun line => negb (String.eqb (PyStr.strip line) ""))
           (splitlines s))
  end.

(** [a in b] on text: [a] occurs in [b]. *)
Fixpoint starts_with (a l : list ascii) : bool :=
  match a, l with
  | [], _ => true
  | x :: a', y :: l' => Ascii.eqb x y && starts_with a' l'
  | _ :: _, [] => false
  end.

Fixpoint occurs_in (a l : list ascii) : bool :=
  starts_with a l ||
  match l with
  | [] => false
  | _ :: l' => occurs_in a l'
  end.

(** [any(w.lower() in name for w in watch)] with
    [name = it["product_name"].lower()]. *)
Definition on_watchlist (watch : list string) (it : Item.t) : bool :=
  existsb (fun w => occurs_in (PyStr.chars (PyStr.lower w))
                      (PyStr.chars (PyStr.lower (Item.product_name it))))
    watch.

(** [filter_by_watchlist] *)
Definition filter_by_watchlist (items : list Item.t) (watch : list string)
  : list Item.t :=
  match watch with
  | [] => []
  | _ :: _ => List.filter (on_watchlist watch) items
  end.

(** ** Sorting and extremes *)

Definition not_nan (x : PyFloat.float) : bool :=
  match x with
  | S754_nan => false
  | _ => true
  end.

(** The place of a float that is not NaN in the order of [<]: sign
    class, then exponent, then mantissa, the last two negated below
    zero. *)
Definition float_rank (x : PyFloat.float) : Z * (Z * Z) :=
  match x with
  | S754_infinity true => (-2, (0, 0))
  | S754_finite true m e => (-1, (- e, Zneg m))
  | S754_zero _ | S754_nan => (0, (0, 0))
  | S754_finite false m e => (1, (e, Zpos m))
  | S754_infinity false => (2, (0, 0))
  end.

Definition rank_lt (p q : Z * (Z * Z)) : Prop :=
  fst p < fst q
  \/ (fst p = fst q
      /\ (fst (snd p) < fst (snd q)
          \/ (fst (snd p) = fst (snd q) /\ snd (snd p) < snd (snd q)))).

Section Sorting.
Context {A : Type} (key : A -> PyFloat.float).

(** The key of [x] is a number. *)
Definition keyed (x : A) : Prop := not_nan (key x) = true.

(** [x] goes before the first element that is not below it: it was
    before all of [s] in the list being sorted. *)
Fixpoint insert_asc (x : A) (s : list A) : list A :=
  match s with
  | [] => [x]
  | y :: s' =>
      if PyFloat.ltb (key y) (key x) then y :: insert_asc x s' else x :: y :: s'
  end.

(** A stable sort by [key], ascending, that compares with [<] only. *)
Definition sorted_asc (l : list A) : list A := fold_right insert_asc [] l.

(** [sorted(l, key=key, reverse=True)]: the list is reversed, sorted
    ascending and stable, and reversed again. *)
Definition sorted_reverse (l : list A) : list A := rev (sorted_asc (rev l)).

(** [max(l, key=key)] after its first element: a later element takes
    over when its key is greater. *)
Fixpoint max_from (best : A) (l : list A) : A :=
  match l with
  | [] => best
  | x :: l' =>
      if PyFloat.ltb (key best) (key x) then max_from x l' else max_from best l'
  end.

(** [min(l, key=key)] after its first element. *)
Fixpoint min_from (best : A) (l : list A) : A :=
  match l with
  | [] => best
  | x :: l' =>
      if PyFloat.ltb (key x) (key best) then min_from x l' else min_from best l'
  end.
End Sorting.

(** [l[:n]] *)
Definition slice_to {A : Type} (n : Z) (l : list A) : list A :=
  if 0 <=? n then take (Z.to_nat n) l
  else take (length l - Z.to_nat (- n)) l.

(** ** Summary *)

(** [to_float] of [summarize_csv]. *)
Definition summary_to_float (v : string) : result (option PyFloat.float) :=
  except_ValueError (py_float (PyStr.digits_and_dots v)).

(** [pct >= 60] *)
Definition at_least_60 (pct : PyFloat.float) : bool :=
  SFleb (PyFloat.of_int 60) pct.

(** What [summarize_csv] prints, for a file that exists: nothing but a
    notice when the file has no row or no row with a discount; else the
    counts, the entries with the highest and the lowest discount, the
    flagged entries when asked for, and the ranking. The average, a sum
    of floats whose rounding is the interpreter's, is not part of the
    model. *)
Inductive summary : Type :=
| NoData
| NoDiscounts (total : nat)
| Report (total with_savings : nat)
    (highest lowest : PyFloat.float * Sale.t)
    (flagged : option (list (PyFloat.float * Sale.t)))
    (ranking : list (PyFloat.float * Sale.t)).

Section Summary.
Variable float_repr : PyFloat.float -> string.

(** The entry a row adds to [discounts]: its discount, when it parses to
    a number that is not zero. *)
Definition discount_entry (r : Sale.t) : result (list (PyFloat.float * Sale.t)) :=
  let* pct := summary_to_float (written float_repr (Sale.discount_percent r)) in
  Ok match pct with
     | Some p => if PyFloat.truthy p then [(p, r)] else []
     | None => []
     end.

Definition discounts (rows : list Sale.t) : result (list (PyFloat.float * Sale.t)) :=
  let* per_row := for_each discount_entry rows in
  Ok (concat per_row).

(** [summarize_csv], on the rows read. *)
Definition summarize_csv (rows : list Sale.t) (top_n : Z) (flag_high : bool)
  : result summary :=
  match rows with
  | [] => Ok NoData
  | _ :: _ =>
      let* ds := discounts rows in
      match ds with
      | [] => Ok (NoDiscounts (length rows))
      | d :: ds' =>
          Ok (Report (length rows) (length ds)
                (max_from fst d ds') (min_from fst d ds')
                (if flag_high
                 then Some (List.filter (fun e => at_least_60 (fst e)) ds)
                 else None)
                (slice_to top_n (sorted_reverse fst ds)))
      end
  end.
End Summary.

(** ** Choice of the snapshots to compare *)

(** A file of the data directory: its name and [stat().st_mtime]. *)
Module DataFile.
Record t : Type := mk {
  name : string;
  st_mtime : PyFloat.float
}.
End DataFile.

(** [auto_find_sales_files], on the files [glob] found: the pair
    (old, new), or [None] where the program exits. *)
Definition auto_find_sales_files (files : list DataFile.t)
  : option (DataFile.t * DataFile.t) :=
  match sorted_reverse DataFile.st_mtime files with
  | newest :: second :: _ => Some (second, newest)
  | _ => None
  end.

(** The entry of a row as a plain list: [discount_entry] where the
    parsing routine does not raise. *)
Definition discount_list (float_repr : PyFloat.float -> string) (r : Sale.t)
  : list (PyFloat.float * Sale.t) :=
  match summary_to_float (written float_repr (Sale.discount_percent r)) with
  | Ok (Some p) => if PyFloat.truthy p then [(p, r)] else []
  | _ => []
  end.

(** ** Text before a price *)

(** The text put in place of a price: the characters U+00C2, U+00A7,
    [PRICE], U+00C2, U+00A7 of the source. *)
Definition price_marker : list ascii :=
  [ascii_of_nat 194; ascii_of_nat 167; "P"; "R"; "I"; "C"; "E";
   ascii_of_nat 194; ascii_of_nat 167]%char.

(** [PRICE_RE.sub(marker, ...)], scanning as [findall] does. *)
Fixpoint sub_from (skip : nat) (l : list ascii) : list ascii :=
  match l with
  | [] => []
  | c :: l' =>
      match skip with
      | S k => sub_from k l'
      | O =>
          match match_PRICE_RE l with
          | Some m => price_marker ++ sub_from (length m - 1) l'
          | None => c :: sub_from 0 l'
          end
      end
  end.

(** [l.split(sep)[0]]: what comes before the first [sep]. *)
Fixpoint before_first (sep l : list ascii) : list ascii :=
  if starts_with sep l then []
  else
    match l with
    | [] => []
    | c :: l' => c :: before_first sep l'
    end.

(** The characters of the class the text is split at that a text of this
    model can hold: U+00E2, U+00A2, the hyphen, the bar, the colon and
    the line feed. The class also names U+20AC and U+201C. *)
Definition is_separator (c : ascii) : bool :=
  (PyChar.code c =? 226) || (PyChar.code c =? 162) || (PyChar.code c =? 45)
  || (PyChar.code c =? 124) || (PyChar.code c =? 58) || (PyChar.code c =? 10).

(** [re.split(class, l)[-1]]: what comes after the last separator;
    [cur] holds the chunk being read, last character first. *)
Fixpoint last_chunk (cur : list ascii) (l : list ascii) : list ascii :=
  match l with
  | [] => rev cur
  | c :: l' => if is_separator c then last_chunk [] l' else last_chunk (c :: cur) l'
  end.

(** [node.parent.previous_sibling]: a tag with its text, a string, or
    nothing. *)
Inductive sibling : Type :=
| PrevTag (text : string)
| PrevStr (s : string)
| PrevNone.

(** [s[-n:]] and [s[:n]] for [0 < n]. *)
Definition last_chars (n : nat) (s : string) : string :=
  PyStr.text (drop (length (PyStr.chars s) - n) (PyStr.chars s)).

Definition first_chars (n : nat) (s : string) : string :=
  PyStr.text (take n (PyStr.chars s)).

(** The text of the parent before its first price, stripped. *)
Definition left_of_price (parent_text : option string) : string :=
  let text := match parent_text with Some p => clean_text p | None => "" end in
  PyStr.strip
    (PyStr.text (before_first price_marker (sub_from 0 (PyStr.chars text)))).

(** [nearest_text_before(node)] with its default [max_chars], on the
    text of the parent of the node, [None] without a parent, and on the
    previous sibling of the parent. *)
Definition nearest_text_before (parent_text : option string) (prev : sibling)
  : string :=
  let left := left_of_price parent_text in
  if negb (String.eqb left "") then
    last_chars 180 (clean_text (PyStr.text (last_chunk [] (PyStr.chars left))))
  else
    match parent_text with
    | None => ""
    | Some _ =>
        match prev with
        | PrevTag t => first_chars 180 (clean_text t)
        | PrevStr s =>
            if String.eqb s "" then "" else first_chars 180 (clean_text s)
        | PrevNone => ""
        end
    end.

(** * Properties *)

(** ** Floats: what rounding keeps *)

Section FloatFacts.
Import PyFloat.

Lemma digits2_pos_lower (m : positive) :
  2 ^ (Zpos (digits2_pos m) - 1) <= Zpos m.
Proof.
  induction m as [m IH | m IH |]; cbn [digits2_pos].
  - rewrite Pos2Z.inj_succ.
    replace (Z.succ (Zpos (digits2_pos m)) - 1)
      with (Z.succ (Zpos (digits2_pos m) - 1)) by lia.
    rewrite Z.pow_succ_r by lia. lia.
  - rewrite Pos2Z.inj_succ.
    replace (Z.succ (Zpos (digits2_pos m)) - 1)
      with (Z.succ (Zpos (digits2_pos m) - 1)) by lia.
    rewrite Z.pow_succ_r by lia. lia.
  - reflexivity.
Qed.

Lemma shr_1_m (mrs : shr_record) :
  0 <= shr_m mrs -> shr_m (shr_1 mrs) = shr_m mrs / 2.
Proof.
  destruct mrs as [m r s]; cbn [shr_m]; intros Hm.
  destruct m as [| [p | p |] | p]; cbn [shr_1 shr_m]; try reflexivity; try lia.
  - apply Z.div_unique with (r := 1); lia.
  - apply Z.div_unique with (r := 0); lia.
Qed.

Lemma iter_shr_1_m (p : positive) :
  forall mrs, 0 <= shr_m mrs ->
    shr_m (SpecFloat.iter_pos shr_1 p mrs) = shr_m mrs / 2 ^ Zpos p.
Proof.
  assert (Hstep : forall mrs, 0 <= shr_m mrs -> 0 <= shr_m (shr_1 mrs)).
  { intros mrs H. rewrite shr_1_m by exact H. apply Z.div_pos; lia. }
  induction p as [p IH | p IH |]; intros mrs Hm; cbn [SpecFloat.iter_pos].
  - assert (H1 : 0 <= shr_m (shr_1 mrs)) by auto.
    assert (H2 : 0 <= shr_m (SpecFloat.iter_pos shr_1 p (shr_1 mrs))).
    { rewrite IH by exact H1. apply Z.div_pos; lia. }
    rewrite IH, IH, shr_1_m by assumption.
    rewrite !Z.div_div by lia. f_equal.
    replace (Zpos p~1) with (1 + Zpos p + Zpos p) by lia.
    rewrite !Z.pow_add_r by lia. lia.
  - assert (H2 : 0 <= shr_m (SpecFloat.iter_pos shr_1 p mrs)).
    { rewrite IH by exact Hm. apply Z.div_pos; lia. }
    rewrite IH, IH by assumption.
    rewrite Z.div_div by lia. f_equal.
    replace (Zpos p~0) with (Zpos p + Zpos p) by lia.
    rewrite Z.pow_add_r by lia. reflexivity.
  - rewrite shr_1_m by exact Hm. reflexivity.
Qed.

Lemma shr_record_of_loc_m (m : Z) (l : location) :
  shr_m (shr_record_of_loc m l) = m.
Proof. destruct l as [| []]; reflexivity. Qed.

(** The first step of rounding: the mantissa stays non-negative and the
    exponent lands in range. *)
Lemma shr_fexp_nonneg (m e : Z) (l : location) :
  0 <= m ->
  0 <= shr_m (fst (shr_fexp prec emax m e l))
  /\ emin <= snd (shr_fexp prec emax m e l).
Proof.
  intros Hm. unfold shr_fexp, shr, fexp, emin, SpecFloat.emin.
  destruct (Z.max (Zdigits2 m + e - prec) (3 - emax - prec) - e)
    as [| n | n] eqn:Hn; cbn [fst snd].
  - rewrite shr_record_of_loc_m. lia.
  - rewrite iter_shr_1_m by (rewrite shr_record_of_loc_m; exact Hm).
    rewrite shr_record_of_loc_m. split; [| lia].
    apply Z.div_pos; [exact Hm |]. apply Z.pow_pos_nonneg; lia.
  - rewrite shr_record_of_loc_m. lia.
Qed.

(** A positive mantissa with an exponent in range is not shifted out. *)
Lemma shr_fexp_pos (m : positive) (e : Z) (l : location) :
  emin <= e ->
  0 < shr_m (fst (shr_fexp prec emax (Zpos m) e l)).
Proof.
  intros He. unfold shr_fexp, shr, fexp, emin, SpecFloat.emin in *.
  cbn [Zdigits2].
  pose proof (digits2_pos_lower m) as Hd.
  destruct (Z.max (Zpos (digits2_pos m) + e - prec) (3 - emax - prec) - e)
    as [| n | n] eqn:Hn; cbn [fst snd].
  - rewrite shr_record_of_loc_m. lia.
  - rewrite iter_shr_1_m by (rewrite shr_record_of_loc_m; lia).
    rewrite shr_record_of_loc_m.
    apply Z.div_str_pos. split; [apply Z.pow_pos_nonneg; lia |].
    eapply Z.le_trans; [| exact Hd].
    apply Z.pow_le_mono_r; unfold prec in *; lia.
  - rewrite shr_record_of_loc_m. lia.
Qed.

Lemma round_nearest_even_ge (m : Z) (l : location) :
  m <= round_nearest_even m l.
Proof.
  unfold round_nearest_even.
  destruct l as [| []]; try destruct (Z.even m); lia.
Qed.

(** Rounding a non-negative mantissa gives a float that is not
    negative. *)
Lemma binary_round_aux_nonneg (m e : Z) (l : location) :
  0 <= m -> nonneg (binary_round_aux prec emax false m e l) = true.
Proof.
  intros Hm. unfold binary_round_aux.
  destruct (shr_fexp prec emax m e l) as [mrs1 e1] eqn:H1.
  pose proof (shr_fexp_nonneg m e l Hm) as [Hm1 _]. rewrite H1 in Hm1.
  cbn [fst] in Hm1.
  pose proof (round_nearest_even_ge (shr_m mrs1) (loc_of_shr_record mrs1)) as Hr.
  destruct (shr_fexp prec emax
              (round_nearest_even (shr_m mrs1) (loc_of_shr_record mrs1))
              e1 loc_Exact) as [mrs2 e2] eqn:H2.
  pose proof (shr_fexp_nonneg
                (round_nearest_even (shr_m mrs1) (loc_of_shr_record mrs1))
                e1 loc_Exact ltac:(lia)) as [Hm2 He2].
  rewrite H2 in Hm2, He2. cbn [fst snd] in Hm2, He2.
  destruct (shr_m mrs2) as [| p | p]; [reflexivity | | lia].
  destruct (e2 <=? emax - prec); [| reflexivity].
  cbn [nonneg negb andb]. apply Z.leb_le. exact He2.
Qed.

(** Rounding a positive mantissa whose exponent is in range gives a
    positive float. *)
Lemma binary_round_aux_pos (m : positive) (e : Z) (l : location) :
  emin <= e ->
  is_positive (binary_round_aux prec emax false (Zpos m) e l) = true.
Proof.
  intros He. unfold is_positive.
  rewrite binary_round_aux_nonneg by lia. cbn [andb].
  unfold binary_round_aux.
  destruct (shr_fexp prec emax (Zpos m) e l) as [mrs1 e1] eqn:H1.
  pose proof (shr_fexp_pos m e l He) as Hm1.
  pose proof (shr_fexp_nonneg (Zpos m) e l ltac:(lia)) as [_ He1].
  rewrite H1 in Hm1, He1. cbn [fst snd] in Hm1, He1.
  pose proof (round_nearest_even_ge (shr_m mrs1) (loc_of_shr_record mrs1)) as Hr.
  destruct (round_nearest_even (shr_m mrs1) (loc_of_shr_record mrs1))
    as [| q | q] eqn:Hq; try lia.
  destruct (shr_fexp prec emax (Zpos q) e1 loc_Exact) as [mrs2 e2] eqn:H2.
  pose proof (shr_fexp_pos q e1 loc_Exact He1) as Hm2.
  rewrite H2 in Hm2. cbn [fst] in Hm2.
  destruct (shr_m mrs2) as [| p | p]; [lia | | lia].
  destruct (e2 <=? emax - prec); reflexivity.
Qed.

Lemma div_finite_nonneg (m1 m2 : positive) (e1 e2 : Z) :
  nonneg (SFdiv prec emax (S754_finite false m1 e1) (S754_finite false m2 e2))
  = true.
Proof.
  cbn [SFdiv xorb]. unfold SFdiv_core_binary.
  set (e' := Z.min _ _). set (m' := match _ with Z0 => _ | _ => _ end).
  assert (Hm' : 0 <= m').
  { subst m'. destruct (e1 - e2 - e') eqn:Hs; try lia.
    apply Z.shiftl_nonneg. lia. }
  pose proof (Z_div_mod m' (Zpos m2) ltac:(lia)) as Hdiv.
  destruct (Z.div_eucl m' (Zpos m2)) as [q r].
  apply binary_round_aux_nonneg. nia.
Qed.

(** The float read from a decimal numeral is not negative. *)
Lemma of_decimal_nonneg (n : Z) (k : nat) : nonneg (of_decimal n k) = true.
Proof.
  unfold of_decimal. destruct n; try reflexivity. apply div_finite_nonneg.
Qed.

Lemma shl_align_exponent (m : positive) (e e' : Z) :
  emin <= e -> emin <= e' -> emin <= snd (shl_align m e e').
Proof.
  intros He He'. unfold shl_align. destruct (e' - e); cbn [snd]; lia.
Qed.

(** The sum of two positive floats is positive: it is never zero. *)
Lemma add_positive (x y : float) :
  is_positive x = true -> is_positive y = true -> is_positive (add x y) = true.
Proof.
  unfold is_positive, add.
  destruct x as [sx | sx | | sx mx ex], y as [sy | sy | | sy my ey];
    try destruct sx; try destruct sy; cbn [nonneg truthy negb andb];
    try discriminate; try reflexivity; intros Hx Hy;
    try (cbn [SFadd nonneg truthy negb andb];
         rewrite ?Hx, ?Hy; reflexivity).
  rewrite Bool.andb_true_r in Hx, Hy.
  apply Z.leb_le in Hx, Hy.
  cbn [SFadd cond_Zopp]. unfold binary_normalize.
  rewrite <- Pos2Z.inj_add. unfold binary_round.
  set (M := (fst (shl_align mx ex (Z.min ex ey))
             + fst (shl_align my ey (Z.min ex ey)))%positive).
  pose proof (shl_align_exponent M (Z.min ex ey)
                (fexp prec emax (Zpos (digits2_pos M) + Z.min ex ey))
                ltac:(lia)
                ltac:(unfold fexp, emin, SpecFloat.emin; lia)) as Hz.
  destruct (shl_align M (Z.min ex ey) _) as [mz ez]. cbn [snd] in Hz.
  apply (binary_round_aux_pos mz ez loc_Exact Hz).
Qed.

(** Dividing by a positive float raises nothing. *)
Lemma py_div_positive (x y : float) :
  is_positive y = true -> py_div x y = Ok (SFdiv prec emax x y).
Proof.
  unfold is_positive, py_div. intros [_ ->]%andb_prop. reflexivity.
Qed.
End FloatFacts.

(** ** Numeric parsing *)

Section ParsingFacts.
Import PyFloat.

(** [float()] raises nothing but [ValueError]. *)
Lemma py_float_raises (s : string) (e : exn) :
  py_float s = Raise e -> e = ValueError.
Proof.
  unfold py_float.
  destruct (PyStr.span PyChar.is_decimal (PyStr.chars s)) as [int_part rest].
  destruct rest as [| c frac].
  - destruct int_part; intros H; inversion H; reflexivity.
  - destruct (_ && _ && _); intros H; inversion H; reflexivity.
Qed.

(** What [float()] returns is not negative. *)
Lemma py_float_nonneg (s : string) (x : float) :
  py_float s = Ok x -> nonneg x = true.
Proof.
  unfold py_float.
  destruct (PyStr.span PyChar.is_decimal (PyStr.chars s)) as [int_part rest].
  destruct rest as [| c frac].
  - destruct int_part; intros H; inversion H. apply of_decimal_nonneg.
  - destruct (_ && _ && _); intros H; inversion H. apply of_decimal_nonneg.
Qed.

(** The [try] around [float()] returns a float that is not negative,
    or [None]. *)
Lemma except_py_float (s : string) :
  (exists x, py_float s = Ok x
             /\ except_ValueError (py_float s) = Ok (Some x)
             /\ nonneg x = true)
  \/ (py_float s = Raise ValueError
      /\ except_ValueError (py_float s) = Ok None).
Proof.
  destruct (py_float s) as [x | e] eqn:H.
  - left. exists x. eauto using py_float_nonneg.
  - right. apply py_float_raises in H as ->. split; reflexivity.
Qed.

Lemma parsed_except (s : string) : parsed (except_ValueError (py_float s)).
Proof.
  destruct (except_py_float s) as [(x & _ & H & Hx) | [_ H]]; rewrite H.
  - right. eauto.
  - left. reflexivity.
Qed.

Lemma parse_price_parsed (s : string) : parsed (parse_price s).
Proof.
  unfold parse_price. destruct (String.eqb s "").
  - left. reflexivity.
  - apply parsed_except.
Qed.

Lemma save_to_float_parsed (s : string) : parsed (save_to_float s).
Proof.
  unfold save_to_float. destruct (String.eqb s ""); [left; reflexivity |].
  destruct (search_decimal2 (PyStr.chars s)).
  - apply parsed_except.
  - left. reflexivity.
Qed.

Lemma recompute_to_float_parsed (s : string) : parsed (recompute_to_float s).
Proof. apply parsed_except. Qed.

Lemma parsed_ok (r : result (option float)) :
  parsed r -> exists v, r = Ok v.
Proof. intros [-> | (x & -> & _)]; eauto. Qed.

(** On parsed operands the derived fields are computed without an
    exception. *)
Lemma derived_fields_ok (sale instant : option float) :
  parsed (Ok sale) -> parsed (Ok instant) ->
  exists d, derived_fields sale instant = Ok d.
Proof.
  intros Hs Hi. unfold derived_fields.
  destruct sale as [s |]; [| eauto]. destruct instant as [i |]; [| eauto].
  destruct (truthy s && truthy i) eqn:Ht; [| eauto].
  apply andb_prop in Ht as [Hts Hti].
  destruct Hs as [Hs | (s' & Hs & Hns)]; [discriminate | inversion Hs; subst s'].
  destruct Hi as [Hi | (i' & Hi & Hni)]; [discriminate | inversion Hi; subst i'].
  rewrite py_div_positive; [cbn [bind]; eauto |].
  apply add_positive; unfold is_positive; rewrite ?Hns, ?Hni, ?Hts, ?Hti;
    reflexivity.
Qed.

Lemma for_each_ok {A B : Type} (f : A -> result B) (l : list A) :
  (forall a, exists b, f a = Ok b) -> exists bs, for_each f l = Ok bs.
Proof.
  intros Hf. induction l as [| a l [bs IH]]; cbn [for_each]; [eauto |].
  destruct (Hf a) as [b ->]. rewrite IH. cbn [bind]. eauto.
Qed.

Lemma save_row_ok (now : string) (r : Item.t) :
  exists r', save_row now r = Ok r'.
Proof.
  unfold save_row.
  pose proof (save_to_float_parsed (Item.sale_price r)) as Hs.
  pose proof (save_to_float_parsed (Item.instant_savings r)) as Hi.
  destruct (parsed_ok _ Hs) as [sale Es], (parsed_ok _ Hi) as [instant Ei].
  rewrite Es, Ei in *. cbn [bind].
  destruct (derived_fields_ok sale instant Hs Hi) as [d ->]. cbn [bind]. eauto.
Qed.

Lemma recompute_row_ok (r : Sale.t) : exists r', recompute_row r = Ok r'.
Proof.
  unfold recompute_row.
  pose proof (recompute_to_float_parsed (Sale.sale_price r)) as Hs.
  pose proof (recompute_to_float_parsed (Sale.instant_savings r)) as Hi.
  destruct (parsed_ok _ Hs) as [sale Es], (parsed_ok _ Hi) as [instant Ei].
  rewrite Es, Ei in *. cbn [bind].
  destruct (derived_fields_ok sale instant Hs Hi) as [d ->]. cbn [bind]. eauto.
Qed.

Lemma compare_item_ok (old_data : list (key * Sale.t)) (entry : key * Sale.t) :
  exists ds, compare_item old_data entry = Ok ds.
Proof.
  unfold compare_item. destruct (dict_get (fst entry) old_data) as [o |]; [| eauto].
  destruct (parsed_ok _ (parse_price_parsed (Sale.sale_price o))) as [po ->].
  destruct (parsed_ok _ (parse_price_parsed (Sale.sale_price (snd entry))))
    as [pn ->].
  cbn [bind]. destruct po, pn; try destruct (is_drop _ _); eauto.
Qed.

Lemma compare_ok (old_data new_data : list (key * Sale.t)) :
  exists ds, compare old_data new_data = Ok ds.
Proof.
  unfold compare.
  destruct (for_each_ok (compare_item old_data) new_data
              (compare_item_ok old_data)) as [per ->].
  cbn [bind]. eauto.
Qed.
End ParsingFacts.

(** Every row [for_each f] returns is the result of [f] on its row. *)
Lemma for_each_Forall2 {A B : Type} (f : A -> result B) (l : list A) (bs : list B) :
  for_each f l = Ok bs -> Forall2 (fun a b => f a = Ok b) l bs.
Proof.
  revert bs. induction l as [| a l IH]; cbn [for_each]; intros bs H.
  - inversion H. constructor.
  - destruct (f a) as [b |] eqn:Ha; [| discriminate]. cbn [bind] in H.
    destruct (for_each f l) as [bs' |]; [| discriminate]. cbn [bind] in H.
    inversion H. constructor; auto.
Qed.

Lemma Forall2_for_each {A B : Type} (f : A -> result B) (l : list A) (bs : list B) :
  Forall2 (fun a b => f a = Ok b) l bs -> for_each f l = Ok bs.
Proof.
  induction 1 as [| a b l bs Ha _ IH]; cbn [for_each]; [reflexivity |].
  rewrite Ha, IH. reflexivity.
Qed.

(** On a file with a data row [recompute_csv] returns the rows of its
    loop. *)
Lemma recompute_csv_Forall2 (rows out : list Sale.t) :
  rows <> [] ->
  Forall2 (fun r w => recompute_row r = Ok w) rows out ->
  recompute_csv rows = Ok out.
Proof.
  intros Hne H. unfold recompute_csv.
  rewrite (Forall2_for_each _ _ _ H). cbn [bind].
  destruct H as [| r w rows out _ _]; [contradiction | reflexivity].
Qed.

Lemma recompute_csv_rows (r : Sale.t) (rows : list Sale.t) :
  exists out,
    recompute_csv (r :: rows) = Ok out
    /\ Forall2 (fun r w => recompute_row r = Ok w) (r :: rows) out.
Proof.
  destruct (for_each_ok recompute_row (r :: rows) recompute_row_ok) as [out H].
  apply for_each_Forall2 in H. exists out.
  split; [apply recompute_csv_Forall2; [discriminate | exact H] | exact H].
Qed.

(** C9. For every input text, empty, malformed or not numeric, each of
    the three parsing routines returns: a float, or no value when
    [float()] fails or nothing is left to read; none of them raises.
    Hence persistence and diffing end without an exception on every
    input, and so does recomputation on every file that has a data row;
    the one exception recomputation raises is the [IndexError] of a file
    without any row, which no parsing gives rise to. *)
Theorem numeric_parsing_never_raises :
  (forall s, (exists v, parse_price s = Ok v)
             /\ (exists v, save_to_float s = Ok v)
             /\ (exists v, recompute_to_float s = Ok v))
  /\ (forall s e, py_float (PyStr.digits_and_dots s) = Raise e ->
                  parse_price s = Ok None /\ recompute_to_float s = Ok None)
  /\ (forall s, search_decimal2 (PyStr.chars s) = None -> save_to_float s = Ok None)
  /\ (parse_price "" = Ok None /\ save_to_float "" = Ok None
      /\ recompute_to_float "" = Ok None)
  /\ (forall now rows, exists out, save_csv now rows = Ok out)
  /\ (forall r rows, exists out, recompute_csv (r :: rows) = Ok out)
  /\ (forall rows e, recompute_csv rows = Raise e -> rows = [] /\ e = IndexError)
  /\ (forall old_data new_data, exists drops, compare old_data new_data = Ok drops).
Proof.
  repeat split.
  - apply parsed_ok, parse_price_parsed.
  - apply parsed_ok, save_to_float_parsed.
  - apply parsed_ok, recompute_to_float_parsed.
  - apply py_float_raises in H as He. subst e.
    unfold parse_price. destruct (String.eqb s ""); [reflexivity |].
    rewrite H. reflexivity.
  - apply py_float_raises in H as He. subst e.
    unfold recompute_to_float. rewrite H. reflexivity.
  - intros s H. unfold save_to_float. rewrite H.
    destruct (String.eqb s ""); reflexivity.
  - intros now rows. apply for_each_ok, save_row_ok.
  - intros r rows. destruct (recompute_csv_rows r rows) as (out & H & _).
    eauto.
  - destruct rows as [| r rows]; [reflexivity |].
    destruct (recompute_csv_rows r rows) as (out & Hout & _).
    rewrite Hout in H. discriminate.
  - destruct rows as [| r rows]; [cbn in H; inversion H; reflexivity |].
    destruct (recompute_csv_rows r rows) as (out & Hout & _).
    rewrite Hout in H. discriminate.
  - intros old_data new_data. apply compare_ok.
Qed.

(** Two points in one numeral: [float()] fails and both routines return
    no value. *)
Lemma numeric_parsing_never_raises_witness :
  parse_price "$1.2.3" = Ok None /\ recompute_to_float "$1.2.3" = Ok None.
Proof.
  apply (proj1 (proj2 numeric_parsing_never_raises) "$1.2.3" ValueError).
  vm_compute. reflexivity.
Defined.

(** ** Prices with two decimals *)

Section TwoDecimals.
Import PyFloat.

Lemma span_run (p : ascii -> bool) (a : list ascii) (x : ascii) (r : list ascii) :
  forallb p a = true -> p x = false ->
  PyStr.span p (a ++ x :: r) = (a, x :: r).
Proof.
  intros Ha Hx. induction a as [| c a IH]; cbn [app PyStr.span].
  - rewrite Hx. reflexivity.
  - cbn [forallb] in Ha. apply andb_prop in Ha as [-> Ha].
    rewrite (IH Ha). reflexivity.
Qed.

Lemma filter_run (p : ascii -> bool) (a : list ascii) :
  forallb p a = true -> List.filter p a = a.
Proof.
  induction a as [| c a IH]; cbn [forallb List.filter]; [reflexivity |].
  intros [-> Ha]%andb_prop. rewrite (IH Ha). reflexivity.
Qed.

Lemma forallb_weaken (p q : ascii -> bool) (a : list ascii) :
  (forall c, p c = true -> q c = true) ->
  forallb p a = true -> forallb q a = true.
Proof.
  intros Hpq. induction a as [| c a IH]; cbn [forallb]; [reflexivity |].
  intros [Hc Ha]%andb_prop. rewrite (Hpq c Hc), (IH Ha). reflexivity.
Qed.

Lemma chars_text (l : list ascii) : PyStr.chars (PyStr.text l) = l.
Proof. apply list_ascii_of_string_of_list_ascii. Qed.

(** The numeral [a.bc] read by [float()]. *)
Lemma py_float_two_decimals (a : list ascii) (b c : ascii) :
  a <> [] -> forallb PyChar.is_decimal a = true ->
  PyChar.is_decimal b = true -> PyChar.is_decimal c = true ->
  py_float (PyStr.text (a ++ ["."%char; b; c]))
  = Ok (of_decimal (digits_value (a ++ [b; c])) 2).
Proof.
  intros Hne Ha Hb Hc. unfold py_float. rewrite chars_text.
  rewrite (span_run _ a "." [b; c] Ha eq_refl).
  cbn [forallb Ascii.eqb]. rewrite Hb, Hc. cbn [andb].
  destruct a as [| d a]; [contradiction |]. reflexivity.
Qed.

(** The search finds the whole numeral at its first digit. *)
Lemma search_two_decimals (a : list ascii) (b c : ascii) :
  a <> [] -> forallb PyChar.is_decimal a = true ->
  PyChar.is_decimal b = true -> PyChar.is_decimal c = true ->
  search_decimal2 (a ++ ["."%char; b; c]) = Some (a ++ ["."%char; b; c]).
Proof.
  intros Hne Ha Hb Hc.
  assert (Hm : match_decimal2 (a ++ ["."%char; b; c])
               = Some (a ++ ["."%char; b; c])).
  { unfold match_decimal2. rewrite (span_run _ a "." [b; c] Ha eq_refl).
    destruct a as [| d a]; [contradiction |].
    cbn [Ascii.eqb]. rewrite Hb, Hc. reflexivity. }
  destruct a as [| d a]; [contradiction |].
  cbn [app search_decimal2]. cbn [app] in Hm. rewrite Hm. reflexivity.
Qed.

(** For every price text of the form [$a.bc], with [a] a run of digits,
    the three parsing routines return the number [a.bc]. *)
Lemma two_decimals_recovered (a : list ascii) (b c : ascii) :
  a <> [] -> forallb PyChar.is_decimal a = true ->
  PyChar.is_decimal b = true -> PyChar.is_decimal c = true ->
  let s := PyStr.text ("$"%char :: a ++ ["."%char; b; c]) in
  let x := of_decimal (digits_value (a ++ [b; c])) 2 in
  parse_price s = Ok (Some x)
  /\ save_to_float s = Ok (Some x)
  /\ recompute_to_float s = Ok (Some x).
Proof.
  intros Hne Ha Hb Hc s x.
  assert (Hkeep : PyStr.digits_and_dots s = PyStr.text (a ++ ["."%char; b; c])).
  { unfold PyStr.digits_and_dots, s. rewrite chars_text.
    cbn [List.filter]. change (PyChar.isdigit "$" || Ascii.eqb "$" ".") with false.
    cbn iota. rewrite filter_run; [reflexivity |].
    rewrite forallb_app. apply andb_true_intro. split.
    - revert Ha. apply forallb_weaken. intros d Hd. unfold PyChar.isdigit.
      rewrite Hd. reflexivity.
    - cbn [forallb]. unfold PyChar.isdigit. rewrite Hb, Hc. reflexivity. }
  assert (Hfloat := py_float_two_decimals a b c Hne Ha Hb Hc).
  split; [| split].
  - unfold parse_price. change (String.eqb s "") with false. cbn iota.
    rewrite Hkeep, Hfloat. reflexivity.
  - unfold save_to_float. change (String.eqb s "") with false. cbn iota.
    unfold s. rewrite chars_text. cbn [search_decimal2].
    change (match_decimal2 ("$"%char :: a ++ ["."%char; b; c])) with (@None (list ascii)).
    cbn iota. rewrite (search_two_decimals a b c Hne Ha Hb Hc).
    rewrite Hfloat. reflexivity.
  - unfold recompute_to_float. rewrite Hkeep, Hfloat. reflexivity.
Qed.
End TwoDecimals.


(** C3, at inputs where the two routines differ. The savings amount [5],
    as the scanner reads it from [($5 INSTANT SAVINGS)], has no value at
    persistence time and the value 5 at recomputation time, so the row
    saved with empty derived fields gets 24.99 and 20.0 when recomputed;
    on [$1,234.56] both return a number, and not the same one. *)
Theorem to_float_variants_differ :
  save_to_float "5" = Ok None
  /\ recompute_to_float "5" = Ok (Some (PyFloat.of_decimal 5 0))
  /\ instant_of "($5 INSTANT SAVINGS) $19.99" = "5"
  /\ (exists saved recomputed,
        save_row "t0" (Item.mk "Sales" "" "Widget" "$19.99" "" "5" "u") = Ok saved
        /\ Sale.approx_regular_price saved = CStr ""
        /\ Sale.discount_percent saved = CStr ""
        /\ recompute_row saved = Ok recomputed
        /\ Sale.approx_regular_price recomputed = CNum (PyFloat.of_decimal 2499 2)
        /\ Sale.discount_percent recomputed = CNum (PyFloat.of_decimal 200 1))
  /\ save_to_float "$1,234.56" <> recompute_to_float "$1,234.56".
Proof.
  split; [vm_compute; reflexivity |].
  split; [vm_compute; reflexivity |].
  split; [vm_compute; reflexivity |].
  split.
  - do 2 eexists. split; [vm_compute; reflexivity |].
    repeat split; vm_compute; reflexivity.
  - vm_compute. discriminate.
Qed.

(** ** Derived metrics *)

Section MetricsFacts.
Import PyFloat.

Lemma parsed_truthy (x : option float) :
  parsed (Ok x) -> py_bool x = true ->
  exists f, x = Some f /\ is_positive f = true.
Proof.
  intros [H | (f & H & Hn)] Ht; inversion H; subst x; [discriminate |].
  exists f. unfold is_positive. cbn [py_bool] in Ht. rewrite Hn, Ht. eauto.
Qed.

Lemma is_positive_truthy (f : float) : is_positive f = true -> truthy f = true.
Proof. unfold is_positive. intros [_ H]%andb_prop. exact H. Qed.

(** Both operands positive: both fields by the formula. *)
Lemma derived_fields_positive (s i : float) :
  is_positive s = true -> is_positive i = true ->
  derived_fields (Some s) (Some i)
  = Ok (CNum (round (add s i) 2),
        CNum (round (mul (SFdiv prec emax i (add s i)) (of_int 100)) 1)).
Proof.
  intros Hs Hi. unfold derived_fields.
  rewrite (is_positive_truthy s Hs), (is_positive_truthy i Hi). cbn [andb].
  rewrite py_div_positive by (apply add_positive; assumption).
  reflexivity.
Qed.

(** An operand missing or zero: both fields empty. *)
Lemma derived_fields_empty (sale instant : option float) :
  py_bool sale = false \/ py_bool instant = false ->
  derived_fields sale instant = Ok (CStr "", CStr "").
Proof.
  unfold derived_fields.
  destruct sale as [s |], instant as [i |]; cbn [py_bool]; try reflexivity.
  intros [-> | ->]; rewrite ?Bool.andb_false_r; reflexivity.
Qed.

(** The contract of the calculator on the operands a parsing routine
    returned. *)
Lemma derived_fields_contract (sale instant : option float) :
  parsed (Ok sale) -> parsed (Ok instant) ->
  exists approx discount,
    derived_fields sale instant = Ok (approx, discount)
    /\ (forall s i, sale = Some s -> instant = Some i ->
        is_positive s = true -> is_positive i = true ->
        approx = CNum (round (add s i) 2)
        /\ discount
           = CNum (round (mul (SFdiv prec emax i (add s i)) (of_int 100)) 1))
    /\ (py_bool sale = false \/ py_bool instant = false ->
        approx = CStr "" /\ discount = CStr "")
    /\ (py_bool sale = true -> exists s, sale = Some s /\ is_positive s = true)
    /\ (py_bool instant = true -> exists i, instant = Some i /\ is_positive i = true)
    /\ (cell_empty approx = true <-> cell_empty discount = true).
Proof.
  intros Ps Pi.
  destruct (py_bool sale) eqn:Ts, (py_bool instant) eqn:Ti.
  1: { destruct (parsed_truthy sale Ps Ts) as (s & -> & Hs).
       destruct (parsed_truthy instant Pi Ti) as (i & -> & Hi).
       rewrite (derived_fields_positive s i Hs Hi).
       do 2 eexists. split; [reflexivity |].
       split; [intros s' i' [= <-] [= <-] _ _; split; reflexivity |].
       split; [intros [? | ?]; discriminate |].
       split; [eauto |]. split; [eauto |].
       cbn [cell_empty]. split; discriminate. }
  all: rewrite (derived_fields_empty sale instant) by auto;
    do 2 eexists; (split; [reflexivity |]);
    (split; [intros s i -> -> Hs Hi;
             apply is_positive_truthy in Hs; apply is_positive_truthy in Hi;
             cbn [py_bool] in *; congruence |]);
    (split; [intros _; split; reflexivity |]);
    (split; [intros Ht; try discriminate; eapply parsed_truthy; eassumption |]);
    (split; [intros Ht; try discriminate; eapply parsed_truthy; eassumption |]);
    cbn [cell_empty]; split; reflexivity.
Qed.
End MetricsFacts.

(** C4. For every record the calculator processes, at persistence time
    and at recomputation time: when the sale price and the instant
    savings both parse to positive numbers, [approx_regular_price] is
    [round(sale + savings, 2)] and [discount_percent] is
    [round(savings / (sale + savings) * 100, 1)]; when one of them is
    missing or parses to zero, both fields are empty; a parsed operand is
    in one of the two cases; and one derived field is empty exactly when
    the other is. *)
Theorem derived_metrics_contract :
  (forall now r, exists sale instant r',
      save_to_float (Item.sale_price r) = Ok sale
      /\ save_to_float (Item.instant_savings r) = Ok instant
      /\ save_row now r = Ok r'
      /\ (forall s i, sale = Some s -> instant = Some i ->
          PyFloat.is_positive s = true -> PyFloat.is_positive i = true ->
          Sale.approx_regular_price r' = CNum (PyFloat.round (PyFloat.add s i) 2)
          /\ Sale.discount_percent r'
             = CNum (PyFloat.round
                       (PyFloat.mul
                          (SFdiv PyFloat.prec PyFloat.emax i (PyFloat.add s i))
                          (PyFloat.of_int 100)) 1))
      /\ (py_bool sale = false \/ py_bool instant = false ->
          Sale.approx_regular_price r' = CStr ""
          /\ Sale.discount_percent r' = CStr "")
      /\ (py_bool sale = true ->
          exists s, sale = Some s /\ PyFloat.is_positive s = true)
      /\ (py_bool instant = true ->
          exists i, instant = Some i /\ PyFloat.is_positive i = true)
      /\ (cell_empty (Sale.approx_regular_price r') = true
          <-> cell_empty (Sale.discount_percent r') = true))
  /\ (forall r, exists sale instant r',
      recompute_to_float (Sale.sale_price r) = Ok sale
      /\ recompute_to_float (Sale.instant_savings r) = Ok instant
      /\ recompute_row r = Ok r'
      /\ (forall s i, sale = Some s -> instant = Some i ->
          PyFloat.is_positive s = true -> PyFloat.is_positive i = true ->
          Sale.approx_regular_price r' = CNum (PyFloat.round (PyFloat.add s i) 2)
          /\ Sale.discount_percent r'
             = CNum (PyFloat.round
                       (PyFloat.mul
                          (SFdiv PyFloat.prec PyFloat.emax i (PyFloat.add s i))
                          (PyFloat.of_int 100)) 1))
      /\ (py_bool sale = false \/ py_bool instant = false ->
          Sale.approx_regular_price r' = CStr ""
          /\ Sale.discount_percent r' = CStr "")
      /\ (py_bool sale = true ->
          exists s, sale = Some s /\ PyFloat.is_positive s = true)
      /\ (py_bool instant = true ->
          exists i, instant = Some i /\ PyFloat.is_positive i = true)
      /\ (cell_empty (Sale.approx_regular_price r') = true
          <-> cell_empty (Sale.discount_percent r') = true)).
Proof.
  split.
  - intros now r. unfold save_row.
    pose proof (save_to_float_parsed (Item.sale_price r)) as Hs.
    pose proof (save_to_float_parsed (Item.instant_savings r)) as Hi.
    destruct (parsed_ok _ Hs) as [sale Es], (parsed_ok _ Hi) as [instant Ei].
    rewrite Es, Ei in *. cbn [bind].
    destruct (derived_fields_contract sale instant Hs Hi)
      as (approx & discount & -> & Hd).
    cbn [bind fst snd]. do 3 eexists.
    split; [reflexivity |]. split; [reflexivity |]. split; [reflexivity |].
    exact Hd.
  - intros r. unfold recompute_row.
    pose proof (recompute_to_float_parsed (Sale.sale_price r)) as Hs.
    pose proof (recompute_to_float_parsed (Sale.instant_savings r)) as Hi.
    destruct (parsed_ok _ Hs) as [sale Es], (parsed_ok _ Hi) as [instant Ei].
    rewrite Es, Ei in *. cbn [bind].
    destruct (derived_fields_contract sale instant Hs Hi)
      as (approx & discount & -> & Hd).
    cbn [bind fst snd]. do 3 eexists.
    split; [reflexivity |]. split; [reflexivity |]. split; [reflexivity |].
    exact Hd.
Qed.

(** The formula at work: $19.99 with $5.00 of savings gives 24.99 and
    20.0 percent, at persistence and at recomputation. *)
Lemma derived_metrics_contract_witness :
  exists r',
    save_row "2025-10-21T09:00:00"
      (Item.mk "Weekly sales" "" "Widget" "$19.99" "" "5.00" "u") = Ok r'
    /\ Sale.approx_regular_price r' = CNum (PyFloat.of_decimal 2499 2)
    /\ Sale.discount_percent r' = CNum (PyFloat.of_decimal 200 1).
Proof.
  destruct (proj1 derived_metrics_contract "2025-10-21T09:00:00"
              (Item.mk "Weekly sales" "" "Widget" "$19.99" "" "5.00" "u"))
    as (sale & instant & r' & Es & Ei & Er & Hpos & _).
  exists r'. split; [exact Er |].
  vm_compute in Es, Ei. inversion Es; inversion Ei; subst sale instant.
  destruct (Hpos _ _ eq_refl eq_refl) as [Ha Hd];
    [vm_compute; reflexivity | vm_compute; reflexivity |].
  rewrite Ha, Hd. split; vm_compute; reflexivity.
Defined.

(** ** Recomputation *)

(** [recompute_row] reads nothing of the derived columns. *)
Lemma recompute_row_reads (r r' : Sale.t) :
  same_source_columns r r' -> recompute_row r = recompute_row r'.
Proof.
  destruct r, r'. unfold same_source_columns, recompute_row. cbn.
  intros (-> & -> & -> & -> & -> & -> & -> & ->). reflexivity.
Qed.

(** It leaves the other columns as they are. *)
Lemma recompute_row_keeps (r r1 : Sale.t) :
  recompute_row r = Ok r1 -> same_source_columns r1 r.
Proof.
  unfold recompute_row. intros H.
  destruct (recompute_to_float (Sale.sale_price r)); [| discriminate].
  destruct (recompute_to_float (Sale.instant_savings r)); [| discriminate].
  cbn [bind] in H. destruct (derived_fields _ _); [| discriminate].
  cbn [bind] in H. inversion H. repeat split.
Qed.

Lemma reread_keeps (float_repr : PyFloat.float -> string) (r : Sale.t) :
  same_source_columns (reread float_repr r) r.
Proof. repeat split. Qed.

(** C5. Recomputation is idempotent. For every row, the row
    [recompute_csv] produces is produced again when the operation is
    applied to it, as it stands in memory or as read back from the file
    written, where the derived columns hold the text of the floats: they
    are computed from [sale_price] and [instant_savings] alone. The same
    holds for a whole file that has a data row; on a file with none the
    operation raises [IndexError] and produces no row. *)
Theorem recompute_idempotent (float_repr : PyFloat.float -> string) :
  (forall r, exists r1,
      recompute_row r = Ok r1
      /\ recompute_row r1 = Ok r1
      /\ recompute_row (reread float_repr r1) = Ok r1)
  /\ (forall r rows, exists out,
      recompute_csv (r :: rows) = Ok out
      /\ recompute_csv out = Ok out
      /\ recompute_csv (List.map (reread float_repr) out) = Ok out)
  /\ recompute_csv [] = Raise IndexError.
Proof.
  assert (Hrow : forall r r1, recompute_row r = Ok r1 ->
            recompute_row r1 = Ok r1
            /\ recompute_row (reread float_repr r1) = Ok r1).
  { intros r r1 H. pose proof (recompute_row_keeps r r1 H) as Hk.
    rewrite (recompute_row_reads r1 r Hk).
    rewrite (recompute_row_reads (reread float_repr r1) r1 (reread_keeps _ _)).
    rewrite (recompute_row_reads r1 r Hk). auto. }
  split; [| split; [| reflexivity]].
  - intros r. destruct (recompute_row_ok r) as [r1 H].
    exists r1. split; [exact H |]. exact (Hrow r r1 H).
  - intros r rows. destruct (recompute_csv_rows r rows) as (out & Hout & H).
    exists out. split; [exact Hout |].
    assert (Hne : out <> []) by (inversion H; discriminate).
    remember (r :: rows) as l eqn:El. clear El Hout.
    split; apply recompute_csv_Forall2.
    + exact Hne.
    + clear Hne. induction H as [| r0 r1 rows0 out Hr _ IH]; constructor;
        [| exact IH].
      exact (proj1 (Hrow r0 r1 Hr)).
    + destruct out; [contradiction | discriminate].
    + clear Hne. induction H as [| r0 r1 rows0 out Hr _ IH]; cbn [List.map];
        constructor; [| exact IH].
      exact (proj2 (Hrow r0 r1 Hr)).
Qed.

(** ** Dictionaries *)

Section DictFacts.
Context {K V : Type} `{EqDecision K}.
Implicit Types (k : K) (v : V) (d : list (K * V)).

Lemma dict_get_set_eq k v d : dict_get k (dict_set k v d) = Some v.
Proof.
  induction d as [| [k' v'] d IH]; cbn [dict_set dict_get].
  - rewrite decide_True by reflexivity. reflexivity.
  - destruct (decide (k = k')) as [<- | Hne]; cbn [dict_get].
    + rewrite decide_True by reflexivity. reflexivity.
    + rewrite decide_False by exact Hne. exact IH.
Qed.

Lemma dict_get_set_ne k k' v d :
  k <> k' -> dict_get k' (dict_set k v d) = dict_get k' d.
Proof.
  intros Hne. induction d as [| [k2 v2] d IH]; cbn [dict_set dict_get].
  - rewrite decide_False by congruence. reflexivity.
  - destruct (decide (k = k2)) as [<- | Hne2]; cbn [dict_get].
    + rewrite !decide_False by congruence. reflexivity.
    + destruct (decide (k' = k2)); [reflexivity | exact IH].
Qed.

Lemma dict_get_None k d : dict_get k d = None <-> k ∉ dict_keys d.
Proof.
  unfold dict_keys. induction d as [| [k' v'] d IH]; cbn [dict_get fmap list_fmap].
  - split; [intros _; apply not_elem_of_nil | reflexivity].
  - rewrite not_elem_of_cons. cbn [fst].
    destruct (decide (k = k')) as [-> | Hne].
    + split; [discriminate | intros [Hc _]; contradiction].
    + rewrite IH. tauto.
Qed.

(** Assigning keeps the place of a key already there and puts a new key
    last. *)
Lemma dict_keys_set k v d :
  dict_keys (dict_set k v d)
  = if decide (k ∈ dict_keys d) then dict_keys d else dict_keys d ++ [k].
Proof.
  unfold dict_keys. induction d as [| [k' v'] d IH]; cbn [dict_set fmap list_fmap].
  - rewrite decide_False by apply not_elem_of_nil. reflexivity.
  - cbn [fst]. destruct (decide (k = k')) as [<- | Hne].
    + cbn [fmap list_fmap fst]. rewrite decide_True by apply list_elem_of_here.
      reflexivity.
    + cbn [fmap list_fmap fst]. rewrite IH.
      destruct (decide (k ∈ fst <$> d)) as [Hin | Hnin].
      * rewrite decide_True by (apply list_elem_of_further; exact Hin).
        reflexivity.
      * rewrite decide_False by (rewrite elem_of_cons; tauto). reflexivity.
Qed.

Lemma dict_set_NoDup k v d :
  NoDup (dict_keys d) -> NoDup (dict_keys (dict_set k v d)).
Proof.
  intros Hd. rewrite dict_keys_set.
  destruct (decide (k ∈ dict_keys d)) as [Hin | Hnin]; [exact Hd |].
  apply NoDup_app. split; [exact Hd |]. split.
  - intros x Hx ->%list_elem_of_singleton. contradiction.
  - apply NoDup_singleton.
Qed.

(** The entries of [dict_set k v d]: the new one, or one of [d]. *)
Lemma dict_set_entries k v d (e : K * V) :
  e ∈ dict_set k v d -> e = (k, v) \/ e ∈ d.
Proof.
  induction d as [| [k' v'] d IH]; cbn [dict_set].
  - intros ->%list_elem_of_singleton. left. reflexivity.
  - destruct (decide (k = k')) as [<- | Hne]; rewrite !elem_of_cons; intuition.
Qed.
End DictFacts.

(** ** Snapshot differ *)

Section DifferFacts.
Implicit Types (rows : list Sale.t) (k : key).

Lemma load_csv_snoc rows (r : Sale.t) :
  load_csv (rows ++ [r]) = dict_set (row_key r) r (load_csv rows).
Proof. unfold load_csv. rewrite fold_left_app. reflexivity. Qed.

(** A loaded snapshot has each key once. *)
Lemma load_csv_NoDup rows : NoDup (dict_keys (load_csv rows)).
Proof.
  induction rows as [| r rows IH] using rev_ind.
  - apply NoDup_nil_2.
  - rewrite load_csv_snoc. apply dict_set_NoDup, IH.
Qed.

(** Every row is stored under its own key. *)
Lemma load_csv_keyed rows (e : key * Sale.t) :
  e ∈ load_csv rows -> row_key (snd e) = fst e.
Proof.
  induction rows as [| r rows IH] using rev_ind.
  - intros H. apply elem_of_nil in H. contradiction.
  - rewrite load_csv_snoc. intros [-> | H]%dict_set_entries; auto.
Qed.

(** The row found under a key is the last row of the file with that
    key. *)
Lemma load_csv_lookup rows k :
  dict_get k (load_csv rows) = last (filter (fun r => row_key r = k) rows).
Proof.
  induction rows as [| r rows IH] using rev_ind; [reflexivity |].
  rewrite load_csv_snoc, filter_app.
  destruct (decide (row_key r = k)) as [<- | Hne].
  - rewrite dict_get_set_eq, filter_cons_True, filter_nil by reflexivity.
    rewrite last_snoc. reflexivity.
  - rewrite dict_get_set_ne by exact Hne.
    rewrite filter_cons_False, filter_nil, app_nil_r by exact Hne. exact IH.
Qed.

(** The keys of a loaded snapshot, in the order of their first row in
    the file. *)
Lemma load_csv_keys rows :
  dict_keys (load_csv rows)
  = reverse (remove_dups (reverse (row_key <$> rows))).
Proof.
  induction rows as [| r rows IH] using rev_ind; [reflexivity |].
  rewrite load_csv_snoc, dict_keys_set, fmap_app, reverse_app. cbn [fmap list_fmap].
  change (reverse [row_key r]) with [row_key r]. cbn [app remove_dups].
  rewrite IH.
  destruct (decide_rel elem_of (row_key r) (reverse (row_key <$> rows)))
    as [Hin | Hnin].
  - rewrite decide_True; [reflexivity |].
    rewrite elem_of_reverse, elem_of_remove_dups. exact Hin.
  - rewrite decide_False, reverse_cons; [reflexivity |].
    rewrite elem_of_reverse, elem_of_remove_dups. exact Hnin.
Qed.

Lemma for_each_pure {A B : Type} (f : A -> result B) (g : A -> B) (l : list A) :
  (forall a, f a = Ok (g a)) -> for_each f l = Ok (g <$> l).
Proof.
  intros Hf. induction l as [| a l IH]; cbn [for_each]; [reflexivity |].
  rewrite Hf, IH. reflexivity.
Qed.

Lemma compare_item_drops (old_data : list (key * Sale.t)) (e : key * Sale.t) :
  compare_item old_data e = Ok (drops_of old_data e).
Proof.
  unfold compare_item, drops_of.
  destruct (dict_get (fst e) old_data) as [o |]; [| reflexivity].
  destruct (parsed_ok _ (parse_price_parsed (Sale.sale_price o))) as [po ->].
  destruct (parsed_ok _ (parse_price_parsed (Sale.sale_price (snd e))))
    as [pn ->].
  cbn [bind]. destruct po, pn; try reflexivity.
  destruct (is_drop _ _); reflexivity.
Qed.

(** [compare] returns the drops of the entries of [new_data], in the
    order of [new_data]. *)
Lemma compare_drops (old_data new_data : list (key * Sale.t)) :
  compare old_data new_data = Ok (concat (drops_of old_data <$> new_data)).
Proof.
  unfold compare.
  rewrite (for_each_pure _ (drops_of old_data)) by apply compare_item_drops.
  reflexivity.
Qed.

(** An entry gives no drop or one, with the key of the entry's row. *)
Lemma drops_of_cases (old_data : list (key * Sale.t)) (e : key * Sale.t) :
  drops_of old_data e = []
  \/ exists d, drops_of old_data e = [d] /\ drop_key d = row_key (snd e).
Proof.
  unfold drops_of. destruct (dict_get (fst e) old_data); [| auto].
  destruct (parse_price _) as [[o |] |]; auto.
  destruct (parse_price _) as [[n |] |]; auto.
  destruct (is_drop _ _); auto.
  right. eexists. split; reflexivity.
Qed.

(** The drops with key [k] are those of the entry stored under [k]. *)
Lemma drops_by_key (old_data new_data : list (key * Sale.t)) k :
  NoDup (dict_keys new_data) ->
  (forall e, e ∈ new_data -> row_key (snd e) = fst e) ->
  filter (fun d => drop_key d = k) (concat (drops_of old_data <$> new_data))
  = match dict_get k new_data with
    | Some n => drops_of old_data (k, n)
    | None => []
    end.
Proof.
  unfold dict_keys.
  induction new_data as [| [k' r] l IH]; [reflexivity |].
  cbn [fmap list_fmap concat dict_get fst].
  rewrite NoDup_cons. intros [Hk' Hl] Hkey.
  assert (Hr : row_key r = k') by exact (Hkey (k', r) (list_elem_of_here _ _)).
  rewrite filter_app, IH by (auto using list_elem_of_further).
  destruct (decide (k = k')) as [-> | Hne].
  - apply dict_get_None in Hk'. rewrite Hk', app_nil_r.
    destruct (drops_of_cases old_data (k', r)) as [-> | (d & -> & Hd)];
      [reflexivity |].
    cbn [snd] in Hd. rewrite filter_cons_True, filter_nil by congruence.
    reflexivity.
  - destruct (drops_of_cases old_data (k', r)) as [-> | (d & -> & Hd)];
      [reflexivity |].
    cbn [snd] in Hd. rewrite filter_cons_False, filter_nil by congruence.
    reflexivity.
Qed.

(** A true [new_price < old_price] with a new price that is not negative
    makes the old price true. *)
Lemma ltb_truthy (n o : PyFloat.float) :
  PyFloat.nonneg n = true -> PyFloat.ltb n o = true -> PyFloat.truthy o = true.
Proof.
  destruct o as [so | | |]; try reflexivity.
  destruct n as [sn | [] | | [] m e]; cbn; discriminate.
Qed.
End DifferFacts.

(** C1, as the code has it. For every pair of loaded snapshots and every
    identity key: when the key is in both, both sale prices parse, the
    new price is not zero and is strictly below the old one, exactly one
    drop is emitted for the key, with the two prices and
    [drop_amount = round(old_price - new_price, 2)]; when the new price
    is zero, equal or higher, when a price does not parse, or when the
    key is in one snapshot only, no drop is emitted for the key. *)
Theorem compare_emits_price_drops (old_rows new_rows : list Sale.t) :
  exists drops,
    reported_drops old_rows new_rows = Ok drops
    /\ forall k : key,
      (forall o n po pn,
          dict_get k (load_csv old_rows) = Some o ->
          dict_get k (load_csv new_rows) = Some n ->
          parse_price (Sale.sale_price o) = Ok (Some po) ->
          parse_price (Sale.sale_price n) = Ok (Some pn) ->
          (PyFloat.truthy pn = true -> PyFloat.ltb pn po = true ->
           exists d,
             filter (fun d => drop_key d = k) drops = [d]
             /\ Drop.product_name d = Sale.product_name n
             /\ Drop.source_url d = Sale.source_url n
             /\ Drop.old_price d = po
             /\ Drop.new_price d = pn
             /\ Drop.drop_amount d = PyFloat.round (PyFloat.sub po pn) 2)
          /\ (PyFloat.truthy pn = false \/ PyFloat.ltb pn po = false ->
              filter (fun d => drop_key d = k) drops = []))
      /\ (forall o n,
          dict_get k (load_csv old_rows) = Some o ->
          dict_get k (load_csv new_rows) = Some n ->
          parse_price (Sale.sale_price o) = Ok None
          \/ parse_price (Sale.sale_price n) = Ok None ->
          filter (fun d => drop_key d = k) drops = [])
      /\ (dict_get k (load_csv old_rows) = None
          \/ dict_get k (load_csv new_rows) = None ->
          filter (fun d => drop_key d = k) drops = []).
Proof.
  eexists. split; [apply compare_drops |]. intros k.
  rewrite drops_by_key; [| apply load_csv_NoDup | apply load_csv_keyed].
  split; [| split].
  - intros o n po pn Ho Hn Hpo Hpn. rewrite Hn. unfold drops_of.
    cbn [fst snd]. rewrite Ho, Hpo, Hpn. cbn [is_drop]. split.
    + intros Ht Hlt.
      assert (Hnn : PyFloat.nonneg pn = true).
      { destruct (parse_price_parsed (Sale.sale_price n)) as [H | (x & H & Hx)];
          rewrite Hpn in H; inversion H; subst; exact Hx. }
      rewrite (ltb_truthy pn po Hnn Hlt), Ht, Hlt. cbn [andb].
      eexists. repeat split.
    + intros [-> | ->]; rewrite ?Bool.andb_false_r; reflexivity.
  - intros o n Ho Hn Hnone. rewrite Hn. unfold drops_of. cbn [fst snd].
    rewrite Ho. destruct Hnone as [-> | ->]; [reflexivity |].
    destruct (parse_price _) as [[?|]|]; reflexivity.
  - intros [Ho | ->]; [| reflexivity].
    destruct (dict_get k (load_csv new_rows)); [| reflexivity].
    unfold drops_of. cbn [fst]. rewrite Ho. reflexivity.
Qed.

(** The example of the specification: Widget from $20.00 to $15.00 is
    one drop of 5.00. *)
Lemma compare_emits_price_drops_witness :
  exists drops d,
    reported_drops
      [Sale.mk "Sales" "" "Widget" "$20.00" "" "" (CStr "") (CStr "") "u" "t0"]
      [Sale.mk "Sales" "" "Widget" "$15.00" "" "" (CStr "") (CStr "") "u" "t1"]
    = Ok drops
    /\ filter (fun d => drop_key d = ("widget", "u")) drops = [d]
    /\ Drop.drop_amount d = PyFloat.of_decimal 500 2.
Proof.
  destruct (compare_emits_price_drops
      [Sale.mk "Sales" "" "Widget" "$20.00" "" "" (CStr "") (CStr "") "u" "t0"]
      [Sale.mk "Sales" "" "Widget" "$15.00" "" "" (CStr "") (CStr "") "u" "t1"])
    as (drops & Hrun & Hk).
  destruct (Hk ("widget", "u")) as [Hboth _].
  destruct (Hboth _ _ (PyFloat.of_decimal 2000 2) (PyFloat.of_decimal 1500 2)
              eq_refl eq_refl) as [Hdrop _];
    [vm_compute; reflexivity | vm_compute; reflexivity |].
  destruct Hdrop as (d & Hd & _ & _ & _ & _ & Ha);
    [vm_compute; reflexivity | vm_compute; reflexivity |].
  exists drops, d. split; [exact Hrun |]. split; [exact Hd |].
  rewrite Ha. vm_compute. reflexivity.
Defined.

(** C1 as stated fails where the new price is zero: Widget is in both
    snapshots, its price went from 5.00 down to 0.00, and [compare]
    emits nothing. *)
Lemma zero_new_price_emits_no_drop :
  let old_row := Sale.mk "Sales" "" "Widget" "$5.00" "" "" (CStr "") (CStr "") "u" "t0" in
  let new_row := Sale.mk "Sales" "" "Widget" "$0.00" "" "" (CStr "") (CStr "") "u" "t1" in
  dict_get ("widget", "u") (load_csv [old_row]) = Some old_row
  /\ dict_get ("widget", "u") (load_csv [new_row]) = Some new_row
  /\ parse_price (Sale.sale_price old_row) = Ok (Some (PyFloat.of_decimal 500 2))
  /\ parse_price (Sale.sale_price new_row) = Ok (Some PyFloat.zero)
  /\ PyFloat.ltb PyFloat.zero (PyFloat.of_decimal 500 2) = true
  /\ reported_drops [old_row] [new_row] = Ok [].
Proof. repeat split; vm_compute; reflexivity. Qed.

(** C10. Loading a snapshot keeps, for each identity key, the last row
    of the file with that key; so the two prices of every emitted drop
    are those of the last rows with its key in the old and in the new
    file, and no earlier row with the same key gives a price. *)
Theorem load_csv_keeps_last_row :
  (forall rows (k : key),
      dict_get k (load_csv rows) = last (filter (fun r => row_key r = k) rows))
  /\ (forall old_rows new_rows, exists drops,
      reported_drops old_rows new_rows = Ok drops
      /\ forall d, d ∈ drops ->
         exists o n,
           last (filter (fun r => row_key r = drop_key d) old_rows) = Some o
           /\ last (filter (fun r => row_key r = drop_key d) new_rows) = Some n
           /\ parse_price (Sale.sale_price o) = Ok (Some (Drop.old_price d))
           /\ parse_price (Sale.sale_price n) = Ok (Some (Drop.new_price d))).
Proof.
  split; [exact load_csv_lookup |].
  intros old_rows new_rows. eexists. split; [apply compare_drops |].
  intros d Hd.
  assert (Hf : d ∈ filter (fun d' => drop_key d' = drop_key d)
                 (concat (drops_of (load_csv old_rows) <$> load_csv new_rows))).
  { apply list_elem_of_filter. split; [reflexivity | exact Hd]. }
  rewrite drops_by_key in Hf; [| apply load_csv_NoDup | apply load_csv_keyed].
  rewrite <- !load_csv_lookup.
  destruct (dict_get (drop_key d) (load_csv new_rows)) as [n |];
    [| apply elem_of_nil in Hf; contradiction].
  unfold drops_of in Hf. cbn [fst snd] in Hf.
  destruct (dict_get (drop_key d) (load_csv old_rows)) as [o |];
    [| apply elem_of_nil in Hf; contradiction].
  destruct (parse_price (Sale.sale_price o)) as [[po |] |] eqn:Hpo;
    try (apply elem_of_nil in Hf; contradiction).
  destruct (parse_price (Sale.sale_price n)) as [[pn |] |] eqn:Hpn;
    try (apply elem_of_nil in Hf; contradiction).
  destruct (is_drop _ _); [| apply elem_of_nil in Hf; contradiction].
  apply list_elem_of_singleton in Hf. subst d.
  exists o, n. repeat split; assumption.
Qed.

(** Two rows for Widget in each file: the drop goes from the 20.00 of
    the last old row to the 15.00 of the last new row. *)
Lemma load_csv_keeps_last_row_witness :
  let old_rows :=
    [Sale.mk "Sales" "" "Widget" "$30.00" "" "" (CStr "") (CStr "") "u" "t0";
     Sale.mk "Sales" "" "widget " "$20.00" "" "" (CStr "") (CStr "") "u" "t0"] in
  let new_rows :=
    [Sale.mk "Sales" "" "Widget" "$25.00" "" "" (CStr "") (CStr "") "u" "t1";
     Sale.mk "Sales" "" "WIDGET" "$15.00" "" "" (CStr "") (CStr "") "u" "t1"] in
  let d :=
    make_drop (Sale.mk "Sales" "" "WIDGET" "$15.00" "" "" (CStr "") (CStr "") "u" "t1")
      (PyFloat.of_decimal 2000 2) (PyFloat.of_decimal 1500 2) in
  reported_drops old_rows new_rows = Ok [d]
  /\ exists o n,
      last (filter (fun r => row_key r = drop_key d) old_rows) = Some o
      /\ last (filter (fun r => row_key r = drop_key d) new_rows) = Some n
      /\ parse_price (Sale.sale_price o) = Ok (Some (PyFloat.of_decimal 2000 2))
      /\ parse_price (Sale.sale_price n) = Ok (Some (PyFloat.of_decimal 1500 2)).
Proof.
  intros old_rows new_rows d.
  assert (Hd : reported_drops old_rows new_rows = Ok [d])
    by (vm_compute; reflexivity).
  split; [exact Hd |].
  destruct (proj2 load_csv_keeps_last_row old_rows new_rows)
    as (drops & Hrun & Hlast).
  rewrite Hd in Hrun. inversion Hrun as [Hdrops].
  apply (Hlast d). rewrite <- Hdrops. apply list_elem_of_here.
Defined.

(** C6, as the code has it. The drops are reported in the order
    [compare] built them, which is the order in which their keys first
    appear in the new snapshot file; the list is not sorted by
    [drop_amount]. *)
Theorem drops_reported_in_snapshot_order (old_rows new_rows : list Sale.t) :
  exists drops,
    reported_drops old_rows new_rows = Ok drops
    /\ sublist (drop_key <$> drops)
               (reverse (remove_dups (reverse (row_key <$> new_rows)))).
Proof.
  eexists. split; [apply compare_drops |].
  rewrite <- load_csv_keys. unfold dict_keys.
  pose proof (load_csv_keyed new_rows) as Hkey.
  induction (load_csv new_rows) as [| e l IH]; [constructor |].
  cbn [fmap list_fmap concat]. rewrite fmap_app.
  assert (He : row_key (snd e) = fst e) by apply Hkey, list_elem_of_here.
  assert (IH' : sublist (drop_key <$> concat (drops_of (load_csv old_rows) <$> l))
                        (fst <$> l)).
  { apply IH. intros e' He'. apply Hkey, list_elem_of_further, He'. }
  destruct (drops_of_cases (load_csv old_rows) e) as [-> | (d & -> & Hd)].
  - apply sublist_cons. exact IH'.
  - cbn [fmap list_fmap app]. rewrite Hd, He. apply sublist_skip. exact IH'.
Qed.

(** C6 as stated fails: A dropped by 1.00, B by 10.00; the report lists
    A before B, the smaller amount first. *)
Lemma drops_not_sorted_by_amount :
  let old_rows :=
    [Sale.mk "Sales" "" "A" "$10.00" "" "" (CStr "") (CStr "") "u" "t0";
     Sale.mk "Sales" "" "B" "$20.00" "" "" (CStr "") (CStr "") "u" "t0"] in
  let new_rows :=
    [Sale.mk "Sales" "" "A" "$9.00" "" "" (CStr "") (CStr "") "u" "t1";
     Sale.mk "Sales" "" "B" "$10.00" "" "" (CStr "") (CStr "") "u" "t1"] in
  exists dA dB,
    reported_drops old_rows new_rows = Ok [dA; dB]
    /\ Drop.product_name dA = "A" /\ Drop.product_name dB = "B"
    /\ Drop.drop_amount dA = PyFloat.of_decimal 100 2
    /\ Drop.drop_amount dB = PyFloat.of_decimal 1000 2
    /\ PyFloat.ltb (Drop.drop_amount dA) (Drop.drop_amount dB) = true.
Proof.
  do 2 eexists. split; [vm_compute; reflexivity |].
  repeat split; vm_compute; reflexivity.
Qed.

(** ** Scanner and extraction *)

Section ScanFacts.
Variables (source_url post_title : string) (post_date : option string).

Local Abbreviation visit_ := (visit source_url post_title post_date).
Local Abbreviation new_item_ := (new_item source_url post_title post_date).
Local Abbreviation scan_scope_ := (scan_scope source_url post_title post_date).
Local Abbreviation extract_ := (extract_items_from_post source_url post_title post_date).

Lemma text_nil (m : list ascii) : PyStr.text m = "" -> m = [].
Proof. destruct m; [reflexivity | discriminate]. Qed.

(** A match of [PRICE_RE] is never empty: it begins with the currency. *)
Lemma match_PRICE_RE_nonempty (l m : list ascii) :
  match_PRICE_RE l = Some m -> m <> [].
Proof.
  unfold match_PRICE_RE.
  destruct (match_currency l) as [[cur r] |] eqn:Hc; [| discriminate].
  assert (Hcur : cur <> []).
  { unfold match_currency in Hc.
    repeat (match type of Hc with
            | match ?x with _ => _ end = _ => destruct x
            | (let '(_, _) := ?x in _) = _ => destruct x
            end; try discriminate);
      inversion Hc; discriminate. }
  destruct (PyStr.span PyChar.isspace r) as [ws r1].
  destruct (span_upto 3 PyChar.is_decimal r1) as [d r2].
  destruct d; [discriminate |].
  destruct (span_upto 3 _ r2) as [g r3].
  intros [= <-]. destruct cur; [contradiction | discriminate].
Qed.

Lemma findall_from_nonempty (l : list ascii) :
  forall skip, Forall (fun p => p <> "") (findall_from skip l).
Proof.
  induction l as [| c l IH]; intros skip; cbn [findall_from]; [constructor |].
  destruct skip; [| apply IH].
  destruct (match_PRICE_RE (c :: l)) as [m |] eqn:Hm; [| apply IH].
  constructor; [| apply IH].
  intros H%text_nil. exact (match_PRICE_RE_nonempty _ _ Hm H).
Qed.

(** The sale price of a node is its last match when it has one, and is
    empty exactly when it has none. *)
Lemma last_price_Some (txt p : string) :
  last (PRICE_RE_findall txt) = Some p -> last_price txt = p /\ p <> "".
Proof.
  unfold last_price. intros H. rewrite H. split; [reflexivity |].
  pose proof (findall_from_nonempty (PyStr.chars txt) 0) as Hall.
  rewrite Forall_forall in Hall. apply Hall.
  apply last_Some_elem_of. exact H.
Qed.

Lemma last_price_nil (txt : string) :
  PRICE_RE_findall txt = [] -> last_price txt = "".
Proof. unfold last_price. intros ->. reflexivity. Qed.

Lemma last_price_matches (txt : string) :
  last_price txt <> "" ->
  last (PRICE_RE_findall txt) = Some (last_price txt).
Proof.
  unfold last_price. destruct (last (PRICE_RE_findall txt)); [reflexivity |].
  contradiction.
Qed.

(** The two ways out of the loop body. *)
Lemma visit_cases (st : scan_state) (t : TextNode.t) :
  (visit_ st t = st
   /\ (last_price (clean_text (TextNode.text t)) = ""
       \/ resolve_name t = ""
       \/ occurrence_key t ∈ snd st))
  \/ (visit_ st t = (fst st ++ [new_item_ t], {[ occurrence_key t ]} ∪ snd st)
      /\ last_price (clean_text (TextNode.text t)) <> ""
      /\ resolve_name t <> ""
      /\ occurrence_key t ∉ snd st).
Proof.
  unfold visit, occurrence_key.
  destruct (String.eqb_spec (last_price (clean_text (TextNode.text t))) "")
    as [Hp | Hp]; [left; auto |].
  destruct (String.eqb_spec (resolve_name t) "") as [Hn | Hn];
    [left; auto |].
  cbn [orb]. destruct (bool_decide_reflect
    ((PyStr.lower (resolve_name t), last_price (clean_text (TextNode.text t)))
       ∈ snd st)) as [Hs | Hs]; [left; auto |].
  right. auto.
Qed.

Lemma scan_texts (scopes : list (list TextNode.t)) :
  forall st, fold_left scan_scope_ scopes st = fold_left visit_ (texts scopes) st.
Proof.
  unfold texts. induction scopes as [| scope scopes IH]; intros st;
    cbn [fold_left fmap list_fmap concat]; [reflexivity |].
  rewrite fold_left_app. apply IH.
Qed.

Lemma extract_texts (scopes : list (list TextNode.t)) :
  extract_ scopes = fst (fold_left visit_ (texts scopes) ([], ∅)).
Proof. unfold extract_items_from_post. rewrite scan_texts. reflexivity. Qed.

(** Every node visited belongs to a scope. *)
Lemma texts_in_scope (scopes : list (list TextNode.t)) (t : TextNode.t) :
  t ∈ texts scopes -> exists scope, scope ∈ scopes /\ t ∈ scope.
Proof.
  unfold texts. induction scopes as [| scope scopes IH];
    cbn [fmap list_fmap concat].
  - intros H. apply elem_of_nil in H. contradiction.
  - rewrite elem_of_app. intros [H | H].
    + exists scope. split; [apply list_elem_of_here |].
      unfold find_all in H. apply list_elem_of_In, filter_In in H as [H _].
      apply list_elem_of_In. exact H.
    + destruct (IH H) as (sc & Hsc & Ht). exists sc.
      split; [apply list_elem_of_further; exact Hsc | exact Ht].
Qed.

(** What holds of [items] and [seen_pairs] after any number of nodes:
    [seen_pairs] is the set of the keys of [items]; no key occurs twice;
    every record was built from a node visited that has a price and a
    name; every such node has its key in [seen_pairs]. *)
Lemma scan_invariant (ts : list TextNode.t) :
  let st := fold_left visit_ ts ([], ∅) in
  (forall k, k ∈ snd st <-> k ∈ item_key <$> fst st)
  /\ NoDup (item_key <$> fst st)
  /\ (forall it, it ∈ fst st ->
      exists t, t ∈ ts /\ it = new_item_ t
                /\ last_price (clean_text (TextNode.text t)) <> ""
                /\ resolve_name t <> "")
  /\ (forall t, t ∈ ts ->
      last_price (clean_text (TextNode.text t)) <> "" ->
      resolve_name t <> "" ->
      occurrence_key t ∈ snd st).
Proof.
  induction ts as [| t ts IH] using rev_ind; cbn zeta.
  - cbn [fold_left fst snd fmap list_fmap]. repeat split.
    + intros H. apply not_elem_of_empty in H. contradiction.
    + intros H. apply elem_of_nil in H. contradiction.
    + apply NoDup_nil_2.
    + intros it H. apply elem_of_nil in H. contradiction.
    + intros t H. apply elem_of_nil in H. contradiction.
  - rewrite fold_left_app. cbn [fold_left].
    cbn zeta in IH. destruct IH as (Hseen & Hnd & Hfrom & Hall).
    set (st := fold_left visit_ ts ([], ∅)) in *.
    destruct (visit_cases st t) as [[-> Hwhy] | (-> & Hp & Hn & Hfresh)].
    + split; [exact Hseen |]. split; [exact Hnd |]. split.
      * intros it Hit. destruct (Hfrom it Hit) as (t' & Ht' & H').
        exists t'. rewrite elem_of_app. auto.
      * intros t' [Ht' | ->%list_elem_of_singleton]%elem_of_app Hp Hn; [auto |].
        destruct Hwhy as [H | [H | H]]; [contradiction | contradiction | exact H].
    + cbn [fst snd]. rewrite fmap_app. cbn [fmap list_fmap].
      change (item_key (new_item_ t)) with (occurrence_key t).
      split; [| split; [| split]].
      * intros k. rewrite elem_of_union, elem_of_singleton, elem_of_app,
          list_elem_of_singleton, Hseen. tauto.
      * apply NoDup_app. split; [exact Hnd |]. split; [| apply NoDup_singleton].
        intros k Hk ->%list_elem_of_singleton. apply Hfresh, Hseen, Hk.
      * intros it [Hit | ->%list_elem_of_singleton]%elem_of_app.
        -- destruct (Hfrom it Hit) as (t' & Ht' & H').
           exists t'. rewrite elem_of_app. auto.
        -- exists t. rewrite elem_of_app, list_elem_of_singleton. auto.
      * intros t' [Ht' | ->%list_elem_of_singleton]%elem_of_app Hp' Hn';
          rewrite elem_of_union, elem_of_singleton; auto.
Qed.

Lemma filter_key_none {A : Type} (f : A -> string * string) (k : string * string)
    (l : list A) :
  k ∉ f <$> l -> filter (fun y => f y = k) l = [].
Proof.
  induction l as [| x l IH]; cbn [fmap list_fmap]; [reflexivity |].
  rewrite not_elem_of_cons. intros [Hx Hl].
  rewrite filter_cons_False by congruence. auto.
Qed.

(** A key that occurs, among keys that occur once, selects one element. *)
Lemma filter_key_one {A : Type} (f : A -> string * string) (k : string * string)
    (l : list A) :
  NoDup (f <$> l) -> k ∈ f <$> l -> length (filter (fun y => f y = k) l) = 1%nat.
Proof.
  induction l as [| x l IH]; cbn [fmap list_fmap].
  - intros _ H. apply elem_of_nil in H. contradiction.
  - rewrite NoDup_cons, elem_of_cons. intros [Hx Hnd] Hk.
    destruct (decide (f x = k)) as [Heq | Hne].
    + rewrite filter_cons_True by exact Heq.
      rewrite filter_key_none by (rewrite <- Heq; exact Hx). reflexivity.
    + rewrite filter_cons_False by exact Hne.
      apply IH; [exact Hnd |]. destruct Hk as [-> | Hk]; [contradiction | exact Hk].
Qed.
End ScanFacts.

(** C7. For every text node scanned: when its cleaned text has a price
    token, the last token is the sale price of the record made from the
    node, and that record is made whenever the node has a name and its
    key was not seen before; when the text has no token, the node leaves
    [items] as it was. For a whole document: every node scanned that has
    a price token and a name has a record priced at its last token under
    its name (up to case), and every record extracted carries the last
    price token and the name of a text node of a scope. *)
Theorem last_price_token_is_sale_price
    (source_url post_title : string) (post_date : option string) :
  (forall st t p,
      last (PRICE_RE_findall (clean_text (TextNode.text t))) = Some p ->
      resolve_name t <> "" ->
      (PyStr.lower (resolve_name t), p) ∉ snd st ->
      exists it,
        visit source_url post_title post_date st t
        = (fst st ++ [it], {[ item_key it ]} ∪ snd st)
        /\ Item.sale_price it = p
        /\ Item.product_name it = resolve_name t)
  /\ (forall st t,
      PRICE_RE_findall (clean_text (TextNode.text t)) = [] ->
      visit source_url post_title post_date st t = st)
  /\ (forall content_scopes t p,
      t ∈ texts content_scopes ->
      last (PRICE_RE_findall (clean_text (TextNode.text t))) = Some p ->
      resolve_name t <> "" ->
      exists it,
        it ∈ extract_items_from_post source_url post_title post_date content_scopes
        /\ Item.sale_price it = p
        /\ PyStr.lower (Item.product_name it) = PyStr.lower (resolve_name t))
  /\ (forall content_scopes it,
      it ∈ extract_items_from_post source_url post_title post_date content_scopes ->
      exists scope t,
        scope ∈ content_scopes /\ t ∈ scope
        /\ last (PRICE_RE_findall (clean_text (TextNode.text t)))
           = Some (Item.sale_price it)
        /\ Item.product_name it = resolve_name t).
Proof.
  split; [| split; [| split]].
  - intros st t p Hp Hname Hfresh. apply last_price_Some in Hp as [Hp Hne].
    destruct (visit_cases source_url post_title post_date st t)
      as [[_ [H | [H | H]]] | (H & _)].
    + rewrite Hp in H. contradiction.
    + contradiction.
    + unfold occurrence_key in H. rewrite Hp in H. contradiction.
    + eexists. split; [exact H |]. split; [exact Hp | reflexivity].
  - intros st t Hnone. apply last_price_nil in Hnone.
    unfold visit. rewrite Hnone. reflexivity.
  - intros scopes t p Ht Hp Hname. apply last_price_Some in Hp as [Hp Hne].
    rewrite extract_texts.
    destruct (scan_invariant source_url post_title post_date (texts scopes))
      as (Hseen & _ & _ & Hall).
    assert (Hkey : occurrence_key t
                   ∈ snd (fold_left (visit source_url post_title post_date)
                            (texts scopes) ([], ∅))).
    { apply Hall; [exact Ht | rewrite Hp; exact Hne | exact Hname]. }
    apply Hseen, list_elem_of_fmap in Hkey as (it & Hit & Hin).
    exists it. split; [exact Hin |].
    unfold occurrence_key, item_key in Hit. rewrite Hp in Hit.
    inversion Hit as [[Hn Hs]]. split; reflexivity.
  - intros scopes it Hit. rewrite extract_texts in Hit.
    destruct (scan_invariant source_url post_title post_date (texts scopes))
      as (_ & _ & Hfrom & _).
    destruct (Hfrom it Hit) as (t & Ht & -> & Hp & _).
    destruct (texts_in_scope scopes t Ht) as (scope & Hscope & Hin).
    exists scope, t. split; [exact Hscope |]. split; [exact Hin |].
    split; [apply last_price_matches; exact Hp | reflexivity].
Qed.

(** Savings first, price last, after a node without any price: the
    document has a record priced at the last token of the second node,
    under the name its image gives. *)
Lemma last_price_token_is_sale_price_witness :
  let heading := TextNode.mk "This week" None "" in
  let towels :=
    TextNode.mk "Towels ($3.00 INSTANT SAVINGS) now $12.99"
      (Some "Paper Towel") "" in
  exists it,
    it ∈ extract_items_from_post "u" "Weekly sales" None [[heading; towels]]
    /\ Item.sale_price it = "$12.99"
    /\ PyStr.lower (Item.product_name it) = PyStr.lower (resolve_name towels).
Proof.
  intros heading towels.
  apply (proj1 (proj2 (proj2
           (last_price_token_is_sale_price "u" "Weekly sales" None)))
           [[heading; towels]] towels "$12.99").
  - assert (E : texts [[heading; towels]] = [towels]) by (vm_compute; reflexivity).
    rewrite E. apply list_elem_of_here.
  - vm_compute. reflexivity.
  - vm_compute. discriminate.
Defined.

(** C8. Within one scan of a document: no two records have the same key
    (lowercased name, sale price); every record has a name that is not
    empty; a node with a price and a name has exactly one record with its
    key, however many nodes share that key; and at any point of the scan
    a node whose name is empty, or whose key is that of a record already
    emitted, changes nothing. *)
Theorem extraction_deduplicates
    (source_url post_title : string) (post_date : option string)
    (content_scopes : list (list TextNode.t)) :
  let items :=
    extract_items_from_post source_url post_title post_date content_scopes in
  NoDup (item_key <$> items)
  /\ (forall it, it ∈ items -> Item.product_name it <> "")
  /\ (forall t, t ∈ texts content_scopes ->
      last_price (clean_text (TextNode.text t)) <> "" ->
      resolve_name t <> "" ->
      length (filter (fun it => item_key it = occurrence_key t) items) = 1%nat)
  /\ (forall st t, resolve_name t = "" ->
      visit source_url post_title post_date st t = st)
  /\ (forall ts t,
      let st := fold_left (visit source_url post_title post_date) ts ([], ∅) in
      occurrence_key t ∈ item_key <$> fst st ->
      visit source_url post_title post_date st t = st).
Proof.
  cbn zeta. rewrite extract_texts.
  destruct (scan_invariant source_url post_title post_date (texts content_scopes))
    as (Hseen & Hnd & Hfrom & Hall).
  split; [exact Hnd |]. split; [| split; [| split]].
  - intros it Hit. destruct (Hfrom it Hit) as (t & _ & -> & _ & Hn). exact Hn.
  - intros t Ht Hp Hn. apply filter_key_one; [exact Hnd |].
    apply Hseen, Hall; assumption.
  - intros st t Hn. unfold visit. rewrite Hn.
    destruct (String.eqb _ ""); reflexivity.
  - intros ts t Hk.
    destruct (scan_invariant source_url post_title post_date ts)
      as (Hseen' & _).
    apply Hseen' in Hk.
    destruct (visit_cases source_url post_title post_date
                (fold_left (visit source_url post_title post_date) ts ([], ∅)) t)
      as [[H _] | (_ & _ & _ & Hfresh)]; [exact H | contradiction].
Qed.

(** The same towel at the same price in two nodes and in two scopes, and
    a price without a name: one record. *)
Lemma extraction_deduplicates_witness :
  let towel := TextNode.mk "now $12.99" (Some "Paper Towel") "" in
  let again := TextNode.mk "PAPER TOWEL $12.99" None "paper towel" in
  let nameless := TextNode.mk "$4.49" None "" in
  let scopes := [[towel; nameless; again]; [towel]] in
  length (filter (fun it => item_key it = ("paper towel", "$12.99"))
            (extract_items_from_post "u" "Weekly sales" None scopes)) = 1%nat
  /\ length (extract_items_from_post "u" "Weekly sales" None scopes) = 1%nat.
Proof.
  intros towel again nameless scopes.
  destruct (extraction_deduplicates "u" "Weekly sales" None scopes)
    as (_ & _ & Hone & _).
  split; [| vm_compute; reflexivity].
  apply (Hone again).
  - vm_compute. apply list_elem_of_further, list_elem_of_further, list_elem_of_here.
  - vm_compute. discriminate.
  - vm_compute. discriminate.
Defined.

(** * Further properties *)

(** ** The differ *)

Lemma elem_of_concat_fmap {A B : Type} (f : A -> list B) (l : list A) (b : B) :
  b ∈ concat (f <$> l) <-> exists a, a ∈ l /\ b ∈ f a.
Proof.
  induction l as [| a l IH]; cbn [fmap list_fmap concat].
  - split; [intros H%elem_of_nil; contradiction |].
    intros (a & H%elem_of_nil & _). contradiction.
  - rewrite elem_of_app, IH. split.
    + intros [H | (a' & Ha' & H)].
      * exists a. split; [apply list_elem_of_here | exact H].
      * exists a'. split; [apply list_elem_of_further; exact Ha' | exact H].
    + intros (a' & [-> | Ha']%elem_of_cons & H); [left; exact H |].
      right. exists a'. auto.
Qed.

(** What a drop of one entry is made of. *)
Lemma drops_of_elem (old_data : list (key * Sale.t)) (e : key * Sale.t) (d : Drop.t) :
  d ∈ drops_of old_data e ->
  exists o po pn,
    dict_get (fst e) old_data = Some o
    /\ parse_price (Sale.sale_price o) = Ok (Some po)
    /\ parse_price (Sale.sale_price (snd e)) = Ok (Some pn)
    /\ is_drop (Some po) (Some pn) = true
    /\ d = make_drop (snd e) po pn.
Proof.
  unfold drops_of.
  destruct (dict_get (fst e) old_data) as [o |] eqn:Ho;
    [| intros H%elem_of_nil; contradiction].
  destruct (parse_price (Sale.sale_price o)) as [[po |] |] eqn:Hpo;
    try (intros H%elem_of_nil; contradiction).
  destruct (parse_price (Sale.sale_price (snd e))) as [[pn |] |] eqn:Hpn;
    try (intros H%elem_of_nil; contradiction).
  destruct (is_drop (Some po) (Some pn)) eqn:Hd;
    [| intros H%elem_of_nil; contradiction].
  intros ->%list_elem_of_singleton. exists o, po, pn. auto.
Qed.

(** Every drop [compare] returns, for any two dicts, is a strict
    decrease between two prices that are not zero, and its amount is the
    rounded difference of the two prices it shows: an increase or an
    unchanged price is never reported. *)
Theorem compare_reports_only_decreases (old_data new_data : list (key * Sale.t)) :
  exists drops,
    compare old_data new_data = Ok drops
    /\ forall d, d ∈ drops ->
       PyFloat.ltb (Drop.new_price d) (Drop.old_price d) = true
       /\ PyFloat.truthy (Drop.old_price d) = true
       /\ PyFloat.truthy (Drop.new_price d) = true
       /\ Drop.drop_amount d
          = PyFloat.round (PyFloat.sub (Drop.old_price d) (Drop.new_price d)) 2.
Proof.
  eexists. split; [apply compare_drops |].
  intros d (e & _ & Hd)%elem_of_concat_fmap.
  apply drops_of_elem in Hd as (o & po & pn & _ & _ & _ & Hdrop & ->).
  cbn [is_drop] in Hdrop.
  apply andb_prop in Hdrop as [[Ho Hn]%andb_prop Hlt].
  cbn [make_drop Drop.new_price Drop.old_price Drop.drop_amount]. auto.
Qed.

Lemma compare_reports_only_decreases_witness :
  exists d,
    compare
      (load_csv [Sale.mk "Sales" "" "Widget" "$20.00" "" "" (CStr "") (CStr "") "u" "t0"])
      (load_csv [Sale.mk "Sales" "" "Widget" "$15.00" "" "" (CStr "") (CStr "") "u" "t1"])
    = Ok [d]
    /\ PyFloat.ltb (Drop.new_price d) (Drop.old_price d) = true.
Proof.
  destruct (compare_reports_only_decreases
      (load_csv [Sale.mk "Sales" "" "Widget" "$20.00" "" "" (CStr "") (CStr "") "u" "t0"])
      (load_csv [Sale.mk "Sales" "" "Widget" "$15.00" "" "" (CStr "") (CStr "") "u" "t1"]))
    as (drops & Hrun & Hall).
  assert (Hd : exists d, drops = [d]).
  { vm_compute in Hrun. inversion Hrun. eauto. }
  destruct Hd as [d ->]. exists d. split; [exact Hrun |].
  apply (Hall d), list_elem_of_here.
Defined.

(** The keys of the drops of a dict whose rows sit under their own keys
    follow the keys of the dict. *)
Lemma drop_keys_sublist (old_data new_data : list (key * Sale.t)) :
  (forall e, e ∈ new_data -> row_key (snd e) = fst e) ->
  sublist (drop_key <$> concat (drops_of old_data <$> new_data))
          (dict_keys new_data).
Proof.
  unfold dict_keys. induction new_data as [| e l IH]; intros Hkey;
    cbn [fmap list_fmap concat]; [constructor |].
  rewrite fmap_app.
  assert (He : row_key (snd e) = fst e) by apply Hkey, list_elem_of_here.
  assert (IH' : sublist (drop_key <$> concat (drops_of old_data <$> l)) (fst <$> l)).
  { apply IH. intros e' He'. apply Hkey, list_elem_of_further, He'. }
  destruct (drops_of_cases old_data e) as [-> | (d & -> & Hd)].
  - apply sublist_cons. exact IH'.
  - cbn [fmap list_fmap app]. rewrite Hd, He. apply sublist_skip. exact IH'.
Qed.

(** A report never lists the same product of the same post twice: the
    identity keys of the drops reported for two snapshot files are
    pairwise distinct, and there are at most as many drops as distinct
    keys in the new file. *)
Theorem reported_drops_distinct_keys (old_rows new_rows : list Sale.t) :
  exists drops,
    reported_drops old_rows new_rows = Ok drops
    /\ NoDup (drop_key <$> drops)
    /\ (length drops <= length (remove_dups (row_key <$> new_rows)))%nat.
Proof.
  eexists. split; [apply compare_drops |].
  pose proof (drop_keys_sublist (load_csv old_rows) (load_csv new_rows)
                (load_csv_keyed new_rows)) as Hsub.
  split.
  - eapply sublist_NoDup; [apply load_csv_NoDup | exact Hsub].
  - apply sublist_length in Hsub. rewrite length_fmap in Hsub.
    etransitivity; [exact Hsub |].
    rewrite load_csv_keys, length_reverse.
    apply Nat.eq_le_incl, Permutation_length.
    apply NoDup_Permutation; try apply NoDup_remove_dups.
    intros k. rewrite !elem_of_remove_dups, elem_of_reverse. reflexivity.
Qed.

Lemma ltb_irrefl (x : PyFloat.float) : PyFloat.ltb x x = false.
Proof.
  unfold PyFloat.ltb, SFltb, SFcompare.
  destruct x as [[] | [] | | [] m e]; try reflexivity;
    rewrite Z.compare_refl, Pos.compare_cont_refl; reflexivity.
Qed.

Lemma dict_get_elem {K V : Type} `{EqDecision K} (d : list (K * V)) (k : K) (v : V) :
  NoDup (dict_keys d) -> (k, v) ∈ d -> dict_get k d = Some v.
Proof.
  unfold dict_keys. induction d as [| [k' v'] d IH]; cbn [fmap list_fmap dict_get fst].
  - intros _ H%elem_of_nil. contradiction.
  - rewrite NoDup_cons, elem_of_cons. intros [Hk' Hnd] [[= -> ->] | Hin].
    + rewrite decide_True by reflexivity. reflexivity.
    + destruct (decide (k = k')) as [-> | Hne]; [| auto].
      exfalso. apply Hk'. apply list_elem_of_fmap. exists (k', v). auto.
Qed.

Lemma concat_all_nil {A B : Type} (f : A -> list B) (l : list A) :
  (forall a, a ∈ l -> f a = []) -> concat (f <$> l) = [].
Proof.
  induction l as [| a l IH]; intros H; cbn [fmap list_fmap concat];
    [reflexivity |].
  rewrite H by apply list_elem_of_here.
  apply IH. intros a' Ha'. apply H, list_elem_of_further, Ha'.
Qed.

(** Comparing a snapshot file with itself reports nothing. *)
Theorem self_diff_is_empty (rows : list Sale.t) :
  reported_drops rows rows = Ok [].
Proof.
  unfold reported_drops. rewrite compare_drops. f_equal.
  pose proof (load_csv_NoDup rows) as Hnd.
  assert (Hall : forall e, e ∈ load_csv rows -> drops_of (load_csv rows) e = []).
  { intros [k r] He. unfold drops_of. cbn [fst snd].
    rewrite (dict_get_elem _ k r Hnd He).
    destruct (parse_price (Sale.sale_price r)) as [[p |] |]; try reflexivity.
    cbn [is_drop]. rewrite ltb_irrefl, Bool.andb_false_r. reflexivity. }
  apply concat_all_nil. exact Hall.
Qed.

(** ** Extraction *)

(** Every record of a scan carries the title, the date and the address
    of the post, the date being empty when the post has none; its sale
    price is a token of the text, never empty; and its regular price is
    empty: the scraper never fills it. *)
Theorem extracted_records_metadata
    (source_url post_title : string) (post_date : option string)
    (content_scopes : list (list TextNode.t)) :
  forall it,
    it ∈ extract_items_from_post source_url post_title post_date content_scopes ->
    Item.post_title it = post_title
    /\ Item.post_date it = default "" post_date
    /\ Item.source_url it = source_url
    /\ Item.regular_price it = ""
    /\ Item.sale_price it <> "".
Proof.
  intros it Hit. rewrite extract_texts in Hit.
  destruct (scan_invariant source_url post_title post_date (texts content_scopes))
    as (_ & _ & Hfrom & _).
  destruct (Hfrom it Hit) as (t & _ & -> & Hp & _).
  repeat split. exact Hp.
Qed.

Lemma extracted_records_metadata_witness :
  exists it,
    extract_items_from_post "u" "Weekly sales" None
      [[TextNode.mk "now $12.99" (Some "Paper Towel") ""]] = [it]
    /\ Item.post_date it = "" /\ Item.regular_price it = "".
Proof.
  eexists. split; [vm_compute; reflexivity |].
  destruct (extracted_records_metadata "u" "Weekly sales" None
              [[TextNode.mk "now $12.99" (Some "Paper Towel") ""]]
              (Item.mk "Weekly sales" "" "Paper Towel" "$12.99" "" "" "u"))
    as (_ & Hd & _ & Hr & _).
  - vm_compute. apply list_elem_of_here.
  - split; [exact Hd | exact Hr].
Defined.

Lemma texts_app (a b : list (list TextNode.t)) : texts (a ++ b) = texts a ++ texts b.
Proof. unfold texts. rewrite fmap_app. apply concat_app. Qed.

Lemma fold_left_fixed {A S : Type} (f : S -> A -> S) (l : list A) (s : S) :
  (forall a, a ∈ l -> f s a = s) -> fold_left f l s = s.
Proof.
  induction l as [| a l IH]; intros H; cbn [fold_left]; [reflexivity |].
  rewrite H by apply list_elem_of_here.
  apply IH. intros a' Ha'. apply H, list_elem_of_further, Ha'.
Qed.

(** The nodes [find_all] keeps are the nodes of the scope whose text has
    a match. *)
Lemma find_all_elem (scope : list TextNode.t) (t : TextNode.t) :
  t ∈ find_all scope <-> t ∈ scope /\ PRICE_RE_search (TextNode.text t) = true.
Proof.
  unfold find_all. rewrite !list_elem_of_In, filter_In. reflexivity.
Qed.

Lemma texts_elem (scopes : list (list TextNode.t)) (t : TextNode.t) :
  t ∈ texts scopes <-> exists scope, scope ∈ scopes /\ t ∈ find_all scope.
Proof. unfold texts. apply elem_of_concat_fmap. Qed.

(** Scopes that overlap give nothing new: when every text node of the
    scopes [more] is also a node of one of [content_scopes], as when
    [article] and [.entry-content] select nested elements, scanning
    [more] after [content_scopes] extracts the records of
    [content_scopes] alone. *)
Theorem overlapping_scopes_add_nothing
    (source_url post_title : string) (post_date : option string)
    (content_scopes more : list (list TextNode.t)) :
  (forall scope t, scope ∈ more -> t ∈ scope ->
     exists scope', scope' ∈ content_scopes /\ t ∈ scope') ->
  extract_items_from_post source_url post_title post_date (content_scopes ++ more)
  = extract_items_from_post source_url post_title post_date content_scopes.
Proof.
  intros Hcover. rewrite !extract_texts, texts_app, fold_left_app. f_equal.
  destruct (scan_invariant source_url post_title post_date (texts content_scopes))
    as (_ & _ & _ & Hall).
  apply fold_left_fixed. intros t (scope & Hscope & Ht)%texts_elem.
  apply find_all_elem in Ht as [Ht Hsearch].
  destruct (Hcover scope t Hscope Ht) as (scope' & Hscope' & Ht').
  assert (Hvisited : t ∈ texts content_scopes).
  { apply texts_elem. exists scope'. split; [exact Hscope' |].
    apply find_all_elem. auto. }
  destruct (visit_cases source_url post_title post_date
              (fold_left (visit source_url post_title post_date)
                 (texts content_scopes) ([], ∅)) t)
    as [[H _] | (_ & Hp & Hn & Hfresh)]; [exact H |].
  exfalso. apply Hfresh, Hall; assumption.
Qed.

Lemma overlapping_scopes_add_nothing_witness :
  let towel := TextNode.mk "now $12.99" (Some "Paper Towel") "" in
  let soap := TextNode.mk "Soap $4.49" None "Soap" in
  extract_items_from_post "u" "Weekly sales" None ([[towel; soap]] ++ [[soap]; [towel]])
  = extract_items_from_post "u" "Weekly sales" None [[towel; soap]].
Proof.
  intros towel soap.
  apply (overlapping_scopes_add_nothing "u" "Weekly sales" None
           [[towel; soap]] [[soap]; [towel]]).
  intros scope t Hscope Ht. exists [towel; soap].
  split; [apply list_elem_of_here |].
  repeat (apply elem_of_cons in Hscope as [-> | Hscope]);
    try (apply elem_of_nil in Hscope; contradiction);
    apply list_elem_of_singleton in Ht as ->.
  - apply list_elem_of_further, list_elem_of_here.
  - apply list_elem_of_here.
Defined.

(** ** Persistence *)

(** [save_csv] writes one row for each record, in order, with the
    record's seven fields as they were and the same time stamp on every
    row of the run. *)
Theorem save_csv_keeps_records (now : string) (rows : list Item.t) :
  exists out,
    save_csv now rows = Ok out
    /\ Forall2 (fun r w =>
         Sale.post_title w = Item.post_title r
         /\ Sale.post_date w = Item.post_date r
         /\ Sale.product_name w = Item.product_name r
         /\ Sale.sale_price w = Item.sale_price r
         /\ Sale.regular_price w = Item.regular_price r
         /\ Sale.instant_savings w = Item.instant_savings r
         /\ Sale.source_url w = Item.source_url r
         /\ Sale.scraped_at w = now) rows out.
Proof.
  destruct (for_each_ok (save_row now) rows (save_row_ok now)) as [out H].
  exists out. split; [exact H |].
  apply for_each_Forall2 in H.
  induction H as [| r w rows out Hr _ IH]; constructor; [| exact IH].
  unfold save_row in Hr.
  destruct (save_to_float (Item.sale_price r)); [| discriminate].
  destruct (save_to_float (Item.instant_savings r)); [| discriminate].
  cbn [bind] in Hr. destruct (derived_fields _ _); [| discriminate].
  cbn [bind] in Hr. inversion Hr. repeat split.
Qed.


(** ** Cleaned text *)

Section CleanText.
Import PyStr.

Lemma collapse_single_spaced (l : list ascii) :
  forall b, single_spaced b (collapse b l) = true.
Proof.
  induction l as [| c l IH]; intros b; cbn [collapse]; [reflexivity |].
  destruct (PyChar.isspace c) eqn:Hc.
  - destruct b; [apply IH |].
    cbn [single_spaced]. change (PyChar.isspace " ") with true.
    cbn [Ascii.eqb negb andb]. rewrite IH. reflexivity.
  - cbn [single_spaced]. rewrite Hc. apply IH.
Qed.

Lemma lstrip_single_spaced (l : list ascii) :
  forall b, single_spaced b l = true -> single_spaced true (lstrip l) = true.
Proof.
  induction l as [| c l IH]; intros b H; cbn [lstrip]; [reflexivity |].
  cbn [single_spaced] in H. destruct (PyChar.isspace c) eqn:Hc.
  - apply andb_prop in H as [_ H]. exact (IH true H).
  - cbn [single_spaced]. rewrite Hc. exact H.
Qed.

Lemma single_spaced_prefix (l1 l2 : list ascii) :
  forall b, single_spaced b (l1 ++ l2) = true -> single_spaced b l1 = true.
Proof.
  induction l1 as [| c l1 IH]; intros b H; [reflexivity |].
  cbn [app single_spaced] in *. destruct (PyChar.isspace c).
  - apply andb_prop in H as [-> H]. exact (IH true H).
  - exact (IH false H).
Qed.

Lemma lstrip_suffix (l : list ascii) : exists p, l = p ++ lstrip l.
Proof.
  induction l as [| c l [p IH]]; cbn [lstrip]; [exists []; reflexivity |].
  destruct (PyChar.isspace c).
  - exists (c :: p). cbn [app]. rewrite <- IH. reflexivity.
  - exists []. reflexivity.
Qed.

Lemma lstrip_head (l : list ascii) (c : ascii) (r : list ascii) :
  lstrip l = c :: r -> PyChar.isspace c = false.
Proof.
  induction l as [| a l IH]; cbn [lstrip]; [discriminate |].
  destruct (PyChar.isspace a) eqn:Ha; [exact IH |].
  intros [= <- _]. exact Ha.
Qed.

(** The characters of [clean_text t] are single spaced from the start
    and end clean. *)
Lemma clean_text_normal (t : string) :
  single_spaced true (chars (clean_text t)) = true
  /\ ends_clean (chars (clean_text t)) = true.
Proof.
  unfold clean_text, strip, chars, text.
  rewrite !list_ascii_of_string_of_list_ascii.
  set (l := lstrip (collapse false (list_ascii_of_string t))).
  assert (Hl : single_spaced true l = true)
    by (apply (lstrip_single_spaced _ false), collapse_single_spaced).
  split.
  - destruct (lstrip_suffix (rev l)) as [p Hp].
    apply (single_spaced_prefix _ (rev p)).
    assert (Hrev : rev (lstrip (rev l)) ++ rev p = l).
    { rewrite <- (rev_involutive l) at 2. rewrite Hp at 2.
      symmetry. apply rev_app_distr. }
    rewrite Hrev. exact Hl.
  - unfold ends_clean. rewrite rev_involutive.
    destruct (lstrip (rev l)) as [| c r] eqn:Hr; [reflexivity |].
    rewrite (lstrip_head _ _ _ Hr). reflexivity.
Qed.

Lemma single_spaced_weaken (l : list ascii) :
  single_spaced true l = true -> single_spaced false l = true.
Proof.
  destruct l as [| c l]; [reflexivity |]. cbn [single_spaced].
  destruct (PyChar.isspace c); [| auto].
  rewrite Bool.andb_false_r. discriminate.
Qed.

Lemma collapse_fixed (l : list ascii) :
  forall b, single_spaced b l = true -> collapse b l = l.
Proof.
  induction l as [| c l IH]; intros b H; cbn [collapse]; [reflexivity |].
  cbn [single_spaced] in H. destruct (PyChar.isspace c).
  - apply andb_prop in H as [[Hc Hb]%andb_prop H].
    apply Ascii.eqb_eq in Hc. destruct b; [discriminate |].
    rewrite (IH true H), Hc. reflexivity.
  - rewrite (IH false H). reflexivity.
Qed.

Lemma lstrip_fixed (l : list ascii) :
  single_spaced true l = true -> lstrip l = l.
Proof.
  destruct l as [| c l]; [reflexivity |]. cbn [single_spaced lstrip].
  destruct (PyChar.isspace c); [| reflexivity].
  rewrite Bool.andb_false_r. discriminate.
Qed.

Lemma rstrip_fixed (l : list ascii) :
  ends_clean l = true -> rev (lstrip (rev l)) = l.
Proof.
  unfold ends_clean. destruct (rev l) as [| c r] eqn:Hr.
  - intros _. apply (f_equal (@rev ascii)) in Hr.
    rewrite rev_involutive in Hr. rewrite Hr. reflexivity.
  - intros Hc. cbn [lstrip]. apply Bool.negb_true_iff in Hc. rewrite Hc.
    rewrite <- Hr. apply rev_involutive.
Qed.

(** Text in normal form is left as it is. *)
Lemma clean_text_fixed (l : list ascii) :
  single_spaced true l = true -> ends_clean l = true ->
  clean_text (text l) = text l.
Proof.
  intros Hs He. unfold clean_text, strip, chars, text.
  rewrite !list_ascii_of_string_of_list_ascii.
  rewrite (collapse_fixed l false (single_spaced_weaken l Hs)).
  rewrite (lstrip_fixed l Hs), (rstrip_fixed l He). reflexivity.
Qed.

Lemma single_spaced_at (l1 : list ascii) (c : ascii) (l2 : list ascii) :
  forall b, single_spaced b (l1 ++ c :: l2) = true -> PyChar.isspace c = true ->
  c = " "%char
  /\ match l2 with x :: _ => PyChar.isspace x = false | [] => True end
  /\ match rev l1 with x :: _ => PyChar.isspace x = false | [] => b = false end.
Proof.
  induction l1 as [| a l1 IH]; intros b H Hc.
  - cbn [app single_spaced rev] in *. rewrite Hc in H.
    apply andb_prop in H as [[Heq Hb]%andb_prop H].
    apply Ascii.eqb_eq in Heq. apply Bool.negb_true_iff in Hb.
    repeat split; [exact Heq | | exact Hb].
    destruct l2 as [| x l2]; [exact I |]. cbn [single_spaced] in H.
    destruct (PyChar.isspace x); [| reflexivity].
    rewrite Bool.andb_false_r in H. discriminate.
  - cbn [app single_spaced] in H. destruct (PyChar.isspace a) eqn:Ha.
    + apply andb_prop in H as [_ H].
      destruct (IH true H Hc) as (Heq & Hnext & Hprev).
      repeat split; [exact Heq | exact Hnext |].
      cbn [rev]. destruct (rev l1) as [| x r]; [discriminate | exact Hprev].
    + destruct (IH false H Hc) as (Heq & Hnext & Hprev).
      repeat split; [exact Heq | exact Hnext |].
      cbn [rev]. destruct (rev l1) as [| x r]; [exact Ha | exact Hprev].
Qed.
End CleanText.

(** [clean_text] is idempotent: cleaning cleaned text changes nothing. *)
Theorem clean_text_idempotent (t : string) :
  clean_text (clean_text t) = clean_text t.
Proof.
  destruct (clean_text_normal t) as [Hs He].
  rewrite <- (string_of_list_ascii_of_string (clean_text t)).
  apply (clean_text_fixed (PyStr.chars (clean_text t))); assumption.
Qed.

(** Every white-space character of [clean_text t] is a space with a
    character that is not white space on each side: no tab or line
    break is left, no space leads or trails, no two spaces touch. *)
Theorem clean_text_single_spaces (t : string) (before : list ascii) (c : ascii)
    (after : list ascii) :
  PyStr.chars (clean_text t) = before ++ c :: after ->
  PyChar.isspace c = true ->
  c = " "%char
  /\ (exists a before', before = before' ++ [a] /\ PyChar.isspace a = false)
  /\ (exists b after', after = b :: after' /\ PyChar.isspace b = false).
Proof.
  intros Hsplit Hc. destruct (clean_text_normal t) as [Hs He].
  rewrite Hsplit in Hs, He.
  destruct (single_spaced_at before c after true Hs Hc) as (Heq & Hnext & Hprev).
  split; [exact Heq |]. split.
  - destruct (rev before) as [| a r] eqn:Hr; [discriminate |].
    exists a, (rev r). split; [| exact Hprev].
    apply (f_equal (@rev ascii)) in Hr. rewrite rev_involutive in Hr.
    exact Hr.
  - destruct after as [| b after']; [| eauto].
    unfold ends_clean in He. rewrite rev_app_distr in He. cbn in He.
    rewrite Hc in He. discriminate.
Qed.

Lemma clean_text_single_spaces_witness :
  PyStr.chars (clean_text (String "009" "Paper" ++ String "010" " Towel  "))
  = PyStr.chars "Paper" ++ " "%char :: PyStr.chars "Towel".
Proof.
  assert (H : PyStr.chars (clean_text (String "009" "Paper" ++ String "010" " Towel  "))
              = PyStr.chars "Paper" ++ " "%char :: PyStr.chars "Towel")
    by (vm_compute; reflexivity).
  destruct (clean_text_single_spaces _ _ _ _ H eq_refl) as (_ & _ & _).
  exact H.
Defined.

(** ** Price tokens and the parsing routines *)

Section TokenFacts.

Lemma isspace_not_kept (c : ascii) : PyChar.isspace c = true -> kept c = false.
Proof.
  destruct c as [[] [] [] [] [] [] [] []]; vm_compute; congruence.
Qed.

Lemma is_decimal_kept (c : ascii) : PyChar.is_decimal c = true -> kept c = true.
Proof. unfold kept, PyChar.isdigit. intros ->. reflexivity. Qed.

Lemma span_forallb (p : ascii -> bool) (l : list ascii) :
  forallb p (fst (PyStr.span p l)) = true
  /\ l = fst (PyStr.span p l) ++ snd (PyStr.span p l).
Proof.
  induction l as [| c l [IH1 IH2]]; cbn [PyStr.span]; [split; reflexivity |].
  destruct (p c) eqn:Hc; [| split; reflexivity].
  destruct (PyStr.span p l) as [a b]. cbn [fst snd forallb app] in *.
  rewrite Hc, IH1, <- IH2. split; reflexivity.
Qed.

Lemma span_upto_forallb (n : nat) (p : ascii -> bool) :
  forall l, forallb p (fst (span_upto n p l)) = true.
Proof.
  induction n as [| n IH]; intros [| c l]; cbn [span_upto]; try reflexivity.
  destruct (p c) eqn:Hc; [| reflexivity].
  specialize (IH l). destruct (span_upto n p l) as [a b].
  cbn [fst forallb] in *. rewrite Hc, IH. reflexivity.
Qed.

Lemma span_all (p : ascii -> bool) (a : list ascii) :
  forallb p a = true -> PyStr.span p a = (a, []).
Proof.
  induction a as [| c a IH]; cbn [forallb PyStr.span]; [reflexivity |].
  intros [-> Ha]%andb_prop. rewrite (IH Ha). reflexivity.
Qed.

Lemma filter_none (p : ascii -> bool) (a : list ascii) :
  forallb (fun c => negb (p c)) a = true -> List.filter p a = [].
Proof.
  induction a as [| c a IH]; cbn [forallb List.filter]; [reflexivity |].
  intros [Hc Ha]%andb_prop. apply Bool.negb_true_iff in Hc. rewrite Hc. auto.
Qed.

Lemma filter_forallb (p q : ascii -> bool) (a : list ascii) :
  forallb q a = true -> forallb q (List.filter p a) = true.
Proof.
  induction a as [| c a IH]; cbn [forallb List.filter]; [reflexivity |].
  intros [Hc Ha]%andb_prop. destruct (p c); cbn [forallb]; rewrite ?Hc; auto.
Qed.

(** The currency part of a match has no digit and no point. *)
Lemma match_currency_not_kept (l cur r : list ascii) :
  match_currency l = Some (cur, r) ->
  forallb (fun c => negb (kept c)) cur = true.
Proof.
  unfold match_currency.
  destruct l as [| c0 l]; [discriminate |].
  destruct (Ascii.eqb_spec c0 "$") as [-> | H0].
  - intros [= <- _]. reflexivity.
  - destruct (Ascii.eqb_spec c0 "C") as [-> | HC].
    2: { destruct c0 as [[] [] [] [] [] [] [] []]; try discriminate;
         contradiction. }
    destruct l as [| c1 l]; [discriminate |].
    destruct (Ascii.eqb_spec c1 "A") as [-> | HA].
    2: { destruct c1 as [[] [] [] [] [] [] [] []]; try discriminate;
         contradiction. }
    destruct l as [| c2 l]; [discriminate |].
    destruct (Ascii.eqb_spec c2 "D") as [-> | HD].
    2: { destruct c2 as [[] [] [] [] [] [] [] []]; try discriminate;
         contradiction. }
    pose proof (span_forallb PyChar.isspace l) as [Hws _].
    destruct (PyStr.span PyChar.isspace l) as [ws r1]. cbn [fst] in Hws.
    assert (Hws' : forallb (fun c => negb (kept c)) ws = true).
    { clear -Hws. induction ws as [| c ws IH]; [reflexivity |].
      cbn [forallb] in *. apply andb_prop in Hws as [Hc Hws].
      rewrite (isspace_not_kept c Hc), IH by exact Hws. reflexivity. }
    assert (Hgoal : forall tail,
               forallb (fun c => negb (kept c)) tail = true ->
               forallb (fun c => negb (kept c))
                 ("C"%char :: "A"%char :: "D"%char :: ws ++ tail) = true).
    { intros tail Ht. cbn [forallb].
      change (negb (kept "C")) with true. change (negb (kept "A")) with true.
      change (negb (kept "D")) with true. cbn [andb].
      rewrite forallb_app, Hws', Ht. reflexivity. }
    destruct r1 as [| c3 r1].
    + intros [= <- _]. rewrite <- (app_nil_r ws). apply Hgoal. reflexivity.
    + destruct (Ascii.eqb_spec c3 "$") as [-> | H3].
      * intros [= <- _]. apply Hgoal. reflexivity.
      * destruct c3 as [[] [] [] [] [] [] [] []];
          try (intros [= <- _]; rewrite <- (app_nil_r ws); apply Hgoal;
               reflexivity);
          contradiction.
Qed.

Lemma filter_kept_group (g : list ascii) :
  forallb (fun c => Ascii.eqb c "," || PyChar.is_decimal c) g = true ->
  forallb PyChar.is_decimal (List.filter kept g) = true.
Proof.
  induction g as [| c g IH]; cbn [forallb List.filter]; [reflexivity |].
  intros [Hc Hg]%andb_prop. destruct (PyChar.is_decimal c) eqn:Hd.
  - rewrite (is_decimal_kept c Hd). cbn [forallb]. rewrite Hd. auto.
  - rewrite Bool.orb_false_r in Hc. apply Ascii.eqb_eq in Hc. subst c.
    change (kept ",") with false. auto.
Qed.

(** What [digits_and_dots] leaves of a match of [PRICE_RE]: a run of
    digits that is not empty, then nothing or a point and two digits. *)
Lemma match_PRICE_RE_digits (l m : list ascii) :
  match_PRICE_RE l = Some m ->
  exists ds frac,
    List.filter kept m = ds ++ frac
    /\ ds <> [] /\ forallb PyChar.is_decimal ds = true
    /\ (frac = []
        \/ exists x y, frac = ["."%char; x; y]
                       /\ PyChar.is_decimal x = true /\ PyChar.is_decimal y = true).
Proof.
  unfold match_PRICE_RE.
  destruct (match_currency l) as [[cur r] |] eqn:Hcur; [| discriminate].
  apply match_currency_not_kept in Hcur.
  pose proof (span_forallb PyChar.isspace r) as [Hws _].
  destruct (PyStr.span PyChar.isspace r) as [ws r1]. cbn [fst] in Hws.
  pose proof (span_upto_forallb 3 PyChar.is_decimal r1) as Hd.
  destruct (span_upto 3 PyChar.is_decimal r1) as [d r2]. cbn [fst] in Hd.
  destruct d as [| d0 d]; [discriminate |].
  pose proof (span_upto_forallb 3
                (fun c => Ascii.eqb c "," || PyChar.is_decimal c) r2) as Hg.
  destruct (span_upto 3 _ r2) as [g r3]. cbn [fst] in Hg.
  intros [= <-].
  assert (Hws' : List.filter kept ws = []).
  { apply filter_none. clear -Hws. induction ws as [| c ws IH]; [reflexivity |].
    cbn [forallb] in *. apply andb_prop in Hws as [Hc Hws].
    rewrite (isspace_not_kept c Hc), IH by exact Hws. reflexivity. }
  assert (Hd' : List.filter kept (d0 :: d) = d0 :: d).
  { apply filter_run. revert Hd. apply forallb_weaken, is_decimal_kept. }
  set (frac := match r3 with
               | dot :: d1 :: d2 :: _ =>
                   if Ascii.eqb dot "." && PyChar.is_decimal d1 && PyChar.is_decimal d2
                   then [dot; d1; d2] else []
               | _ => []
               end).
  assert (Hfrac : (frac = [] /\ List.filter kept frac = [])
                  \/ exists x y, frac = ["."%char; x; y]
                       /\ PyChar.is_decimal x = true /\ PyChar.is_decimal y = true
                       /\ List.filter kept frac = frac).
  { subst frac. destruct r3 as [| dot [| d1 [| d2 r4]]]; auto.
    destruct (Ascii.eqb_spec dot ".") as [-> | Hdot]; [| auto].
    destruct (PyChar.is_decimal d1) eqn:H1, (PyChar.is_decimal d2) eqn:H2;
      cbn [andb]; auto.
    right. exists d1, d2.
    split; [reflexivity |]. split; [exact H1 |]. split; [exact H2 |].
    cbn [List.filter]. change (kept ".") with true.
    rewrite (is_decimal_kept d1 H1), (is_decimal_kept d2 H2). reflexivity. }
  change (d0 :: d ++ g ++ frac) with ((d0 :: d) ++ g ++ frac).
  rewrite !List.filter_app, (filter_none kept cur Hcur), Hws', Hd'.
  cbn [app].
  exists ((d0 :: d) ++ List.filter kept g), frac.
  split; [| split; [discriminate | split]].
  - destruct Hfrac as [[-> ->] | (x & y & Hf & _ & _ & ->)];
      rewrite <- ?app_assoc; reflexivity.
  - rewrite forallb_app, Hd, (filter_kept_group g Hg). reflexivity.
  - destruct Hfrac as [[-> _] | (x & y & Hf & Hx & Hy & _)]; [auto |].
    right. eauto.
Qed.

(** [float()] reads what is left of a match. *)
Lemma py_float_digits (ds frac : list ascii) :
  ds <> [] -> forallb PyChar.is_decimal ds = true ->
  (frac = []
   \/ exists x y, frac = ["."%char; x; y]
                  /\ PyChar.is_decimal x = true /\ PyChar.is_decimal y = true) ->
  exists v, py_float (PyStr.text (ds ++ frac)) = Ok v.
Proof.
  intros Hne Hds Hfrac. unfold py_float. rewrite chars_text.
  destruct Hfrac as [-> | (x & y & -> & Hx & Hy)].
  - rewrite app_nil_r, (span_all _ ds Hds).
    destruct ds; [contradiction | eauto].
  - rewrite (span_run _ ds "." [x; y] Hds eq_refl).
    cbn [forallb Ascii.eqb]. rewrite Hx, Hy. cbn [andb].
    destruct ds; [contradiction | eauto].
Qed.

Lemma findall_from_elem (l : list ascii) :
  forall skip p, p ∈ findall_from skip l ->
  exists l' m, match_PRICE_RE l' = Some m /\ p = PyStr.text m.
Proof.
  induction l as [| c l IH]; intros skip p; cbn [findall_from].
  - intros H%elem_of_nil. contradiction.
  - destruct skip; [| apply IH].
    destruct (match_PRICE_RE (c :: l)) as [m |] eqn:Hm; [| apply IH].
    intros [-> | H]%elem_of_cons; [eauto | exact (IH _ _ H)].
Qed.

(** A match of [PRICE_RE] parses to a number at diff time and at
    recomputation time. *)
Lemma match_PRICE_RE_parses (l m : list ascii) :
  match_PRICE_RE l = Some m ->
  exists x, parse_price (PyStr.text m) = Ok (Some x)
            /\ recompute_to_float (PyStr.text m) = Ok (Some x).
Proof.
  intros Hm. pose proof (match_PRICE_RE_nonempty l m Hm) as Hne.
  destruct (match_PRICE_RE_digits l m Hm) as (ds & frac & Hkeep & Hds & Hall & Hfrac).
  destruct (py_float_digits ds frac Hds Hall Hfrac) as [v Hv].
  assert (Hdd : PyStr.digits_and_dots (PyStr.text m) = PyStr.text (ds ++ frac)).
  { unfold PyStr.digits_and_dots. rewrite chars_text.
    change (List.filter _ m) with (List.filter kept m). rewrite Hkeep.
    reflexivity. }
  exists v. unfold parse_price, recompute_to_float. rewrite Hdd, Hv.
  destruct m; [contradiction |]. split; reflexivity.
Qed.
End TokenFacts.

(** Every price token the scanner finds, hence the sale price of every
    record extracted, parses to a number in the differ ([parse_price])
    and at recomputation time: neither returns no value on it. *)
Theorem price_tokens_parse :
  (forall txt p, p ∈ PRICE_RE_findall txt ->
     exists x, parse_price p = Ok (Some x)
               /\ recompute_to_float p = Ok (Some x))
  /\ (forall source_url post_title post_date content_scopes it,
       it ∈ extract_items_from_post source_url post_title post_date content_scopes ->
       exists x, parse_price (Item.sale_price it) = Ok (Some x)
                 /\ recompute_to_float (Item.sale_price it) = Ok (Some x)).
Proof.
  assert (Htok : forall txt p, p ∈ PRICE_RE_findall txt ->
            exists x, parse_price p = Ok (Some x)
                      /\ recompute_to_float p = Ok (Some x)).
  { intros txt p (l' & m & Hm & ->)%findall_from_elem.
    exact (match_PRICE_RE_parses l' m Hm). }
  split; [exact Htok |].
  intros source_url post_title post_date scopes it Hit.
  rewrite extract_texts in Hit.
  destruct (scan_invariant source_url post_title post_date (texts scopes))
    as (_ & _ & Hfrom & _).
  destruct (Hfrom it Hit) as (t & _ & -> & Hp & _).
  apply (Htok (clean_text (TextNode.text t))).
  apply last_Some_elem_of, last_price_matches, Hp.
Qed.

Lemma price_tokens_parse_witness :
  exists x, parse_price "CAD $ 12.99" = Ok (Some x)
            /\ recompute_to_float "CAD $ 12.99" = Ok (Some x).
Proof.
  apply (proj1 price_tokens_parse "Towels CAD $ 12.99 each").
  vm_compute. apply list_elem_of_here.
Defined.

(** ** Prices the persistence-time routine cannot read *)

Lemma match_decimal2_point (l m : list ascii) :
  match_decimal2 l = Some m -> "."%char ∈ l.
Proof.
  unfold match_decimal2.
  pose proof (span_forallb PyChar.is_decimal l) as [_ Hl].
  destruct (PyStr.span PyChar.is_decimal l) as [ds rest]. cbn [fst snd] in Hl.
  destruct ds as [| d ds]; [discriminate |].
  destruct rest as [| dot [| d1 [| d2 rest]]]; try discriminate.
  destruct (Ascii.eqb_spec dot ".") as [-> | Hdot]; [| discriminate].
  intros _. rewrite Hl. apply elem_of_app. right. apply list_elem_of_here.
Qed.

Lemma search_decimal2_point (l m : list ascii) :
  search_decimal2 l = Some m -> "."%char ∈ l.
Proof.
  induction l as [| c l IH]; cbn [search_decimal2]; [discriminate |].
  destruct (match_decimal2 (c :: l)) as [m' |] eqn:Hm.
  - intros _. exact (match_decimal2_point _ _ Hm).
  - intros H. apply list_elem_of_further, IH, H.
Qed.

(** At persistence time a sale price or a savings amount written
    without a decimal point, such as [$5] or the [5] read from
    [($5 INSTANT SAVINGS)], has no value: the row is saved with both
    derived fields empty, whatever the other operand is. *)
Theorem save_needs_decimal_point (now : string) (r : Item.t) :
  "."%char ∉ PyStr.chars (Item.sale_price r)
  \/ "."%char ∉ PyStr.chars (Item.instant_savings r) ->
  exists w,
    save_row now r = Ok w
    /\ Sale.approx_regular_price w = CStr ""
    /\ Sale.discount_percent w = CStr "".
Proof.
  assert (Hnone : forall s, "."%char ∉ PyStr.chars s -> save_to_float s = Ok None).
  { intros s Hs. unfold save_to_float. destruct (String.eqb s ""); [reflexivity |].
    destruct (search_decimal2 (PyStr.chars s)) as [m |] eqn:Hm; [| reflexivity].
    exfalso. exact (Hs (search_decimal2_point _ _ Hm)). }
  intros Hno. unfold save_row.
  destruct (parsed_ok _ (save_to_float_parsed (Item.sale_price r))) as [sale Es].
  destruct (parsed_ok _ (save_to_float_parsed (Item.instant_savings r)))
    as [instant Ei].
  rewrite Es, Ei. cbn [bind].
  assert (Hd : derived_fields sale instant = Ok (CStr "", CStr "")).
  { apply derived_fields_empty.
    destruct Hno as [H | H]; apply Hnone in H.
    - left. rewrite H in Es. inversion Es. reflexivity.
    - right. rewrite H in Ei. inversion Ei. reflexivity. }
  rewrite Hd. cbn [bind fst snd]. eexists. repeat split.
Qed.

Lemma save_needs_decimal_point_witness :
  exists w,
    save_row "t0" (Item.mk "Sales" "" "Widget" "$19.99" "" "5" "u") = Ok w
    /\ Sale.approx_regular_price w = CStr ""
    /\ Sale.discount_percent w = CStr "".
Proof.
  apply (save_needs_decimal_point "t0"
           (Item.mk "Sales" "" "Widget" "$19.99" "" "5" "u")).
  right. vm_compute. intros H.
  apply list_elem_of_singleton in H. discriminate.
Defined.

(** ** Prices with a thousands separator *)

Lemma is_decimal_no_currency (c : ascii) (l : list ascii) :
  PyChar.is_decimal c = true -> match_PRICE_RE (c :: l) = None.
Proof.
  destruct c as [[] [] [] [] [] [] [] []]; vm_compute; congruence.
Qed.

Lemma is_decimal_facts (c : ascii) :
  PyChar.is_decimal c = true ->
  PyChar.isspace c = false /\ Ascii.eqb c "." = false /\ Ascii.eqb c "," = false.
Proof.
  destruct c as [[] [] [] [] [] [] [] []]; vm_compute; intuition congruence.
Qed.

Lemma span_upto_run (p : ascii -> bool) (a : list ascii) (x : ascii) (r : list ascii) :
  forall n, forallb p a = true -> (length a <= n)%nat -> p x = false ->
  span_upto n p (a ++ x :: r) = (a, x :: r).
Proof.
  induction a as [| c a IH]; intros n Ha Hn Hx.
  - destruct n; cbn [app span_upto]; rewrite ?Hx; reflexivity.
  - cbn [forallb] in Ha. apply andb_prop in Ha as [Hc Ha].
    destruct n as [| n]; cbn [length] in Hn; [lia |].
    cbn [app span_upto]. rewrite Hc, (IH n Ha ltac:(lia) Hx). reflexivity.
Qed.

Lemma span_upto_full (p : ascii -> bool) (a r : list ascii) :
  forallb p a = true -> span_upto (length a) p (a ++ r) = (a, r).
Proof.
  induction a as [| c a IH]; cbn [forallb length app span_upto].
  - intros _. destruct r; reflexivity.
  - intros [-> Ha]%andb_prop. rewrite (IH Ha). reflexivity.
Qed.

(** The token of a price with a thousands separator. After the dollar
    sign [PRICE_RE] reads up to three digits and then up to three
    characters among digits and commas: of [$a,bcd.ef] it takes [$a,bc]
    and leaves the rest. *)
Lemma match_PRICE_RE_thousands (a : list ascii) (b1 b2 b3 : ascii) (rest : list ascii) :
  (1 <= length a <= 3)%nat -> forallb PyChar.is_decimal a = true ->
  PyChar.is_decimal b1 = true -> PyChar.is_decimal b2 = true ->
  PyChar.is_decimal b3 = true ->
  match_PRICE_RE ("$"%char :: a ++ ","%char :: b1 :: b2 :: b3 :: rest)
  = Some ("$"%char :: a ++ [","%char; b1; b2]).
Proof.
  intros Hlen Ha H1 H2 H3.
  destruct (is_decimal_facts b3 H3) as (_ & Hdot3 & _).
  unfold match_PRICE_RE. cbn [match_currency].
  assert (Hsp : PyStr.span PyChar.isspace (a ++ ","%char :: b1 :: b2 :: b3 :: rest)
                = ([], a ++ ","%char :: b1 :: b2 :: b3 :: rest)).
  { destruct a as [| a1 a]; cbn [length] in Hlen; [lia |].
    cbn [forallb] in Ha. apply andb_prop in Ha as [Ha1 _].
    destruct (is_decimal_facts a1 Ha1) as (Hs & _ & _).
    cbn [app PyStr.span]. rewrite Hs. reflexivity. }
  rewrite Hsp.
  rewrite (span_upto_run PyChar.is_decimal a "," _ 3 Ha ltac:(lia) eq_refl).
  destruct a as [| a1 a]; [cbn [length] in Hlen; lia |].
  change (","%char :: b1 :: b2 :: b3 :: rest)
    with ([","%char; b1; b2] ++ b3 :: rest).
  rewrite (span_upto_full _ [","%char; b1; b2] (b3 :: rest))
    by (cbn [forallb]; rewrite H1, H2, !Bool.orb_true_r; reflexivity).
  assert (Hfrac : match b3 :: rest with
                  | dot :: d1 :: d2 :: _ =>
                      if Ascii.eqb dot "." && PyChar.is_decimal d1 && PyChar.is_decimal d2
                      then [dot; d1; d2] else []
                  | _ => []
                  end = []).
  { destruct rest as [| d1 [| d2 rest]]; try reflexivity.
    rewrite Hdot3. reflexivity. }
  rewrite Hfrac. cbn [app]. rewrite ?app_nil_r. reflexivity.
Qed.

(** A price written with a thousands separator is cut by the scanner:
    in the text [$a,bcd.ef], with one to three digits [a], the only
    token found is [$a,bc], and the differ reads it as the whole number
    [abc]. *)
Theorem thousands_price_is_cut (a : list ascii) (b1 b2 b3 c1 c2 : ascii) :
  (1 <= length a <= 3)%nat -> forallb PyChar.is_decimal a = true ->
  PyChar.is_decimal b1 = true -> PyChar.is_decimal b2 = true ->
  PyChar.is_decimal b3 = true ->
  PyChar.is_decimal c1 = true -> PyChar.is_decimal c2 = true ->
  PRICE_RE_findall
    (PyStr.text ("$"%char :: a ++ [","%char; b1; b2; b3; "."%char; c1; c2]))
  = [PyStr.text ("$"%char :: a ++ [","%char; b1; b2])]
  /\ parse_price (PyStr.text ("$"%char :: a ++ [","%char; b1; b2]))
     = Ok (Some (PyFloat.of_decimal (digits_value (a ++ [b1; b2])) 0)).
Proof.
  intros Hlen Ha H1 H2 H3 Hc1 Hc2. split.
  - unfold PRICE_RE_findall. rewrite chars_text.
    pose proof (match_PRICE_RE_thousands a b1 b2 b3 ["."%char; c1; c2]
                  Hlen Ha H1 H2 H3) as Hm.
    assert (Htail : forall k, findall_from k [b3; "."%char; c1; c2] = []).
    { assert (Hdot : match_PRICE_RE ["."%char; c1; c2] = None) by reflexivity.
      intros k. destruct k as [| [| [| [| k]]]]; cbn [findall_from];
        rewrite ?Hdot, ?is_decimal_no_currency by assumption; reflexivity. }
    assert (Hskip : forall (l tail : list ascii) k,
               findall_from (length l + k) (l ++ tail) = findall_from k tail).
    { induction l as [| x l IH]; intros tail k; [reflexivity |].
      cbn [length app findall_from Nat.add]. apply IH. }
    cbn [findall_from]. cbn [app] in Hm. rewrite Hm. f_equal.
    cbn [length]. rewrite length_app. cbn [length].
    replace (S (length a + 3) - 1)%nat with (length (a ++ [","%char; b1; b2]) + 0)%nat
      by (rewrite length_app; cbn [length]; lia).
    change (a ++ [","%char; b1; b2; b3; "."%char; c1; c2])
      with (a ++ [","%char; b1; b2] ++ [b3; "."%char; c1; c2]).
    rewrite app_assoc, Hskip. apply Htail.
  - unfold parse_price. cbn [PyStr.text string_of_list_ascii String.eqb].
    unfold PyStr.digits_and_dots.
    change (list_ascii_of_string (String "$" ?s)) with ("$"%char :: list_ascii_of_string s).
    unfold PyStr.chars. cbn [list_ascii_of_string List.filter].
    change (PyChar.isdigit "$" || Ascii.eqb "$" ".") with false. cbn iota.
    rewrite list_ascii_of_string_of_list_ascii, List.filter_app.
    rewrite (filter_run _ a)
      by (revert Ha; apply forallb_weaken; intros d Hd;
          unfold PyChar.isdigit; rewrite Hd; reflexivity).
    cbn [List.filter].
    change (PyChar.isdigit "," || Ascii.eqb "," ".") with false. cbn iota.
    unfold PyChar.isdigit. rewrite H1, H2. cbn [orb].
    unfold py_float. rewrite chars_text.
    rewrite (span_all PyChar.is_decimal (a ++ [b1; b2]))
      by (rewrite forallb_app, Ha; cbn [forallb]; rewrite H1, H2; reflexivity).
    destruct a; [cbn [length] in Hlen; lia | reflexivity].
Qed.

Lemma thousands_price_is_cut_witness :
  PRICE_RE_findall "$1,234.56" = ["$1,23"]
  /\ parse_price "$1,23" = Ok (Some (PyFloat.of_decimal 123 0)).
Proof.
  apply (thousands_price_is_cut ["1"%char] "2" "3" "4" "5" "6");
    try reflexivity.
  cbn [length]. lia.
Defined.

(** ** Watchlist *)

Section WatchlistFacts.
Import PyStr.

Lemma is_linebreak_isspace (c : ascii) :
  is_linebreak c = true -> PyChar.isspace c = true.
Proof. destruct c as [[] [] [] [] [] [] [] []]; vm_compute; congruence. Qed.

(** No line of [splitlines] holds a line break. *)
Lemma splitlines_from_no_break (n : nat) :
  forall l cur, (length l <= n)%nat ->
  Forall (fun c => is_linebreak c = false) cur ->
  Forall (Forall (fun c => is_linebreak c = false)) (splitlines_from cur l).
Proof.
  induction n as [| n IH]; intros l cur Hn Hcur.
  - destruct l; [| cbn [length] in Hn; lia]. cbn [splitlines_from].
    destruct cur; constructor; [| constructor].
    apply Forall_rev. exact Hcur.
  - destruct l as [| c l]; cbn [splitlines_from].
    + destruct cur; constructor; [| constructor]. apply Forall_rev. exact Hcur.
    + cbn [length] in Hn. destruct (is_linebreak c) eqn:Hc.
      * constructor; [apply Forall_rev; exact Hcur |].
        destruct l as [| c' l'']; [constructor |].
        cbn [length] in Hn.
        destruct (Ascii.eqb c "013" && Ascii.eqb c' "010");
          apply IH; cbn [length]; try lia; constructor.
      * apply IH; [lia |]. constructor; assumption.
Qed.

Lemma lstrip_Forall (P : ascii -> Prop) (l : list ascii) :
  Forall P l -> Forall P (lstrip l).
Proof.
  induction 1 as [| c l Hc Hl IH]; cbn [lstrip]; [constructor |].
  destruct (PyChar.isspace c); [exact IH | constructor; assumption].
Qed.

Lemma strip_Forall (P : ascii -> Prop) (s : string) :
  Forall P (chars s) -> Forall P (chars (strip s)).
Proof.
  intros H. unfold strip. rewrite chars_text.
  apply Forall_rev, lstrip_Forall, Forall_rev, lstrip_Forall, H.
Qed.

(** Stripped text neither starts nor ends with white space, and
    stripping it again changes nothing. *)
Lemma strip_idempotent (s : string) : strip (strip s) = strip s.
Proof.
  unfold strip. rewrite !chars_text.
  set (l0 := lstrip (chars s)).
  set (l1 := rev (lstrip (rev l0))).
  assert (Hhead : lstrip l1 = l1).
  { destruct l1 as [| c r] eqn:H1; [reflexivity |].
    destruct (lstrip_suffix (rev l0)) as [p Hp].
    assert (Hl0 : l0 = l1 ++ rev p).
    { rewrite <- (rev_involutive l0). rewrite Hp at 1.
      rewrite rev_app_distr. reflexivity. }
    rewrite H1 in Hl0. cbn [app] in Hl0.
    pose proof (lstrip_head (chars s) c (r ++ rev p) Hl0) as Hc.
    cbn [lstrip]. rewrite Hc. reflexivity. }
  rewrite Hhead. f_equal. apply rstrip_fixed.
  unfold ends_clean, l1. rewrite rev_involutive.
  destruct (lstrip (rev l0)) as [| c r] eqn:Hr; [reflexivity |].
  rewrite (lstrip_head _ _ _ Hr). reflexivity.
Qed.

Lemma string_eqb_empty (s : string) : String.eqb s "" = true <-> s = "".
Proof. apply String.eqb_eq. Qed.
End WatchlistFacts.

(** The keywords [load_watchlist] returns: none is empty, none starts or
    ends with white space, none holds a line break; there is none at all
    when no path is given or the file does not exist. *)
Theorem load_watchlist_keywords (content : option string) (w : string) :
  w ∈ load_watchlist content ->
  w <> ""
  /\ PyStr.strip w = w
  /\ Forall (fun c => is_linebreak c = false) (PyStr.chars w)
  /\ load_watchlist None = [].
Proof.
  destruct content as [s |]; cbn [load_watchlist];
    [| intros H%elem_of_nil; contradiction].
  intros H. apply list_elem_of_In, in_map_iff in H as (line & <- & Hline).
  apply filter_In in Hline as [Hline Hne].
  split; [| split; [| split]].
  - intros Hempty. rewrite Hempty in Hne. discriminate.
  - apply strip_idempotent.
  - apply strip_Forall. unfold splitlines in Hline.
    apply in_map_iff in Hline as (l & <- & Hl).
    rewrite chars_text.
    pose proof (splitlines_from_no_break (length (PyStr.chars s))
                  (PyStr.chars s) [] (Nat.le_refl _) (Forall_nil_2 _)) as Hall.
    rewrite Forall_forall in Hall. apply Hall, list_elem_of_In, Hl.
  - reflexivity.
Qed.

Lemma load_watchlist_keywords_witness :
  PyStr.strip "paper towel" = "paper towel".
Proof.
  apply (load_watchlist_keywords
           (Some (String.append "  paper towel " (String "010" "   ")))
           "paper towel").
  vm_compute. apply list_elem_of_here.
Defined.

Section FilterFacts.

Lemma starts_with_spec (a l : list ascii) :
  starts_with a l = true <-> exists post, l = a ++ post.
Proof.
  revert l. induction a as [| x a IH]; intros l; cbn [starts_with].
  - split; [intros _; exists l; reflexivity | reflexivity].
  - destruct l as [| y l].
    + split; [discriminate | intros [post H]; discriminate].
    + rewrite Bool.andb_true_iff, Ascii.eqb_eq, IH. split.
      * intros [-> [post ->]]. exists post. reflexivity.
      * intros [post [= -> ->]]. split; [reflexivity | eauto].
Qed.

(** [occurs_in a l] tells that [a] is a run of consecutive characters
    of [l]. *)
Lemma occurs_in_spec (a l : list ascii) :
  occurs_in a l = true <-> exists pre post, l = pre ++ a ++ post.
Proof.
  induction l as [| y l IH]; cbn [occurs_in].
  - rewrite Bool.orb_false_r, starts_with_spec. split.
    + intros [post H]. exists [], post. exact H.
    + intros (pre & post & H). destruct pre; [eauto | discriminate].
  - rewrite Bool.orb_true_iff, starts_with_spec, IH. split.
    + intros [[post H] | (pre & post & ->)].
      * exists [], post. exact H.
      * exists (y :: pre), post. reflexivity.
    + intros (pre & post & H). destruct pre as [| z pre].
      * left. exists post. exact H.
      * right. cbn [app] in H. inversion H. eauto.
Qed.

Lemma lower_char_idempotent (c : ascii) :
  PyChar.lower (PyChar.lower c) = PyChar.lower c.
Proof. destruct c as [[] [] [] [] [] [] [] []]; reflexivity. Qed.

Lemma lower_idempotent (s : string) : PyStr.lower (PyStr.lower s) = PyStr.lower s.
Proof.
  unfold PyStr.lower. rewrite chars_text, List.map_map. f_equal.
  apply List.map_ext. intros c. apply lower_char_idempotent.
Qed.
End FilterFacts.

(** [filter_by_watchlist] returns, in their order, the records whose
    lowercased product name contains the lowercased form of a keyword of
    the list as a run of consecutive characters, and no other record. *)
Theorem filter_by_watchlist_hits (items : list Item.t) (watch : list string) :
  sublist (filter_by_watchlist items watch) items
  /\ forall it,
      it ∈ filter_by_watchlist items watch
      <-> it ∈ items
          /\ exists w pre post,
               w ∈ watch
               /\ PyStr.chars (PyStr.lower (Item.product_name it))
                  = pre ++ PyStr.chars (PyStr.lower w) ++ post.
Proof.
  assert (Hon : forall it,
             on_watchlist watch it = true
             <-> exists w pre post,
                   w ∈ watch
                   /\ PyStr.chars (PyStr.lower (Item.product_name it))
                      = pre ++ PyStr.chars (PyStr.lower w) ++ post).
  { intros it. unfold on_watchlist. rewrite existsb_exists. split.
    - intros (w & Hw & (pre & post & H)%occurs_in_spec).
      exists w, pre, post. split; [apply list_elem_of_In; exact Hw | exact H].
    - intros (w & pre & post & Hw & H). exists w.
      split; [apply list_elem_of_In; exact Hw |].
      apply occurs_in_spec. eauto. }
  assert (Hsub : forall (p : Item.t -> bool) l, sublist (List.filter p l) l).
  { intros p l. induction l as [| x l IH]; cbn [List.filter]; [constructor |].
    destruct (p x); [apply sublist_skip | apply sublist_cons]; exact IH. }
  destruct watch as [| w0 watch]; cbn [filter_by_watchlist].
  - split; [apply sublist_nil_l |]. intros it. split.
    + intros H%elem_of_nil. contradiction.
    + intros (_ & w & _ & _ & Hw%elem_of_nil & _). contradiction.
  - split; [apply Hsub |]. intros it.
    rewrite list_elem_of_In, filter_In, <- list_elem_of_In, Hon. reflexivity.
Qed.

(** The example of the specification: the keyword "paper towel" matches
    "Kirkland Signature Paper Towel 12pk". *)
Lemma filter_by_watchlist_hits_witness :
  Item.mk "" "" "Kirkland Signature Paper Towel 12pk" "$19.99" "" "" "u"
  ∈ filter_by_watchlist
      [Item.mk "" "" "Soap" "$4.49" "" "" "u";
       Item.mk "" "" "Kirkland Signature Paper Towel 12pk" "$19.99" "" "" "u"]
      ["paper towel"].
Proof.
  apply (proj2 (filter_by_watchlist_hits _ _)). split.
  - apply list_elem_of_further, list_elem_of_here.
  - exists "paper towel", (PyStr.chars "kirkland signature "), (PyStr.chars " 12pk").
    split; [apply list_elem_of_here | reflexivity].
Defined.

(** The match ignores the case of the keywords: a watchlist and its
    lowercased form select the same records. *)
Theorem filter_by_watchlist_ignores_case (items : list Item.t) (watch : list string) :
  filter_by_watchlist items (List.map PyStr.lower watch)
  = filter_by_watchlist items watch.
Proof.
  destruct watch as [| w0 watch]; [reflexivity |].
  cbn [List.map filter_by_watchlist].
  apply List.filter_ext. intros it. unfold on_watchlist.
  change (PyStr.lower w0 :: List.map PyStr.lower watch)
    with (List.map PyStr.lower (w0 :: watch)).
  induction (w0 :: watch) as [| w l IH]; cbn [List.map existsb]; [reflexivity |].
  rewrite lower_idempotent, IH. reflexivity.
Qed.

(** ** The order of floats *)

Section FloatOrder.
Import PyFloat.

Lemma ltb_rank (x y : float) :
  not_nan x = true -> not_nan y = true ->
  (ltb x y = true <-> rank_lt (float_rank x) (float_rank y)).
Proof.
  unfold ltb, SFltb, SFcompare, rank_lt.
  destruct x as [sx | [] | | [] mx ex], y as [sy | [] | | [] my ey];
    try discriminate; intros _ _; cbn [float_rank fst snd];
    try (split; [discriminate | lia]);
    try (split; [lia | reflexivity]).
  - destruct (Z.compare_spec ex ey) as [-> | Hlt | Hgt].
    + rewrite Pos.compare_cont_spec. cbn [Pos.switch_Eq].
      destruct (Pos.compare_spec mx my); cbn [CompOpp];
        (split; [try discriminate; lia | try reflexivity; lia]).
    + split; [discriminate | lia].
    + split; [lia | reflexivity].
  - destruct (Z.compare_spec ex ey) as [-> | Hlt | Hgt].
    + rewrite Pos.compare_cont_spec. cbn [Pos.switch_Eq].
      destruct (Pos.compare_spec mx my);
        (split; [try discriminate; lia | try reflexivity; lia]).
    + split; [lia | reflexivity].
    + split; [discriminate | lia].
Qed.

Lemma ltb_false_rank (x y : float) :
  not_nan x = true -> not_nan y = true ->
  (ltb x y = false <-> ~ rank_lt (float_rank x) (float_rank y)).
Proof.
  intros Hx Hy. rewrite <- (ltb_rank x y Hx Hy).
  destruct (ltb x y); split; congruence.
Qed.

(** [x >= y] and [y >= z] give [x >= z]. *)
Lemma not_ltb_trans (x y z : float) :
  not_nan x = true -> not_nan y = true -> not_nan z = true ->
  ltb x y = false -> ltb y z = false -> ltb x z = false.
Proof.
  intros Hx Hy Hz.
  rewrite (ltb_false_rank x y Hx Hy), (ltb_false_rank y z Hy Hz),
    (ltb_false_rank x z Hx Hz).
  unfold rank_lt. lia.
Qed.

Lemma ltb_asym (x y : float) :
  not_nan x = true -> not_nan y = true ->
  ltb x y = true -> ltb y x = false.
Proof.
  intros Hx Hy. rewrite (ltb_rank x y Hx Hy), (ltb_false_rank y x Hy Hx).
  unfold rank_lt. lia.
Qed.

Lemma nonneg_not_nan (x : float) : nonneg x = true -> not_nan x = true.
Proof. destruct x; [reflexivity | reflexivity | discriminate | reflexivity]. Qed.
End FloatOrder.

(** ** Sorting and extremes *)

Section SortingFacts.
Context {A : Type} (key : A -> PyFloat.float).

Lemma insert_asc_Permutation (x : A) (s : list A) :
  insert_asc key x s ≡ₚ x :: s.
Proof.
  induction s as [| y s IH]; cbn [insert_asc]; [reflexivity |].
  destruct (PyFloat.ltb (key y) (key x)); [| reflexivity].
  rewrite IH. apply Permutation_swap.
Qed.

Lemma sorted_asc_Permutation (l : list A) : sorted_asc key l ≡ₚ l.
Proof.
  induction l as [| x l IH]; cbn [sorted_asc fold_right]; [reflexivity |].
  rewrite insert_asc_Permutation. constructor. exact IH.
Qed.

Lemma sorted_reverse_Permutation (l : list A) : sorted_reverse key l ≡ₚ l.
Proof.
  unfold sorted_reverse.
  rewrite <- Permutation_rev, sorted_asc_Permutation, <- Permutation_rev.
  reflexivity.
Qed.

Lemma insert_asc_sorted (x : A) (s : list A) :
  keyed key x -> Forall (keyed key) s ->
  StronglySorted (fun a b => PyFloat.ltb (key b) (key a) = false) s ->
  StronglySorted (fun a b => PyFloat.ltb (key b) (key a) = false)
    (insert_asc key x s).
Proof.
  intros Hx Hs Hsorted. induction Hsorted as [| y s Hsorted IH Hy];
    cbn [insert_asc]; [repeat constructor |].
  apply Forall_cons in Hs as [Hky Hs].
  destruct (PyFloat.ltb (key y) (key x)) eqn:Hlt.
  - constructor; [apply IH; exact Hs |].
    rewrite insert_asc_Permutation. constructor; [| exact Hy].
    apply ltb_asym; assumption.
  - constructor; [constructor; assumption |].
    constructor; [exact Hlt |].
    rewrite Forall_forall in Hy, Hs |- *. intros z Hz.
    apply (not_ltb_trans (key z) (key y) (key x)); auto.
    apply Hs, Hz.
Qed.

Lemma sorted_asc_sorted (l : list A) :
  Forall (keyed key) l ->
  StronglySorted (fun a b => PyFloat.ltb (key b) (key a) = false)
    (sorted_asc key l).
Proof.
  induction 1 as [| x l Hx Hl IH]; [constructor |].
  change (sorted_asc key (x :: l)) with (insert_asc key x (sorted_asc key l)).
  apply insert_asc_sorted; [exact Hx | | exact IH].
  rewrite sorted_asc_Permutation. exact Hl.
Qed.

Lemma StronglySorted_snoc (R : A -> A -> Prop) (l : list A) (x : A) :
  StronglySorted R l -> Forall (fun a => R a x) l -> StronglySorted R (l ++ [x]).
Proof.
  induction 1 as [| a l Hl IH Ha]; intros Hx; cbn [app].
  - repeat constructor.
  - apply Forall_cons in Hx as [Hax Hx]. constructor; [apply IH; exact Hx |].
    apply Forall_app. split; [exact Ha | repeat constructor; exact Hax].
Qed.

Lemma StronglySorted_rev (R : A -> A -> Prop) (l : list A) :
  StronglySorted R l -> StronglySorted (fun a b => R b a) (rev l).
Proof.
  induction 1 as [| a l Hl IH Ha]; cbn [rev]; [constructor |].
  apply StronglySorted_snoc; [exact IH |].
  apply Forall_rev. exact Ha.
Qed.

(** [sorted(l, key=key, reverse=True)] holds the elements of [l], no
    element before one with a greater key. *)
Lemma sorted_reverse_sorted (l : list A) :
  Forall (keyed key) l ->
  StronglySorted (fun a b => PyFloat.ltb (key a) (key b) = false)
    (sorted_reverse key l).
Proof.
  intros Hl. unfold sorted_reverse.
  apply (StronglySorted_rev (fun a b => PyFloat.ltb (key b) (key a) = false)).
  apply sorted_asc_sorted. apply Forall_rev. exact Hl.
Qed.

(** [max] returns an element no element exceeds. *)
Lemma max_from_greatest (l : list A) :
  forall best, Forall (keyed key) (best :: l) ->
  max_from key best l ∈ best :: l
  /\ Forall (fun y => PyFloat.ltb (key (max_from key best l)) (key y) = false)
       (best :: l).
Proof.
  induction l as [| x l IH]; intros best Hk; cbn [max_from].
  - split; [apply list_elem_of_here |]. repeat constructor. apply ltb_irrefl.
  - apply Forall_cons in Hk as [Hb Hk]. pose proof Hk as Hk'.
    apply Forall_cons in Hk' as [Hx Hl].
    destruct (PyFloat.ltb (key best) (key x)) eqn:Hlt.
    + destruct (IH x Hk) as [Hin Hall]. split.
      * apply list_elem_of_further. exact Hin.
      * constructor; [| exact Hall].
        apply Forall_cons in Hall as [Hmx _].
        apply (not_ltb_trans _ (key x) _); auto.
        -- rewrite Forall_forall in Hk. apply Hk. exact Hin.
        -- apply ltb_asym; assumption.
    + destruct (IH best (Forall_cons_2 _ _ _ Hb Hl)) as [Hin Hall]. split.
      * apply elem_of_cons in Hin as [-> | Hin];
          [apply list_elem_of_here |].
        apply list_elem_of_further, list_elem_of_further, Hin.
      * apply Forall_cons in Hall as [Hmb Hall].
        constructor; [exact Hmb |]. constructor; [| exact Hall].
        apply (not_ltb_trans _ (key best) _); auto.
        assert (Hin' : max_from key best l ∈ best :: l) by exact Hin.
        assert (Hkl : Forall (keyed key) (best :: l)) by (constructor; assumption).
        rewrite Forall_forall in Hkl. apply Hkl, Hin'.
Qed.

(** [min] returns an element that exceeds no element. *)
Lemma min_from_least (l : list A) :
  forall best, Forall (keyed key) (best :: l) ->
  min_from key best l ∈ best :: l
  /\ Forall (fun y => PyFloat.ltb (key y) (key (min_from key best l)) = false)
       (best :: l).
Proof.
  induction l as [| x l IH]; intros best Hk; cbn [min_from].
  - split; [apply list_elem_of_here |]. repeat constructor. apply ltb_irrefl.
  - apply Forall_cons in Hk as [Hb Hk]. pose proof Hk as Hk'.
    apply Forall_cons in Hk' as [Hx Hl].
    destruct (PyFloat.ltb (key x) (key best)) eqn:Hlt.
    + destruct (IH x Hk) as [Hin Hall]. split.
      * apply list_elem_of_further. exact Hin.
      * constructor; [| exact Hall].
        apply Forall_cons in Hall as [Hmx _].
        apply (not_ltb_trans _ (key x) _); auto.
        -- rewrite Forall_forall in Hk. apply Hk. exact Hin.
        -- apply ltb_asym; assumption.
    + destruct (IH best (Forall_cons_2 _ _ _ Hb Hl)) as [Hin Hall]. split.
      * apply elem_of_cons in Hin as [-> | Hin];
          [apply list_elem_of_here |].
        apply list_elem_of_further, list_elem_of_further, Hin.
      * apply Forall_cons in Hall as [Hmb Hall].
        constructor; [exact Hmb |]. constructor; [| exact Hall].
        apply (not_ltb_trans _ (key best) _); auto.
        assert (Hin' : min_from key best l ∈ best :: l) by exact Hin.
        assert (Hkl : Forall (keyed key) (best :: l)) by (constructor; assumption).
        rewrite Forall_forall in Hkl. apply Hkl, Hin'.
Qed.
End SortingFacts.

(** ** Choice of the snapshots *)

(** With fewer than two snapshot files the program stops; otherwise the
    file it takes as new has the latest modification time of all, and
    the file it takes as old the latest of the others. *)
Theorem auto_find_picks_two_newest (files : list DataFile.t) :
  Forall (keyed DataFile.st_mtime) files ->
  match auto_find_sales_files files with
  | None => (length files < 2)%nat
  | Some (old, new) =>
      exists rest,
        files ≡ₚ new :: old :: rest
        /\ PyFloat.ltb (DataFile.st_mtime new) (DataFile.st_mtime old) = false
        /\ Forall (fun f => PyFloat.ltb (DataFile.st_mtime old) (DataFile.st_mtime f)
                            = false
                            /\ PyFloat.ltb (DataFile.st_mtime new) (DataFile.st_mtime f)
                               = false) rest
  end.
Proof.
  intros Hk. unfold auto_find_sales_files.
  pose proof (sorted_reverse_Permutation DataFile.st_mtime files) as Hperm.
  pose proof (sorted_reverse_sorted DataFile.st_mtime files Hk) as Hsorted.
  destruct (sorted_reverse DataFile.st_mtime files) as [| new [| old rest]].
  - apply Permutation_length in Hperm. cbn [length] in Hperm. lia.
  - apply Permutation_length in Hperm. cbn [length] in Hperm. lia.
  - exists rest. split; [symmetry; exact Hperm |].
    apply StronglySorted_inv in Hsorted as [Hsorted Hnew].
    apply StronglySorted_inv in Hsorted as [_ Hold].
    apply Forall_cons in Hnew as [Hno Hnew]. split; [exact Hno |].
    rewrite Forall_forall in Hold, Hnew |- *. auto.
Qed.

Lemma auto_find_picks_two_newest_witness :
  auto_find_sales_files
    [DataFile.mk "sales_1.csv" (PyFloat.of_int 100);
     DataFile.mk "sales_3.csv" (PyFloat.of_int 300);
     DataFile.mk "sales_2.csv" (PyFloat.of_int 200)]
  = Some (DataFile.mk "sales_2.csv" (PyFloat.of_int 200),
          DataFile.mk "sales_3.csv" (PyFloat.of_int 300))
  /\ PyFloat.ltb (PyFloat.of_int 300) (PyFloat.of_int 200) = false.
Proof.
  pose proof (auto_find_picks_two_newest
    [DataFile.mk "sales_1.csv" (PyFloat.of_int 100);
     DataFile.mk "sales_3.csv" (PyFloat.of_int 300);
     DataFile.mk "sales_2.csv" (PyFloat.of_int 200)]
    ltac:(repeat constructor)) as H.
  assert (E : auto_find_sales_files
    [DataFile.mk "sales_1.csv" (PyFloat.of_int 100);
     DataFile.mk "sales_3.csv" (PyFloat.of_int 300);
     DataFile.mk "sales_2.csv" (PyFloat.of_int 200)]
  = Some (DataFile.mk "sales_2.csv" (PyFloat.of_int 200),
          DataFile.mk "sales_3.csv" (PyFloat.of_int 300)))
    by (vm_compute; reflexivity).
  rewrite E in H. destruct H as (rest & _ & Hlt & _).
  split; [exact E | exact Hlt].
Defined.

(** ** Summary *)

Section SummaryFacts.
Variable float_repr : PyFloat.float -> string.

Lemma summary_to_float_parsed (v : string) : parsed (summary_to_float v).
Proof. apply parsed_except. Qed.

Lemma discount_entry_list (r : Sale.t) :
  discount_entry float_repr r = Ok (discount_list float_repr r).
Proof.
  unfold discount_entry, discount_list.
  destruct (parsed_ok _ (summary_to_float_parsed
                           (written float_repr (Sale.discount_percent r))))
    as [v ->].
  cbn [bind]. destruct v; reflexivity.
Qed.

Lemma discounts_list (rows : list Sale.t) :
  discounts float_repr rows = Ok (concat (discount_list float_repr <$> rows)).
Proof.
  unfold discounts.
  rewrite (for_each_pure _ (discount_list float_repr))
    by apply discount_entry_list.
  reflexivity.
Qed.

(** The entry of a row, when it has one: its discount, parsed and
    positive. *)
Lemma discount_list_elem (r : Sale.t) (e : PyFloat.float * Sale.t) :
  e ∈ discount_list float_repr r
  <-> snd e = r
      /\ summary_to_float (written float_repr (Sale.discount_percent r))
         = Ok (Some (fst e))
      /\ PyFloat.truthy (fst e) = true.
Proof.
  unfold discount_list.
  destruct (summary_to_float _) as [[p |] |] eqn:Hp.
  - destruct (PyFloat.truthy p) eqn:Ht.
    + rewrite list_elem_of_singleton. split.
      * intros ->. auto.
      * intros (Hr & [= Hv] & _). destruct e. cbn in *. congruence.
    + split; [intros H%elem_of_nil; contradiction |].
      intros (_ & [= Hv] & Hte). congruence.
  - split; [intros H%elem_of_nil; contradiction | intros (_ & [=] & _)].
  - split; [intros H%elem_of_nil; contradiction | intros (_ & [=] & _)].
Qed.

Lemma discounts_keyed (rows : list Sale.t) :
  Forall (fun e => PyFloat.is_positive (fst e) = true)
    (concat (discount_list float_repr <$> rows)).
Proof.
  apply Forall_forall. intros e (r & _ & He)%elem_of_concat_fmap.
  apply discount_list_elem in He as (_ & Hp & Ht).
  unfold PyFloat.is_positive. rewrite Ht, Bool.andb_true_r.
  destruct (summary_to_float_parsed (written float_repr (Sale.discount_percent r)))
    as [H | (x & H & Hx)]; rewrite Hp in H; inversion H; subst; exact Hx.
Qed.
End SummaryFacts.

(** The rows that count as discounted in a summary are exactly the rows
    whose [discount_percent] text parses to a number that is not zero;
    each is listed once with that number, which is positive, and in the
    order of the file. A row with an empty or zero discount is never
    counted, flagged or ranked. *)
Theorem summary_counts_discounted_rows
    (float_repr : PyFloat.float -> string) (rows : list Sale.t) :
  exists ds,
    discounts float_repr rows = Ok ds
    /\ (forall p r,
          (p, r) ∈ ds
          <-> r ∈ rows
              /\ summary_to_float (written float_repr (Sale.discount_percent r))
                 = Ok (Some p)
              /\ PyFloat.truthy p = true)
    /\ Forall (fun e => PyFloat.is_positive (fst e) = true) ds
    /\ sublist (snd <$> ds) rows.
Proof.
  eexists. split; [apply discounts_list |]. split; [| split].
  - intros p r. rewrite elem_of_concat_fmap. split.
    + intros (r' & Hr' & (Hr & Hp & Ht)%discount_list_elem).
      cbn [fst snd] in *. subst r'. auto.
    + intros (Hr & Hp & Ht). exists r. split; [exact Hr |].
      apply discount_list_elem. auto.
  - apply discounts_keyed.
  - induction rows as [| r rows IH]; cbn [fmap list_fmap concat]; [constructor |].
    rewrite fmap_app. unfold discount_list at 1.
    destruct (summary_to_float _) as [[p |] |]; cbn [fmap list_fmap app];
      try (apply sublist_cons; exact IH).
    destruct (PyFloat.truthy p); cbn [fmap list_fmap app snd];
      [apply sublist_skip | apply sublist_cons]; exact IH.
Qed.




(** The highest and the lowest entry of a summary are discounted rows of
    the file; no discounted row has a greater discount than the highest,
    none a smaller one than the lowest. The flagged entries, listed on
    request only, are in file order the discounted rows whose discount
    is at least 60. *)
Theorem summary_extremes_and_flags
    (float_repr : PyFloat.float -> string) (rows : list Sale.t)
    (top_n : Z) (flag_high : bool) :
  exists ds out,
    discounts float_repr rows = Ok ds
    /\ summarize_csv float_repr rows top_n flag_high = Ok out
    /\ match out with
       | NoData => rows = []
       | NoDiscounts _ => ds = []
       | Report _ _ highest lowest flagged _ =>
           highest ∈ ds /\ lowest ∈ ds
           /\ Forall (fun e => PyFloat.ltb (fst highest) (fst e) = false
                               /\ PyFloat.ltb (fst e) (fst lowest) = false) ds
           /\ match flagged with
              | None => flag_high = false
              | Some fl =>
                  flag_high = true /\ sublist fl ds
                  /\ forall e, e ∈ fl <-> e ∈ ds /\ at_least_60 (fst e) = true
              end
       end.
Proof.
  exists (concat (discount_list float_repr <$> rows)).
  unfold summarize_csv. rewrite discounts_list.
  destruct rows as [| r0 rows]; [eexists; repeat split |].
  set (ds := concat (discount_list float_repr <$> r0 :: rows)).
  pose proof (discounts_keyed float_repr (r0 :: rows)) as Hpos. fold ds in Hpos.
  cbn [bind]. destruct ds as [| d ds'] eqn:Hds;
    [eexists; repeat split |].
  eexists. split; [reflexivity |]. split; [reflexivity |].
  assert (Hk : Forall (keyed fst) (d :: ds')).
  { eapply Forall_impl; [exact Hpos |]. intros e He. unfold keyed.
    apply nonneg_not_nan. unfold PyFloat.is_positive in He.
    apply andb_prop in He as [He _]. exact He. }
  destruct (max_from_greatest fst ds' d Hk) as [Hmax_in Hmax].
  destruct (min_from_least fst ds' d Hk) as [Hmin_in Hmin].
  split; [exact Hmax_in |]. split; [exact Hmin_in |]. split.
  - rewrite Forall_forall in Hmax, Hmin |- *. auto.
  - destruct flag_high; [| reflexivity].
    split; [reflexivity |]. split.
    + generalize (d :: ds'). intros l.
      induction l as [| x l IH]; cbn [List.filter]; [constructor |].
      destruct (at_least_60 (fst x));
        [apply sublist_skip | apply sublist_cons]; exact IH.
    + intros e. rewrite list_elem_of_In, filter_In, <- list_elem_of_In.
      reflexivity.
Qed.

(** The example of the specification: of the discounts 10.0, 60.0 and
    75.0 the highest is 75.0, and with the flag 60.0 and 75.0 are
    listed. *)
Lemma summary_extremes_and_flags_witness :
  let row := fun n d => Sale.mk "" "" n "$1.00" "" "" (CStr "") (CStr d) "u" "" in
  exists total n hi lo fl ranking,
    summarize_csv (fun _ => "") [row "a" "10.0"; row "b" "60.0"; row "c" "75.0"]
      10 true
    = Ok (Report total n hi lo (Some fl) ranking)
    /\ fst hi = PyFloat.of_decimal 750 1
    /\ List.map fst fl = [PyFloat.of_decimal 600 1; PyFloat.of_decimal 750 1]
    /\ hi ∈ ranking.
Proof.
  intros row.
  destruct (summary_extremes_and_flags (fun _ => "")
              [row "a" "10.0"; row "b" "60.0"; row "c" "75.0"] 10 true)
    as (ds & out & Hds & Hout & Hspec).
  vm_compute in Hds. inversion Hds as [Eds]. clear Hds.
  assert (E : summarize_csv (fun _ => "")
                [row "a" "10.0"; row "b" "60.0"; row "c" "75.0"] 10 true
              = Ok (Report 3 3
                      (PyFloat.of_decimal 750 1, row "c" "75.0")
                      (PyFloat.of_decimal 100 1, row "a" "10.0")
                      (Some [(PyFloat.of_decimal 600 1, row "b" "60.0");
                             (PyFloat.of_decimal 750 1, row "c" "75.0")])
                      [(PyFloat.of_decimal 750 1, row "c" "75.0");
                       (PyFloat.of_decimal 600 1, row "b" "60.0");
                       (PyFloat.of_decimal 100 1, row "a" "10.0")]))
    by (vm_compute; reflexivity).
  rewrite E in Hout. inversion Hout as [Eout]. rewrite <- Eout in Hspec.
  destruct Hspec as (Hhi & _).
  do 6 eexists. split; [exact E |].
  split; [reflexivity |]. split; [reflexivity |].
  apply list_elem_of_here.
Defined.

(** ** Text before a price *)

Lemma last_chars_length (n : nat) (s : string) :
  (length (PyStr.chars (last_chars n s)) <= n)%nat.
Proof. unfold last_chars. rewrite chars_text, length_drop. lia. Qed.

Lemma first_chars_length (n : nat) (s : string) :
  (length (PyStr.chars (first_chars n s)) <= n)%nat.
Proof. unfold first_chars. rewrite chars_text, length_take. lia. Qed.

(** The name [nearest_text_before] returns never has more than 180
    characters, whichever branch gives it. *)
Theorem nearest_text_before_bounded (parent_text : option string) (prev : sibling) :
  (length (PyStr.chars (nearest_text_before parent_text prev)) <= 180)%nat.
Proof.
  unfold nearest_text_before.
  destruct (negb (String.eqb (left_of_price parent_text) ""));
    [apply last_chars_length |].
  destruct parent_text as [p |]; [| cbn; lia].
  destruct prev as [t | s |]; try apply first_chars_length; [| cbn; lia].
  destruct (String.eqb s ""); [cbn; lia | apply first_chars_length].
Qed.

(** When some text stands before the first price of the parent, the
    previous sibling is not looked at: the result is the same for every
    sibling. *)
Theorem nearest_text_before_ignores_sibling
    (parent_text : option string) (prev prev' : sibling) :
  left_of_price parent_text <> "" ->
  nearest_text_before parent_text prev = nearest_text_before parent_text prev'.
Proof.
  intros Hleft. unfold nearest_text_before.
  destruct (String.eqb_spec (left_of_price parent_text) "") as [E | _];
    [contradiction | reflexivity].
Qed.

(** A heading that ends with a colon before the price: the name is
    empty, though the sibling has text. *)
Lemma nearest_text_before_ignores_sibling_witness :
  nearest_text_before (Some "Deals: $5") (PrevTag "Paper Towel") = "".
Proof.
  rewrite (nearest_text_before_ignores_sibling (Some "Deals: $5")
             (PrevTag "Paper Towel") PrevNone)
    by (vm_compute; discriminate).
  vm_compute. reflexivity.
Defined.

Lemma last_chunk_no_separator (l : list ascii) :
  forall cur, Forall (fun c => is_separator c = false) cur ->
  Forall (fun c => is_separator c = false) (last_chunk cur l).
Proof.
  induction l as [| c l IH]; intros cur Hcur; cbn [last_chunk].
  - apply Forall_rev. exact Hcur.
  - destruct (is_separator c) eqn:Hc; apply IH; constructor; assumption.
Qed.

Lemma collapse_Forall (P : ascii -> Prop) (l : list ascii) :
  P " "%char -> Forall P l -> forall b, Forall P (PyStr.collapse b l).
Proof.
  intros Hsp. induction 1 as [| c l Hc Hl IH]; intros b; cbn [PyStr.collapse];
    [constructor |].
  destruct (PyChar.isspace c); [destruct b |]; try constructor; auto.
Qed.

Lemma clean_text_Forall (P : ascii -> Prop) (t : string) :
  P " "%char -> Forall P (PyStr.chars t) -> Forall P (PyStr.chars (clean_text t)).
Proof.
  intros Hsp Ht. unfold clean_text. apply strip_Forall. rewrite chars_text.
  apply collapse_Forall; assumption.
Qed.

(** When some text stands before the first price of the parent, the
    name returned holds none of the separators the text is split at:
    it lies after the last hyphen, bar, colon or line feed. *)
Theorem nearest_text_before_no_separator
    (parent_text : option string) (prev : sibling) :
  left_of_price parent_text <> "" ->
  Forall (fun c => is_separator c = false)
    (PyStr.chars (nearest_text_before parent_text prev)).
Proof.
  intros Hleft. unfold nearest_text_before.
  destruct (String.eqb_spec (left_of_price parent_text) "") as [E | _];
    [contradiction |].
  cbn [negb]. unfold last_chars. rewrite chars_text.
  apply Forall_drop, clean_text_Forall; [reflexivity |].
  rewrite chars_text. apply last_chunk_no_separator. constructor.
Qed.

Lemma nearest_text_before_no_separator_witness :
  Forall (fun c => is_separator c = false)
    (PyStr.chars (nearest_text_before
                    (Some "Deals | Kirkland  Paper Towel $12.99") PrevNone))
  /\ nearest_text_before (Some "Deals | Kirkland  Paper Towel $12.99") PrevNone
     = "Kirkland Paper Towel".
Proof.
  split; [| vm_compute; reflexivity].
  apply nearest_text_before_no_separator. vm_compute. discriminate.
Defined.

(** ** The first of the ranking *)

Section FirstOfRanking.
Context {A : Type} (key : A -> PyFloat.float).

Lemma last_insert_asc (x : A) (s : list A) (b : A) :
  keyed key x -> Forall (keyed key) s ->
  StronglySorted (fun a c => PyFloat.ltb (key c) (key a) = false) s ->
  last s = Some b ->
  last (insert_asc key x s)
  = Some (if PyFloat.ltb (key b) (key x) then x else b).
Proof.
  intros Hx Hk Hsorted. revert b.
  induction Hsorted as [| y s Hsorted IH Hy]; intros b Hb; [discriminate |].
  apply Forall_cons in Hk as [Hky Hk]. cbn [insert_asc].
  destruct s as [| z s].
  - cbn in Hb. inversion Hb; subst y. cbn [insert_asc].
    destruct (PyFloat.ltb (key b) (key x)); reflexivity.
  - change (last (y :: z :: s)) with (last (z :: s)) in Hb.
    destruct (PyFloat.ltb (key y) (key x)) eqn:Hlt.
    + specialize (IH Hk b Hb).
      destruct (insert_asc key x (z :: s)) as [| w r] eqn:Hins.
      * pose proof (insert_asc_Permutation key x (z :: s)) as Hp.
        rewrite Hins in Hp. apply Permutation_nil_l in Hp. discriminate.
      * exact IH.
    + assert (Hbin : b ∈ z :: s) by (apply last_Some_elem_of; exact Hb).
      assert (Hbx : PyFloat.ltb (key b) (key x) = false).
      { apply (not_ltb_trans _ (key y) _); auto.
        - rewrite Forall_forall in Hk. apply Hk, Hbin.
        - rewrite Forall_forall in Hy. apply Hy, Hbin. }
      rewrite Hbx. exact Hb.
Qed.

Lemma insert_asc_keyed (x : A) (s : list A) :
  keyed key x -> Forall (keyed key) s -> Forall (keyed key) (insert_asc key x s).
Proof.
  intros Hx Hs. rewrite insert_asc_Permutation. constructor; assumption.
Qed.

(** Sorting the elements of [t], taken from the last to the first, into
    a sorted list whose last element is [b] leaves [max_from b t] last. *)
Lemma last_sorted_max (t : list A) :
  forall s b,
    Forall (keyed key) t -> Forall (keyed key) s ->
    StronglySorted (fun a c => PyFloat.ltb (key c) (key a) = false) s ->
    last s = Some b ->
    last (fold_right (insert_asc key) s (rev t)) = Some (max_from key b t).
Proof.
  induction t as [| x t IH]; intros s b Ht Hs Hsorted Hb; [exact Hb |].
  apply Forall_cons in Ht as [Hx Ht].
  cbn [rev max_from]. rewrite fold_right_app. cbn [fold_right].
  pose proof (last_insert_asc x s b Hx Hs Hsorted Hb) as Hlast.
  destruct (PyFloat.ltb (key b) (key x));
    (apply IH; [exact Ht | apply insert_asc_keyed; assumption
               | apply insert_asc_sorted; assumption
               | exact Hlast]).
Qed.

(** The first element of [sorted(l, key=key, reverse=True)] is
    [max(l, key=key)]. *)
Lemma head_sorted_reverse (d : A) (l : list A) :
  Forall (keyed key) (d :: l) ->
  exists rest, sorted_reverse key (d :: l) = max_from key d l :: rest.
Proof.
  intros Hk. apply Forall_cons in Hk as [Hd Hl].
  unfold sorted_reverse, sorted_asc. cbn [rev].
  rewrite fold_right_app. cbn [fold_right insert_asc].
  pose proof (last_sorted_max l [d] d Hl ltac:(repeat constructor; exact Hd)
                ltac:(repeat constructor) eq_refl) as Hlast.
  apply last_Some in Hlast as [pre Hpre]. rewrite Hpre.
  rewrite rev_app_distr. cbn [rev app]. eauto.
Qed.
End FirstOfRanking.

(** The top discounted item a summary names is the first entry of its
    ranking, whenever the ranking has an entry ([top_n] at least 1):
    among rows of equal, highest discount both take the first of the
    file. *)
Theorem summary_top_item_heads_ranking
    (float_repr : PyFloat.float -> string) (rows : list Sale.t)
    (top_n : Z) (flag_high : bool) :
  1 <= top_n ->
  exists out,
    summarize_csv float_repr rows top_n flag_high = Ok out
    /\ match out with
       | Report _ _ highest _ _ ranking => head ranking = Some highest
       | _ => True
       end.
Proof.
  intros Hn. unfold summarize_csv. rewrite discounts_list.
  destruct rows as [| r0 rows]; [eexists; split; [reflexivity | exact I] |].
  set (ds := concat (discount_list float_repr <$> r0 :: rows)).
  pose proof (discounts_keyed float_repr (r0 :: rows)) as Hpos. fold ds in Hpos.
  cbn [bind]. destruct ds as [| d ds'] eqn:Hds;
    [eexists; split; [reflexivity | exact I] |].
  eexists. split; [reflexivity |].
  assert (Hk : Forall (keyed fst) (d :: ds')).
  { eapply Forall_impl; [exact Hpos |]. intros e He. unfold keyed.
    apply nonneg_not_nan. unfold PyFloat.is_positive in He.
    apply andb_prop in He as [He _]. exact He. }
  destruct (head_sorted_reverse fst d ds' Hk) as [rest ->].
  unfold slice_to. replace (0 <=? top_n) with true by (symmetry; apply Z.leb_le; lia).
  destruct (Z.to_nat top_n) as [| k] eqn:Hk0; [lia | reflexivity].
Qed.

Lemma summary_top_item_heads_ranking_witness :
  let row := fun n d => Sale.mk "" "" n "$1.00" "" "" (CStr "") (CStr d) "u" "" in
  exists total n hi lo fl ranking,
    summarize_csv (fun _ => "")
      [row "a" "10.0"; row "b" "75.0"; row "c" "75.0"] 2 false
    = Ok (Report total n hi lo fl ranking)
    /\ head ranking = Some hi /\ Sale.product_name (snd hi) = "b".
Proof.
  intros row.
  destruct (summary_top_item_heads_ranking (fun _ => "")
              [row "a" "10.0"; row "b" "75.0"; row "c" "75.0"] 2 false
              ltac:(lia)) as (out & Hout & Hhead).
  assert (E : summarize_csv (fun _ => "")
                [row "a" "10.0"; row "b" "75.0"; row "c" "75.0"] 2 false
              = Ok (Report 3 3
                      (PyFloat.of_decimal 750 1, row "b" "75.0")
                      (PyFloat.of_decimal 100 1, row "a" "10.0")
                      None
                      [(PyFloat.of_decimal 750 1, row "b" "75.0");
                       (PyFloat.of_decimal 750 1, row "c" "75.0")]))
    by (vm_compute; reflexivity).
  rewrite E in Hout. inversion Hout as [Eout]. rewrite <- Eout in Hhead.
  do 6 eexists. split; [exact E |]. split; [exact Hhead | reflexivity].
Defined.
